(** * Veri-madenciligi: news / stock-price merge pipeline

    A shallow embedding of the data-wrangling core of the repository
    (src/Veri_Alma/HaberVerileriniAlma.py, src/Veri_Alma/Haberveri.py and
    src/data_preprocessing.py) together with the properties its
    specification states about it.

    Conventions.  Python [int] is [Z].  The prices and returns of
    [transform_data] are float64 values, Rocq's primitive floats; the
    sentiment scores, which the code only averages and compares, are
    idealised as the rationals [Q].  A [str] is a [string] holding its
    UTF-8 encoding; where the code counts or cuts characters the model
    does so too (module [Unicode]).  An exception is a value of [exn]
    carried by [result]; a pandas DataFrame is a list of rows, typed
    records on the input side and association lists from column name to
    [cell] on the output side. *)

From Stdlib Require Import List Sorted ZArith QArith Qminmax Bool Lia Lqa Ascii String.
From Stdlib Require Import Qabs.
From Stdlib Require Floats.
Import ListNotations.
Open Scope string_scope.
Open Scope Z_scope.

(** ** Python exceptions and fallible computations *)

Module Py.

(** The exception classes the modelled code raises or catches.
    [RequestException] carries [e.response.status_code] when a response is
    attached to the exception. *)
Inductive exn : Type :=
| RequestException (status : option Z)
| ConnectionError
| ValueError
| IOError
| AttributeError
| KeyError
| OtherError (name : string).

Inductive result (A : Type) : Type :=
| Ok (a : A)
| Raise (e : exn).

Arguments Ok {A} a.
Arguments Raise {A} e.

Definition bind {A B : Type} (r : result A) (k : A -> result B) : result B :=
  match r with
  | Ok a => k a
  | Raise e => Raise e
  end.

(** A loop that builds a list and stops at the first exception. *)
Fixpoint map_result {A B : Type} (f : A -> result B) (l : list A) : result (list B) :=
  match l with
  | [] => Ok []
  | a :: rest =>
    match f a with
    | Raise e => Raise e
    | Ok b =>
      match map_result f rest with
      | Raise e => Raise e
      | Ok bs => Ok (b :: bs)
      end
    end
  end.

(** What a module-level name is bound to.  Both news modules run
    [import time] and, below it,
    [from datetime import datetime, timedelta, time]. *)
Inductive pyobj : Type :=
| TimeModule          (* the standard module [time] *)
| DatetimeClass       (* the class [datetime.datetime] *)
| TimedeltaClass      (* the class [datetime.timedelta] *)
| DatetimeTimeClass.  (* the class [datetime.time] *)

Inductive import_stmt : Type :=
| ImportModule (module : string) (obj : pyobj)
| ImportFrom (module : string) (names : list (string * pyobj)).

Definition namespace := list (string * pyobj).

(** A later binding of a name shadows the earlier one. *)
Definition bind_name (ns : namespace) (name : string) (o : pyobj) : namespace :=
  (name, o) :: ns.

Definition exec_import (ns : namespace) (s : import_stmt) : namespace :=
  match s with
  | ImportModule m o => bind_name ns m o
  | ImportFrom _ names => fold_left (fun acc p => bind_name acc (fst p) (snd p)) names ns
  end.

Fixpoint lookup_name (ns : namespace) (name : string) : option pyobj :=
  match ns with
  | [] => None
  | (n, o) :: rest => if String.eqb n name then Some o else lookup_name rest name
  end.

(** HaberVerileriniAlma.py lines 15 and 17; Haberveri.py lines 14 and 19. *)
Definition news_module_imports : list import_stmt :=
  [ ImportModule "time" TimeModule;
    ImportFrom "datetime"
      [("datetime", DatetimeClass); ("timedelta", TimedeltaClass); ("time", DatetimeTimeClass)] ].

Definition news_module_globals : namespace :=
  fold_left exec_import news_module_imports [].

(** The expression [time.sleep(delay)], evaluated in a namespace: the module
    [time] sleeps and returns [None]; the class [datetime.time] has no
    attribute [sleep]. *)
Definition call_time_sleep (ns : namespace) (delay : Q) : result unit :=
  match lookup_name ns "time" with
  | Some TimeModule => Ok tt
  | Some _ => Raise AttributeError
  | None => Raise (OtherError "NameError")
  end.

(** The namespace the author presumably had in mind: [time] is the module. *)
Definition intended_globals : namespace := [("time", TimeModule)].

End Py.

Import Py.

(** ** retry_with_backoff (HaberVerileriniAlma.py 83-134, Haberveri.py 41-93) *)

Module Retry.

Section Wrapper.

Variable A : Type.

(** The decorator's arguments. *)
Variable initial_delay : Q.
Variable exponential_base : Q.
Variable jitter : bool.
Variable max_retries : Z.

(** The environment of one call of [wrapper]: the module namespace in which
    [time.sleep] is looked up, the outcome of the k-th invocation of the
    wrapped function, and the k-th value of [random.random()]. *)
Variable ns : namespace.
Variable func : nat -> result A.
Variable random : nat -> Q.

(** The [except] clause's classes: RequestException, ConnectionError,
    ValueError, IOError. *)
Definition caught (e : exn) : bool :=
  match e with
  | RequestException _ | ConnectionError | ValueError | IOError => true
  | _ => false
  end.

Definition too_many_requests (e : exn) : bool :=
  match e with
  | RequestException (Some code) => code =? 429
  | _ => false
  end.

(** What one call of [wrapper] did: its outcome, how many times the wrapped
    function was invoked and the delays it slept through. *)
Record run : Type := mkRun {
  outcome : result A;
  calls : nat;
  sleeps : list Q
}.

(** The [while True] loop.  [fuel] bounds the iterations; [wrapper] below
    supplies enough of it. *)
Fixpoint loop (fuel : nat) (num_retries : Z) (delay : Q) (ncalls : nat) (slept : list Q)
  : option run :=
  match fuel with
  | O => None
  | S fuel' =>
    match func ncalls with
    | Ok v => Some (mkRun (Ok v) (S ncalls) slept)
    | Raise e =>
      if caught e then
        let num_retries := num_retries + 1 in
        if num_retries >? max_retries then
          Some (mkRun (Raise e) (S ncalls) slept)
        else
          let delay := (delay * (exponential_base * (if too_many_requests e then 2 else 1)))%Q in
          let delay := if jitter then (delay * ((1 # 2) + random ncalls))%Q else delay in
          match call_time_sleep ns delay with
          | Raise e' => Some (mkRun (Raise e') (S ncalls) slept)
          | Ok _ => loop fuel' num_retries delay (S ncalls) (slept ++ [delay])
          end
      else Some (mkRun (Raise e) (S ncalls) slept)
    end
  end.

Definition wrapper_fuel : nat := S (Z.to_nat max_retries).

Definition wrapper : option run :=
  loop wrapper_fuel 0 initial_delay O [].

End Wrapper.

Arguments mkRun {A}.
Arguments outcome {A}.
Arguments calls {A}.
Arguments sleeps {A}.

End Retry.

(** ** Time-of-day bucketing (HaberVerileriniAlma.py 929-937) *)

Module TimeOfDay.

Definition get_time_of_day (hour : Z) : string :=
  if (9 <=? hour) && (hour <? 12) then "sabah"
  else if (12 <=? hour) && (hour <? 14) then "öğle"
  else if (14 <=? hour) && (hour <? 17) then "akşam"
  else "diğer".

End TimeOfDay.

(** ** Symbol formatting (HaberVerileriniAlma.py 137-221) *)

Module Symbols.

(** Python [str] is modelled by [string] with ASCII semantics: [upper]
    maps a-z to A-Z and leaves every other character alone, and the
    characters [strip] removes are the ASCII ones [str.isspace] accepts
    (codes 9-13 and 28-32). *)
Definition is_space (c : ascii) : bool :=
  let n := nat_of_ascii c in
  ((9 <=? n) && (n <=? 13) || (28 <=? n) && (n <=? 32))%nat.

Definition upper_char (c : ascii) : ascii :=
  let n := nat_of_ascii c in
  if ((97 <=? n) && (n <=? 122))%nat then ascii_of_nat (n - 32) else c.

Fixpoint upper (s : string) : string :=
  match s with
  | EmptyString => EmptyString
  | String c s' => String (upper_char c) (upper s')
  end.

Fixpoint lstrip (s : string) : string :=
  match s with
  | EmptyString => EmptyString
  | String c s' => if is_space c then lstrip s' else s
  end.

Fixpoint rstrip (s : string) : string :=
  match s with
  | EmptyString => EmptyString
  | String c s' =>
    match rstrip s' with
    | EmptyString => if is_space c then EmptyString else String c EmptyString
    | String d r => String c (String d r)
    end
  end.

Definition strip (s : string) : string := rstrip (lstrip s).

(** A string that does not start with white space. *)
Definition starts_clean (s : string) : bool :=
  match s with
  | EmptyString => true
  | String c _ => negb (is_space c)
  end.

(** [needle in hay] *)
Fixpoint str_contains (needle hay : string) : bool :=
  String.prefix needle hay ||
  match hay with
  | EmptyString => false
  | String _ hay' => str_contains needle hay'
  end.

(** [x in [a, b, ...]] for a list of strings *)
Definition str_in (x : string) (l : list string) : bool :=
  existsb (String.eqb x) l.

(** [d.get(key, default)] for a dict literal *)
Fixpoint dict_get (d : list (string * string)) (key default : string) : string :=
  match d with
  | [] => default
  | (k, v) :: d' => if String.eqb k key then v else dict_get d' key default
  end.

Definition common_symbols : list (string * string) :=
  [ ("THYAO", "THYAO.IS");
    ("ASELS", "ASELS.IS");
    ("ISCTR", "ISCTR.IS");
    ("GARAN", "GARAN.IS") ].

Definition format_stock_symbol (symbol exchange : string) : string :=
  let symbol := strip (upper symbol) in
  if str_contains "." symbol then symbol
  else
    let by_table := dict_get common_symbols symbol symbol in
    if negb (String.eqb exchange "") then
      let exchange := strip (upper exchange) in
      if str_in exchange ["BIST"; "BORSA ISTANBUL"; "BORSA İSTANBUL"; "XU100"] then
        symbol ++ ".IS"
      else if str_in exchange ["NASDAQ"; "NYSE"; "US"; "USA"; "AMERICA"] then symbol
      else by_table
    else by_table.

Definition index_map : list (string * string) :=
  [ ("NASDAQ", "^IXIC");
    ("NASDQ", "^IXIC");
    ("S&P", "^GSPC");
    ("S&P500", "^GSPC");
    ("S&P 500", "^GSPC");
    ("SP500", "^GSPC");
    ("DOW", "^DJI");
    ("DOWJONES", "^DJI");
    ("DOW JONES", "^DJI");
    ("BIST", "XU100.IS");
    ("BIST100", "XU100.IS");
    ("XU100", "XU100.IS");
    ("BORSA ISTANBUL", "XU100.IS");
    ("DAX", "^GDAXI");
    ("FTSE", "^FTSE");
    ("FTSE100", "^FTSE");
    ("NIKKEI", "^N225");
    ("VIX", "^VIX") ].

Definition format_index_symbol (index_name : string) : string :=
  let index_name := strip (upper index_name) in
  dict_get index_map index_name index_name.

End Symbols.

(** ** The characters of a str *)

Module Unicode.

(** A Python [str] is a sequence of code points; a [string] holds its
    UTF-8 encoding, one [ascii] for each byte.  A byte 10xxxxxx continues a
    character and every other byte begins one. *)
Definition continuation (c : ascii) : bool :=
  let n := nat_of_ascii c in ((128 <=? n) && (n <? 192))%nat.

(** [len(s)] *)
Fixpoint len (s : string) : nat :=
  match s with
  | EmptyString => O
  | String c s' => if continuation c then len s' else S (len s')
  end.

(** [s[:n]] *)
Fixpoint take (n : nat) (s : string) : string :=
  match s with
  | EmptyString => EmptyString
  | String c s' =>
    if continuation c then String c (take n s')
    else
      match n with
      | O => EmptyString
      | S n' => String c (take n' s')
      end
  end.

(** [s] begins in the middle of a character. *)
Definition begins_inside (s : string) : bool :=
  match s with
  | EmptyString => false
  | String c _ => continuation c
  end.

(** The characters of [s], each with its bytes. *)
Fixpoint chars (s : string) : list string :=
  match s with
  | EmptyString => []
  | String c s' =>
    match chars s' with
    | ch :: rest =>
      if begins_inside s' then String c ch :: rest else String c EmptyString :: ch :: rest
    | [] => [String c EmptyString]
    end
  end.

Definition utf8 (bytes : list nat) : string :=
  string_of_list_ascii (map ascii_of_nat bytes).

(** The white space of [str.isspace] beyond ASCII: U+0085, U+00A0, U+1680,
    U+2000 to U+200A, U+2028, U+2029, U+202F, U+205F and U+3000. *)
Definition wide_spaces : list string :=
  map utf8
    [ [194; 133]; [194; 160]; [225; 154; 128];
      [226; 128; 128]; [226; 128; 129]; [226; 128; 130]; [226; 128; 131];
      [226; 128; 132]; [226; 128; 133]; [226; 128; 134]; [226; 128; 135];
      [226; 128; 136]; [226; 128; 137]; [226; 128; 138];
      [226; 128; 168]; [226; 128; 169]; [226; 128; 175]; [226; 129; 159];
      [227; 128; 128] ]%nat.

Definition is_space (ch : string) : bool :=
  match ch with
  | String c EmptyString => Symbols.is_space c
  | _ => Symbols.str_in ch wide_spaces
  end.

Fixpoint lstrip_chars (l : list string) : list string :=
  match l with
  | [] => []
  | ch :: rest => if is_space ch then lstrip_chars rest else l
  end.

(** [s.strip()] *)
Definition strip (s : string) : string :=
  String.concat "" (rev (lstrip_chars (rev (lstrip_chars (chars s))))).

End Unicode.

(** ** News frames *)

Module Frames.

(** A timestamp: day number (days since a fixed epoch), hour, minute. *)
Record datetime : Type := mkDatetime {
  dt_day : Z;
  dt_hour : Z;
  dt_minute : Z
}.

(** One row of a news DataFrame.  A field whose column is not listed in the
    frame's [news_columns] is not part of the data and is never read. *)
Record NewsRow : Type := mkNewsRow {
  n_date : Z;
  n_publishedAt : datetime;
  n_title : string;
  n_description : string;
  n_content : string;
  n_url : option string;          (* [None]: a null url *)
  n_sentiment_compound : Q;
  n_sentiment_pos : Q;
  n_sentiment_neg : Q;
  n_sentiment_neu : Q;
  n_sentiment_label : string
}.

Record NewsFrame : Type := mkNewsFrame {
  news_columns : list string;
  news_rows : list NewsRow
}.

(** [pd.DataFrame()] *)
Definition empty_frame : NewsFrame := mkNewsFrame [] [].

(** [df.empty]: an axis of length 0. *)
Definition frame_empty (df : NewsFrame) : bool :=
  match news_columns df, news_rows df with
  | [], _ => true
  | _, [] => true
  | _, _ => false
  end.

Definition has_column (df : NewsFrame) (c : string) : bool :=
  Symbols.str_in c (news_columns df).

End Frames.

Import Frames.

(** ** Fetching news (HaberVerileriniAlma.py 411-788, Haberveri.py 152-310) *)

Module News.

(** *** Deduplication: [news_df.drop_duplicates(subset=["url"], keep="first")] *)

Definition url_eqb (a b : option string) : bool :=
  match a, b with
  | Some x, Some y => String.eqb x y
  | None, None => true   (* pandas counts two missing urls as duplicates *)
  | _, _ => false
  end.

Definition seen_url (u : option string) (seen : list (option string)) : bool :=
  existsb (url_eqb u) seen.

(** Rows are visited in frame order; a row is dropped when its url was
    met before. *)
Fixpoint drop_seen (seen : list (option string)) (rows : list NewsRow) : list NewsRow :=
  match rows with
  | [] => []
  | r :: rest =>
    if seen_url (n_url r) seen then drop_seen seen rest
    else r :: drop_seen (n_url r :: seen) rest
  end.

Definition drop_duplicates_url (rows : list NewsRow) : list NewsRow :=
  drop_seen [] rows.

(** [l] is [l'] with some elements removed, order kept. *)
Inductive Subseq {A : Type} : list A -> list A -> Prop :=
| Subseq_nil : Subseq [] []
| Subseq_keep : forall x l l', Subseq l l' -> Subseq (x :: l) (x :: l')
| Subseq_drop : forall x l l', Subseq l l' -> Subseq l (x :: l').

(** *** The NewsAPI response *)

Record Article : Type := mkArticle {
  a_publishedAt : option datetime;   (* [None]: null or unparseable, NaT after coercion *)
  a_title : string;
  a_description : string;
  a_content : string;
  a_url : option string
}.

Record Response : Type := mkResponse {
  status : string;
  articles : list Article
}.

Section GetNewsData.

(** The world [get_news_data] runs in. *)
Variable ns : namespace.                        (* the module's globals *)
Variable now : datetime.                        (* [datetime.now()] *)
Variable NEWS_API_KEY : option string.          (* [os.getenv("NEWS_API_KEY")] *)
Variable strptime : string -> result Z.         (* [datetime.strptime(s, "%Y-%m-%d")] *)
Variable strftime : Z -> string.                (* [d.strftime("%Y-%m-%d")] *)
Variable get_everything : string -> string -> string -> result Response.
                                                (* [newsapi.get_everything(q, from_param, to, ...)] *)
Variable file_exists : string -> bool.          (* [os.path.exists] *)
Variable read_csv : string -> result NewsFrame. (* [pd.read_csv] *)
Variable polarity_scores : string -> Q * Q * Q * Q.
                                                (* VADER: compound, pos, neg, neu *)
(** Step 2 of [get_alternative_news_data] (lines 622-783): the randomly
    generated articles, scored and saved to the CSV path; [Raise] when any
    statement of that [try] block raises. *)
Variable generate_synthetic : string -> string -> string -> bool -> result NewsFrame.

(** **** add_sentiment_scores (lines 791-851) *)

Definition combine_text (r : NewsRow) : string :=
  let title := n_title r in
  let desc := n_description r in
  if negb (String.eqb title "") && negb (String.eqb desc "") then title ++ ". " ++ desc
  else if negb (String.eqb title "") then title else desc.

Definition get_sentiment (text : string) : Q * Q * Q * Q :=
  if String.eqb text "" then (0, 0, 0, 0)%Q else polarity_scores text.

Definition get_sentiment_label (compound : Q) : string :=
  if Qle_bool (5 # 100) compound then "pozitif"
  else if Qle_bool compound (- (5 # 100)) then "negatif"
  else "nötr".

Definition score_row (r : NewsRow) : NewsRow :=
  match get_sentiment (combine_text r) with
  | (compound, pos, neg, neu) =>
    mkNewsRow (n_date r) (n_publishedAt r) (n_title r) (n_description r) (n_content r)
              (n_url r) compound pos neg neu (get_sentiment_label compound)
  end.

Definition add_sentiment_scores (df : NewsFrame) : NewsFrame :=
  if has_column df "title" && has_column df "description" then
    mkNewsFrame
      (news_columns df ++
       ["sentiment_pos"; "sentiment_neu"; "sentiment_neg"; "sentiment_compound"; "sentiment_label"])
      (map score_row (news_rows df))
  else df.   (* KeyError inside the function's own try: the frame comes back unscored *)

(** **** get_alternative_news_data (lines 582-788) *)

Definition replace_char (old new : ascii) (s : string) : string :=
  string_of_list_ascii
    (map (fun c => if Ascii.eqb c old then new else c) (list_ascii_of_string s)).

(** [str.lower()] on the ASCII letters; every other character is left
    alone. *)
Definition lower_char (c : ascii) : ascii :=
  let n := nat_of_ascii c in
  if ((65 <=? n) && (n <=? 90))%nat then ascii_of_nat (n + 32) else c.

Definition lower (s : string) : string :=
  string_of_list_ascii (map lower_char (list_ascii_of_string s)).

Definition saved_file_path (company_name start_date end_date : string) : string :=
  "veri/haber/" ++ lower (replace_char " " "_" company_name) ++ "_haberler_"
    ++ start_date ++ "_" ++ end_date ++ ".csv".

(** Step 1: a previously saved CSV, when it exists, reads and is non-empty. *)
Definition saved_news (company_name start_date end_date : string) : option NewsFrame :=
  let path := saved_file_path company_name start_date end_date in
  if file_exists path then
    match read_csv path with
    | Ok data => if negb (frame_empty data) then Some data else None
    | Raise _ => None
    end
  else None.

Definition get_alternative_news_data
    (company_name start_date end_date : string) (analyze_sentiment : bool) : NewsFrame :=
  match saved_news company_name start_date end_date with
  | Some data => data
  | None =>
    match generate_synthetic company_name start_date end_date analyze_sentiment with
    | Ok news_df => news_df
    | Raise _ => empty_frame
    end
  end.

(** **** get_news_data (lines 411-579) *)

(** [if not news_api_key] *)
Definition key_missing : bool :=
  match NEWS_API_KEY with
  | None => true
  | Some k => String.eqb k ""
  end.

(** One query of the loop (lines 469-489): the inner [try] swallows every
    exception, and a response whose status is not "ok" adds nothing. *)
Definition query (company_name : string) (current_start current_end : Z) : list Article :=
  match get_everything company_name (strftime current_start) (strftime current_end) with
  | Ok response => if String.eqb (status response) "ok" then articles response else []
  | Raise _ => []
  end.

(** The [while current_start < end_dt] loop over 30-day windows, each query
    followed by [time.sleep(2)]. *)
Fixpoint fetch_loop (fuel : nat) (company_name : string) (current_start end_dt : Z)
    (all_articles : list Article) : option (result (list Article)) :=
  if current_start <? end_dt then
    match fuel with
    | O => None
    | S fuel' =>
      let current_end := Z.min (current_start + 30) end_dt in
      let all_articles := (all_articles ++ query company_name current_start current_end)%list in
      match call_time_sleep ns 2 with
      | Raise e => Some (Raise e)
      | Ok _ => fetch_loop fuel' company_name current_end end_dt all_articles
      end
    end
  else Some (Ok all_articles).

Definition fetch_fuel (start_dt end_dt : Z) : nat := Z.to_nat (end_dt - start_dt).

(** Lines 500-525: date, hour and minute come from [publishedAt].  When a
    timestamp is missing (NaT after the coercion of line 503) the hour and
    minute columns are float columns, and line 525 calls
    [time(hour_val, minute_val)] on two floats: [datetime.time] refuses
    them and the module [time] is not callable, a TypeError either way. *)
Definition article_row (a : Article) : result NewsRow :=
  match a_publishedAt a with
  | Some published =>
    Ok (mkNewsRow (dt_day published) published (a_title a) (a_description a) (a_content a)
                  (a_url a) 0 0 0 0 "")
  | None => Raise (OtherError "TypeError")
  end.

(** Lines 497-572, for articles that carry NewsAPI's keys (so the frame has
    the columns publishedAt, title, description, content and url). *)
Definition build_news_frame (all_articles : list Article) (analyze_sentiment : bool)
  : result NewsFrame :=
  bind (map_result article_row all_articles) (fun fetched =>
  let news_rows := drop_duplicates_url fetched in
  let news_df :=
    mkNewsFrame ["date"; "publishedAt"; "title"; "description"; "content"; "url"] news_rows in
  Ok (if analyze_sentiment then add_sentiment_scores news_df else news_df)).

(** Lines 431-436: an end date in the future is moved back to today. *)
Definition effective_end_date (end_date : string) : string :=
  match strptime end_date with
  | Ok end_dt => if end_dt >? dt_day now then strftime (dt_day now) else end_date
  | Raise _ => end_date
  end.

(** Lines 458-495: both dates are parsed and the windows are queried. *)
Definition fetch_articles (company_name start_date end_date : string)
  : option (result (list Article)) :=
  match strptime start_date with
  | Raise e => Some (Raise e)
  | Ok start_dt =>
    match strptime end_date with
    | Raise e => Some (Raise e)
    | Ok end_dt => fetch_loop (fetch_fuel start_dt end_dt) company_name start_dt end_dt []
    end
  end.

(** The decorated function's body.  [Ok] is a returned frame; every
    statement sits in the outer [try], whose [except Exception] clause
    returns the alternative source's frame.  ([NewsApiClient(api_key=...)]
    only stores the key, so its own [try] never fires.) *)
Definition get_news_data_body
    (company_name start_date end_date : string) (analyze_sentiment : bool)
  : option (result NewsFrame) :=
  let fallback end_date :=
    Ok (get_alternative_news_data company_name start_date end_date analyze_sentiment) in
  match strptime end_date with
  | Raise _ => Some (fallback end_date)
  | Ok _ =>
    let end_date := effective_end_date end_date in
    if key_missing then Some (fallback end_date)
    else
      match fetch_articles company_name start_date end_date with
      | None => None
      | Some (Raise _) => Some (fallback end_date)
      | Some (Ok []) => Some (fallback end_date)
      | Some (Ok all_articles) =>
        match build_news_frame all_articles analyze_sentiment with
        | Ok news_df => Some (Ok news_df)
        | Raise _ => Some (fallback end_date)
        end
      end
  end.

(** [@retry_with_backoff()] with its defaults: initial_delay=1,
    exponential_base=2, jitter=True, max_retries=5. *)
Definition get_news_data (random : nat -> Q)
    (company_name start_date end_date : string) (analyze_sentiment : bool)
  : option (Retry.run NewsFrame) :=
  match get_news_data_body company_name start_date end_date analyze_sentiment with
  | None => None
  | Some r => Retry.wrapper NewsFrame 1 2 true 5 ns (fun _ => r) random
  end.

End GetNewsData.

End News.

(** ** Merging daily stock bars with news (HaberVerileriniAlma.py 854-1025) *)

Module Merge.

Import TimeOfDay.

(** *** Untyped frames: the merge's output *)

Inductive cell : Type :=
| NaN                 (* a missing value *)
| Num (q : Q)
| Str (s : string)
| Day (d : Z).

(** A row maps column names to cells, in column order. *)
Definition row : Type := list (string * cell).

Record DataFrame : Type := mkFrame {
  columns : list string;
  rows : list row
}.

Fixpoint lookup (c : string) (r : row) : option cell :=
  match r with
  | [] => None
  | (k, v) :: r' => if String.eqb k c then Some v else lookup c r'
  end.

Definition is_nan (v : cell) : bool :=
  match v with
  | NaN => true
  | _ => false
  end.

(** [df[col] = df[col].fillna(value)] for every column [col] that [pick] selects. *)
Definition fillna_row (pick : string -> bool) (value : cell) (r : row) : row :=
  map (fun kv => if pick (fst kv) && is_nan (snd kv) then (fst kv, value) else kv) r.

Definition fillna (pick : string -> bool) (value : cell) (df : DataFrame) : DataFrame :=
  mkFrame (columns df) (map (fillna_row pick value) (rows df)).

(** Equality of merge keys. *)
Definition key_eqb (a b : option cell) : bool :=
  match a, b with
  | Some (Day x), Some (Day y) => x =? y
  | _, _ => false
  end.

Definition drop_column (c : string) (r : row) : row :=
  filter (fun kv => negb (String.eqb (fst kv) c)) r.

(** [pd.merge(left, right, on=key, how="left")] for frames that share no
    column but the key: every left row, in order, once per matching right
    row, or once with missing values when no right row matches. *)
Definition merge_left (key : string) (left right : DataFrame) : DataFrame :=
  let right_columns := filter (fun c => negb (String.eqb c key)) (columns right) in
  mkFrame
    (columns left ++ right_columns)
    (flat_map
       (fun l =>
          match filter (fun r => key_eqb (lookup key l) (lookup key r)) (rows right) with
          | [] => [(l ++ map (fun c => (c, NaN)) right_columns)%list]
          | matches => map (fun r => (l ++ drop_column key r)%list) matches
          end)
       (rows left)).

(** What [merge_left] joins to a left row when the right rows are [f d]
    for the distinct days [d] of [keys], each keyed by its day. *)
Definition joined (key : string) (f : Z -> row) (keys : list Z) (right_columns : list string)
    (l : row) : row :=
  match lookup key l with
  | Some (Day x) =>
    if existsb (Z.eqb x) keys then drop_column key (f x)
    else map (fun c => (c, NaN)) right_columns
  | _ => map (fun c => (c, NaN)) right_columns
  end.

(** *** The stock frame *)

Record StockRow : Type := mkStockRow {
  s_Date : Z;
  s_Open : Q;
  s_High : Q;
  s_Low : Q;
  s_Close : Q;
  s_Volume : Q;
  s_Symbol : string
}.

Definition stock_columns : list string :=
  ["Date"; "Open"; "High"; "Low"; "Close"; "Volume"; "Symbol"].

Definition stock_cells (s : StockRow) : row :=
  [ ("Date", Day (s_Date s)); ("Open", Num (s_Open s)); ("High", Num (s_High s));
    ("Low", Num (s_Low s)); ("Close", Num (s_Close s)); ("Volume", Num (s_Volume s));
    ("Symbol", Str (s_Symbol s)) ].

Definition stock_frame (stock_data : list StockRow) : DataFrame :=
  mkFrame stock_columns (map stock_cells stock_data).

(** Reading the seven stock fields back from a row of the result. *)
Definition stock_fields (r : row) : option StockRow :=
  match lookup "Date" r, lookup "Open" r, lookup "High" r, lookup "Low" r,
        lookup "Close" r, lookup "Volume" r, lookup "Symbol" r with
  | Some (Day d), Some (Num o), Some (Num h), Some (Num l), Some (Num c), Some (Num v),
    Some (Str s) => Some (mkStockRow d o h l c v s)
  | _, _, _, _, _, _, _ => None
  end.

(** Lines 880-885: the rows of [stock_symbol], or every row when there is none. *)
Definition stock_selection (stock_data : list StockRow) (stock_symbol : string) : list StockRow :=
  match filter (fun s => String.eqb (s_Symbol s) stock_symbol) stock_data with
  | [] => stock_data
  | stock_df => stock_df
  end.

(** Line 889: [stock_df["date"] = pd.to_datetime(stock_df["Date"]).dt.date] *)
Definition with_date (s : StockRow) : row :=
  (stock_cells s ++ [("date", Day (s_Date s))])%list.

(** *** Grouping *)

Fixpoint insert_key (d : Z) (keys : list Z) : list Z :=
  match keys with
  | [] => [d]
  | k :: keys' =>
    if d <? k then d :: keys
    else if d =? k then keys
    else k :: insert_key d keys'
  end.

(** The group keys of [groupby("date")]: the distinct dates, ascending. *)
Definition group_keys (dates : list Z) : list Z :=
  fold_right insert_key [] dates.

Definition Qsum (l : list Q) : Q := fold_right Qplus 0%Q l.

(** The "mean" aggregate. *)
Definition mean (l : list Q) : Q := (Qsum l / inject_Z (Z.of_nat (List.length l)))%Q.

(** The values [time_of_day] can take, in the order pandas sorts the
    pivot's column labels. *)
Definition all_windows : list string := ["akşam"; "diğer"; "sabah"; "öğle"].

Definition time_of_day (n : NewsRow) : string :=
  get_time_of_day (dt_hour (n_publishedAt n)).

Definition on_date (d : Z) (news : list NewsRow) : list NewsRow :=
  filter (fun n => n_date n =? d) news.

Definition in_window (w : string) (news : list NewsRow) : list NewsRow :=
  filter (fun n => String.eqb (time_of_day n) w) news.

Definition titles (news : list NewsRow) : list string := map n_title news.

(** *** merge_stock_and_news_data *)

Section MergeStockAndNews.

(** Lines 908-916, used when the news frame has no publishedAt column: the
    k-th row gets [random.choice(range(9, 17))] and [random.randint(0, 59)]. *)
Variable random_hour : nat -> Z.
Variable random_minute : nat -> Z.

(** A news row stamped with [t]; line 925 sets its date to the stamp's. *)
Definition set_time (n : NewsRow) (t : datetime) : NewsRow :=
  mkNewsRow (dt_day t) t (n_title n) (n_description n) (n_content n) (n_url n)
            (n_sentiment_compound n) (n_sentiment_pos n) (n_sentiment_neg n)
            (n_sentiment_neu n) (n_sentiment_label n).

Fixpoint assign_times (k : nat) (news : list NewsRow) : list NewsRow :=
  match news with
  | [] => []
  | n :: rest =>
    set_time n (mkDatetime (n_date n) (random_hour k) (random_minute k))
      :: assign_times (S k) rest
  end.

(** Lines 899-925: [news_with_time]. *)
Definition news_with_time (news_data : NewsFrame) : result (list NewsRow) :=
  if has_column news_data "publishedAt" then
    Ok (map (fun n => set_time n (n_publishedAt n)) (news_rows news_data))
  else if has_column news_data "date" then
    Ok (assign_times 0 (news_rows news_data))
  else Raise KeyError.

Definition join_titles (l : list string) : string := String.concat "; " l.

(** Lines 945-959: one row per news day. *)
Definition daily_sentiment_row (news : list NewsRow) (d : Z) : row :=
  let day := on_date d news in
  [ ("date", Day d);
    ("daily_sentiment", Num (mean (map n_sentiment_compound day)));
    ("daily_pos", Num (mean (map n_sentiment_pos day)));
    ("daily_neg", Num (mean (map n_sentiment_neg day)));
    ("daily_neu", Num (mean (map n_sentiment_neu day)));
    ("daily_news_titles", Str (Unicode.take 500 (join_titles (titles day)))) ].

Definition daily_sentiment (news : list NewsRow) : DataFrame :=
  mkFrame
    ["date"; "daily_sentiment"; "daily_pos"; "daily_neg"; "daily_neu"; "daily_news_titles"]
    (map (daily_sentiment_row news) (group_keys (map n_date news))).

(** Lines 962-975: the pivot has a column pair for each window that holds
    news on some day, and a missing value where a day has none in it. *)
Definition windows_present (news : list NewsRow) : list string :=
  filter (fun w => existsb (fun n => String.eqb (time_of_day n) w) news) all_windows.

Definition window_sentiment (news : list NewsRow) (d : Z) (w : string) : cell :=
  match in_window w (on_date d news) with
  | [] => NaN
  | group => Num (mean (map n_sentiment_compound group))
  end.

Definition window_titles (news : list NewsRow) (d : Z) (w : string) : cell :=
  match in_window w (on_date d news) with
  | [] => NaN
  | group => Str (join_titles (firstn 2 (titles group)))
  end.

Definition time_pivot_row (news : list NewsRow) (d : Z) : row :=
  let ws := windows_present news in
  ("date", Day d)
    :: List.app
         (map (fun w => (String.append "sentiment_compound_" w, window_sentiment news d w)) ws)
         (map (fun w => (String.append "title_" w, window_titles news d w)) ws).

Definition time_pivot (news : list NewsRow) : DataFrame :=
  let ws := windows_present news in
  mkFrame
    ("date" :: List.app (map (String.append "sentiment_compound_") ws)
                        (map (String.append "title_") ws))
    (map (time_pivot_row news) (group_keys (map n_date news))).

(** Lines 978-980: the columns with ['sentiment_compound' in col and col != 'date']. *)
Definition pivot_sentiment_column (col : string) : bool :=
  Symbols.str_contains "sentiment_compound" col && negb (String.eqb col "date").

Definition fill_pivot (df : DataFrame) : DataFrame :=
  fillna pivot_sentiment_column (Num 0) df.

(** The row of [sentiment_df] (line 983) for a news day: the day's
    aggregates followed by its filled pivot cells. *)
Definition sentiment_row (news : list NewsRow) (d : Z) : row :=
  (daily_sentiment_row news d
   ++ drop_column "date" (fillna_row pivot_sentiment_column (Num 0) (time_pivot_row news d)))%list.

(** Lines 990-994: titles only, for news without sentiment scores. *)
Definition daily_news (news : list NewsRow) : DataFrame :=
  mkFrame ["date"; "daily_news_titles"]
    (map (fun d => [("date", Day d); ("daily_news_titles", Str (join_titles (titles (on_date d news))))])
         (group_keys (map n_date news))).

(** Lines 888-1001, after the stock rows have been selected.  The stock
    frame has its Date column by type, so the branch of lines 890-892 does
    not arise.  A column the aggregation names but the news frame lacks
    raises [KeyError]. *)
Definition merge_selected (stock_df : list StockRow) (news_data : NewsFrame) : result DataFrame :=
  let stock := mkFrame (stock_columns ++ ["date"])%list (map with_date stock_df) in
  if negb (frame_empty news_data) then
    bind (news_with_time news_data) (fun news =>
      if has_column news_data "sentiment_compound" then
        if has_column news_data "sentiment_pos" && has_column news_data "sentiment_neg"
           && has_column news_data "sentiment_neu" && has_column news_data "title" then
          let sentiment_df := merge_left "date" (daily_sentiment news) (fill_pivot (time_pivot news)) in
          Ok (merge_left "date" stock sentiment_df)
        else Raise KeyError
      else
        if has_column news_data "title" then Ok (merge_left "date" stock (daily_news news))
        else Raise KeyError)
  else Ok stock.

(** The news frame has every column the merge reads, so that no step
    raises KeyError. *)
Definition news_columns_suffice (news_data : NewsFrame) : bool :=
  frame_empty news_data
  || (has_column news_data "publishedAt" || has_column news_data "date")
     && has_column news_data "title"
     && (if has_column news_data "sentiment_compound"
         then has_column news_data "sentiment_pos" && has_column news_data "sentiment_neg"
              && has_column news_data "sentiment_neu"
         else true).

(** The days that have news, as the merge dates them. *)
Definition news_days (news_data : NewsFrame) : list Z :=
  match news_with_time news_data with
  | Ok news => map n_date news
  | Raise _ => []
  end.

(** Lines 1003-1010. *)
Definition fill_missing (merged_df : DataFrame) : DataFrame :=
  let merged_df := fillna (Symbols.str_contains "sentiment") (Num 0) merged_df in
  if Symbols.str_in "daily_news_titles" (columns merged_df) then
    fillna (String.eqb "daily_news_titles") (Str "Haber yok") merged_df
  else merged_df.

(** The whole function: an empty stock frame gives [pd.DataFrame()], and the
    [except] clause (lines 1020-1025) gives back the stock frame it was
    passed. *)
Definition merge_stock_and_news_data
    (stock_data : list StockRow) (news_data : NewsFrame) (stock_symbol : string) : DataFrame :=
  match stock_data with
  | [] => mkFrame [] []
  | _ =>
    match merge_selected (stock_selection stock_data stock_symbol) news_data with
    | Ok merged_df => fill_missing merged_df
    | Raise _ => stock_frame stock_data
    end
  end.

End MergeStockAndNews.

End Merge.

(** ** float64 *)

Module Float64.

Import PrimFloat.

(** The numeric columns of the price frames hold float64 values: the
    IEEE 754 binary64 numbers, with NaN and the two infinities, and
    operations rounded to the nearest float, ties to even, as numpy
    computes them. *)
Definition float64 : Set := float.

(** [x < y] and [x <= y]; both are false when a side is NaN. *)
Definition flt (x y : float64) : Prop := ltb x y = true.
Definition fle (x y : float64) : Prop := leb x y = true.

(** The literal [0.01]: the float nearest to 1/100. *)
#[warnings="-inexact-float"]
Definition one_percent : float64 := 0.01%float.

End Float64.

(** ** Feature derivation and text scoring (data_preprocessing.py 101-254) *)

Module Preprocessing.

Import Merge.

(** *** pd.cut *)

(** A bin edge: a float, or one of [float('inf')] and [-float('inf')]. *)
Inductive edge : Type :=
| NegInf
| Fin (q : Q)
| PosInf.

(** [lo < x] and [x <= hi], the two sides of a right-closed bin. *)
Definition above (lo : edge) (x : Q) : bool :=
  match lo with
  | NegInf => true
  | Fin q => negb (Qle_bool x q)
  | PosInf => false
  end.

Definition upto (x : Q) (hi : edge) : bool :=
  match hi with
  | NegInf => false
  | Fin q => Qle_bool x q
  | PosInf => true
  end.

(** [pd.cut(x, bins, labels)] with the default [right=True]: the label of
    the bin (lo, hi] that holds [x], or a missing value when none does. *)
Fixpoint cut (bins : list edge) (labels : list string) (x : Q) : option string :=
  match bins, labels with
  | lo :: ((hi :: _) as bins'), label :: labels' =>
    if above lo x && upto x hi then Some label else cut bins' labels' x
  | _, _ => None
  end.

(** *** transform_data *)

Import Float64.

(** One row of the frame [transform_data] receives: a daily bar of a
    symbol. *)
Record PriceRow : Type := mkPriceRow {
  p_Date : Z;
  p_Open : float64;
  p_High : float64;
  p_Low : float64;
  p_Close : float64;
  p_Volume : float64;
  p_Symbol : string
}.

(** Line 125: [(Close - Open) / Open], on floats. *)
Definition daily_return_of (s : PriceRow) : float64 :=
  PrimFloat.div (PrimFloat.sub (p_Close s) (p_Open s)) (p_Open s).

(** [pd.cut(x, bins, labels)] with the default [right=True], on floats: the
    label of the bin (lo, hi] that holds [x], or a missing value when none
    does, as for NaN and for a value equal to the lowest edge. *)
Fixpoint cut_float (bins : list float64) (labels : list string) (x : float64)
  : option string :=
  match bins, labels with
  | lo :: ((hi :: _) as bins'), label :: labels' =>
    if PrimFloat.ltb lo x && PrimFloat.leb x hi then Some label
    else cut_float bins' labels' x
  | _, _ => None
  end.

Record Transformed : Type := mkTransformed {
  t_stock : option PriceRow;      (* the stock row's own columns; [None]: all of them NaN *)
  daily_return : float64;
  index_open : float64;
  index_high : float64;
  index_low : float64;
  index_close : float64;
  index_volume : float64;
  index_daily_return : float64;
  relative_performance : float64;
  relative_perf_category : option string
}.

(** [bins=[-float('inf'), -0.01, 0.01, float('inf')]] *)
Definition relative_bins : list float64 :=
  [PrimFloat.neg_infinity; PrimFloat.opp one_percent; one_percent; PrimFloat.infinity].
Definition relative_labels : list string := ["Negatif Sapma"; "Nötr"; "Pozitif Sapma"].

(** Lines 128-146 for one row of [result_df] and the index row at the same
    position. *)
Definition transform_row (stock : option PriceRow) (i : PriceRow) : Transformed :=
  let daily_return :=
    match stock with
    | Some s => daily_return_of s
    | None => PrimFloat.nan
    end in
  let rel := PrimFloat.sub daily_return (daily_return_of i) in
  mkTransformed stock daily_return
    (p_Open i) (p_High i) (p_Low i) (p_Close i) (p_Volume i) (daily_return_of i)
    rel (cut_float relative_bins relative_labels rel).

Definition rows_of (symbol : string) (df : list PriceRow) : list PriceRow :=
  filter (fun s => String.eqb (p_Symbol s) symbol) df.

(** Line 131, [result_df['index_open'] = index_df['Open'].values]: a frame
    without rows takes the index of the values assigned and gets a row of
    NaN for each of them; otherwise the assignment raises ValueError
    unless both frames have the same number of rows. *)
Definition transform_data (df : list PriceRow) (stock_symbol index_symbol : string)
  : result (list Transformed) :=
  match df with
  | [] => Ok []
  | _ =>
    let stock_df := rows_of stock_symbol df in
    let index_df := rows_of index_symbol df in
    match stock_df with
    | [] => Ok (map (transform_row None) index_df)
    | _ =>
      if Nat.eqb (List.length stock_df) (List.length index_df) then
        Ok (map (fun p => transform_row (Some (fst p)) (snd p)) (combine stock_df index_df))
      else Raise ValueError
    end
  end.

(** *** process_text_data *)

(** [re.search(r'(-?\d+(\.\d+)?)', text)] followed by [float(...)]. *)
Definition is_digit (c : ascii) : bool :=
  let n := nat_of_ascii c in ((48 <=? n) && (n <=? 57))%nat.

Definition digit_value (c : ascii) : Z := Z.of_nat (nat_of_ascii c) - 48.

Fixpoint leading_digits (s : string) : list ascii * string :=
  match s with
  | String c s' =>
    if is_digit c then let (ds, rest) := leading_digits s' in (c :: ds, rest) else ([], s)
  | EmptyString => ([], s)
  end.

Definition digits_value (ds : list ascii) : Z :=
  fold_left (fun acc c => 10 * acc + digit_value c) ds 0.

(** The decimal [ds.fs] as a rational. *)
Definition decimal (ds fs : list ascii) : Q :=
  (inject_Z (digits_value ds)
   + inject_Z (digits_value fs) / inject_Z (10 ^ Z.of_nat (List.length fs)))%Q.

(** The digits [\d+(\.\d+)?] at the head of [s]. *)
Definition unsigned_at (s : string) : option Q :=
  match leading_digits s with
  | ([], _) => None
  | (ds, String "." rest) =>
    match leading_digits rest with
    | ([], _) => Some (decimal ds [])
    | (fs, _) => Some (decimal ds fs)
    end
  | (ds, _) => Some (decimal ds [])
  end.

Definition number_at (s : string) : option Q :=
  match s with
  | String "-" s' =>
    match unsigned_at s' with
    | Some q => Some (- q)%Q
    | None => None
    end
  | _ => unsigned_at s
  end.

(** The leftmost match. *)
Fixpoint search_number (s : string) : option Q :=
  match number_at s with
  | Some q => Some q
  | None =>
    match s with
    | EmptyString => None
    | String _ s' => search_number s'
    end
  end.

(** The closed interval [-1, 1]. *)
Definition in_unit_range (x : Q) : Prop := (- (1) <= x /\ x <= 1)%Q.

(** Line 217: [max(-1, min(1, sentiment_score))] *)
Definition clamp (score : Q) : Q := Qmax (- (1)) (Qmin 1 score).

(** A title or description cell, as [row.get(column, '')] finds it. *)
Inductive text_cell : Type :=
| Text (s : string)    (* a str *)
| NoText               (* None, or the frame has no such column *)
| Missing.             (* NaN *)

Record TextRow : Type := mkTextRow {
  x_title : text_cell;
  x_description : text_cell
}.

Record Scored : Type := mkScored {
  x_row : TextRow;
  sentiment_score : Q;
  main_topics : option string;      (* the column exists only on the API path *)
  sentiment_category : option string
}.

Definition sentiment_bins : list edge := [Fin (- (1)); Fin (- (33 # 100)); Fin (33 # 100); Fin 1].
Definition sentiment_labels : list string := ["Negatif"; "Nötr"; "Pozitif"].

Section ProcessTextData.

Variable GEMINI_API_KEY : option string.        (* [os.getenv("GEMINI_API_KEY")] *)
(** [np.random.uniform(-1, 1, size=len(df))[k]] *)
Variable uniform : nat -> Q.
(** [model.generate_content(prompt).text] for the sentiment prompt and for
    the topics prompt of row k. *)
Variable sentiment_reply : nat -> string -> result string.
Variable topics_reply : nat -> string -> result string.

(** [filter(None, ...)] keeps what is truthy: a non-empty str, and NaN. *)
Definition truthy (c : text_cell) : bool :=
  match c with
  | Text s => negb (String.eqb s "")
  | NoText => false
  | Missing => true
  end.

(** [' '.join(items)] raises TypeError at an item that is not a str. *)
Definition join_text (items : list text_cell) : result string :=
  bind (map_result (fun c => match c with
                             | Text s => Ok s
                             | _ => Raise (OtherError "TypeError")
                             end) items)
       (fun strs => Ok (String.concat " " strs)).

(** Line 187: [' '.join(filter(None, [title, description]))] *)
Definition news_text (r : TextRow) : result string :=
  join_text (filter truthy [x_title r; x_description r]).

(** Line 189: [not news_text or len(news_text.strip()) < 10] *)
Definition too_short (text : string) : bool :=
  String.eqb text "" || (Unicode.len (Unicode.strip text) <? 10)%nat.

(** Lines 214-219. *)
Definition parse_score (sentiment_text : string) : Q :=
  match search_number sentiment_text with
  | Some score => clamp score
  | None => 0%Q
  end.

(** Lines 189-241 of one iteration of the loop over the rows: what it
    appends to [sentiment_scores] and to [main_topics] for the text of the
    row.  The score is appended before the topics request is made, and
    the [except] clause appends a 0 and an empty topic whichever request
    failed. *)
Definition score_step (k : nat) (text : string) : list Q * list string :=
  if too_short text then ([0%Q], [""])
  else
    match sentiment_reply k text with
    | Raise _ => ([0%Q], [""])
    | Ok reply =>
      let score := parse_score (Unicode.strip reply) in
      match topics_reply k text with
      | Ok topics => ([score], [Unicode.strip topics])
      | Raise _ => ([score; 0%Q], [""])
      end
    end.

(** The loop of lines 186-241.  Line 187 stands before the [try], so what
    it raises ends the loop and the function. *)
Fixpoint score_rows (k : nat) (df : list TextRow) : result (list Q * list string) :=
  match df with
  | [] => Ok ([], [])
  | r :: rest =>
    match news_text r with
    | Raise e => Raise e
    | Ok text =>
      let (s, t) := score_step k text in
      match score_rows (S k) rest with
      | Raise e => Raise e
      | Ok (ss, ts) => Ok ((s ++ ss)%list, (t ++ ts)%list)
      end
    end
  end.

Definition categorise (score : Q) : option string :=
  cut sentiment_bins sentiment_labels score.

Fixpoint random_scores (k : nat) (df : list TextRow) : list Scored :=
  match df with
  | [] => []
  | r :: rest =>
    mkScored r (uniform k) None (categorise (uniform k)) :: random_scores (S k) rest
  end.

Fixpoint attach (df : list TextRow) (scores : list Q) (topics : list string) : list Scored :=
  match df, scores, topics with
  | r :: df', s :: scores', t :: topics' =>
    mkScored r s (Some t) (categorise s) :: attach df' scores' topics'
  | _, _, _ => []
  end.

(** [df['sentiment_score'] = sentiment_scores] raises ValueError when the
    list is not as long as the frame. *)
Definition process_text_data (df : list TextRow) : result (list Scored) :=
  match df with
  | [] => Ok []
  | _ =>
    let no_key := match GEMINI_API_KEY with None => true | Some k => String.eqb k "" end in
    if no_key then Ok (random_scores 0 df)
    else
      match score_rows 0 df with
      | Raise e => Raise e
      | Ok (sentiment_scores, topics) =>
        if Nat.eqb (List.length sentiment_scores) (List.length df) then
          if Nat.eqb (List.length topics) (List.length df) then
            Ok (attach df sentiment_scores topics)
          else Raise ValueError
        else Raise ValueError
      end
  end.

End ProcessTextData.

End Preprocessing.

(** ** Sample inputs *)

Module Samples.

(** A wrapped function that fails once with ValueError and then returns. *)
Definition fails_once (k : nat) : result Z :=
  match k with
  | O => Raise ValueError
  | S _ => Ok 7
  end.

Definition half (k : nat) : Q := 1 # 2.

(** A world without an API key, in which every date string parses to day 0
    and nothing was saved. *)
Definition today : datetime := mkDatetime 100 12 0.
Definition parse_any (s : string) : result Z := Ok 0.
Definition print_any (d : Z) : string := "1970-01-01".
Definition no_response (q from_param to : string) : result News.Response :=
  Raise (RequestException (Some 429)).
Definition no_file (path : string) : bool := false.
Definition unreadable (path : string) : result NewsFrame := Raise IOError.
Definition neutral (text : string) : Q * Q * Q * Q := (0, 0, 1, 0)%Q.
Definition no_synthetic (company start_date end_date : string) (analyze : bool)
  : result NewsFrame := Ok empty_frame.

(** One scored article, published on day [d] at [h] o'clock. *)
Definition article (d h : Z) (score : Q) (title : string) : NewsRow :=
  mkNewsRow d (mkDatetime d h 0) title "" "" None score 0 0 0 "".

Definition scored_columns : list string :=
  ["date"; "publishedAt"; "title"; "sentiment_compound"; "sentiment_pos";
   "sentiment_neg"; "sentiment_neu"].

(** A single article, on the morning of day 1. *)
Definition morning_news : NewsFrame :=
  mkNewsFrame scored_columns [article 1 10 (1 # 2) "a"].


(** One bar of a stock and one of its index on day 1, and a stock bar on
    day 2, a day without news. *)
Definition two_symbols : list Merge.StockRow :=
  [ Merge.mkStockRow 1 10 12 9 11 1000 "AAPL";
    Merge.mkStockRow 1 100 101 99 100 5000 "^IXIC";
    Merge.mkStockRow 2 11 12 10 11 900 "AAPL" ].

Definition nine (k : nat) : Z := 9.
Definition zero (k : nat) : Z := 0.

Definition merged_sample : Merge.DataFrame :=
  Merge.merge_stock_and_news_data nine zero two_symbols morning_news "AAPL".

(** Two articles on the morning of day 1 and one at noon of day 2; no
    article falls into the evening window. *)
Definition two_day_news : NewsFrame :=
  mkNewsFrame scored_columns
    [ article 1 10 (1 # 2) "a"; article 1 11 (1 # 4) "b"; article 2 13 (- (1 # 4)) "c" ].

Definition merged_two_days : Merge.DataFrame :=
  Merge.merge_stock_and_news_data nine zero two_symbols two_day_news "AAPL".

(** Text rows and model replies for [process_text_data]. *)
Definition headlines : list Preprocessing.TextRow :=
  [ Preprocessing.mkTextRow (Preprocessing.Text "Shares rally after strong results")
                            Preprocessing.NoText;
    Preprocessing.mkTextRow (Preprocessing.Text "short") Preprocessing.NoText ].
Definition reply_high (k : nat) (text : string) : result string := Ok "Score: 3.5".
Definition reply_topics (k : nat) (text : string) : result string := Ok "earnings".
Definition failing_topics (k : nat) (text : string) : result string := Raise ConnectionError.
Definition draw_zero (k : nat) : Q := 0.

(** A text of eight characters, and a row whose title is NaN. *)
Definition short_turkish : list Preprocessing.TextRow :=
  [ Preprocessing.mkTextRow (Preprocessing.Text "çok kötü") Preprocessing.NoText ].
Definition nan_title : list Preprocessing.TextRow :=
  [ Preprocessing.mkTextRow Preprocessing.Missing
      (Preprocessing.Text "Shares rally after strong results") ].

Definition scored_headlines : list Preprocessing.Scored :=
  match Preprocessing.process_text_data (Some "key") draw_zero reply_high reply_topics
          headlines with
  | Ok out => out
  | Raise _ => []
  end.

End Samples.

(** ** Sample prices *)

Module PriceSamples.

Import PrimFloat.
Import Preprocessing.

Local Open Scope float_scope.

(** A stock that opens at 100 and closes at 104 on a day on which its
    index opens at 100 and closes at 103. *)
Definition bars : list PriceRow :=
  [ mkPriceRow 1 100 105 99 104 1000 "AAPL";
    mkPriceRow 1 100 104 99 103 5000 "^IXIC" ].

(** The same stock bar on a day on which the index opens at 2^-600 and
    closes at 2^600. *)
Definition soaring_index : list PriceRow :=
  [ mkPriceRow 1 100 105 99 104 1000 "AAPL";
    mkPriceRow 1 0x1p-600 0x1p600 0x1p-600 0x1p600 5000 "^IXIC" ].

(** A frame with bars of the index only. *)
Definition index_only : list PriceRow :=
  [ mkPriceRow 1 100 104 99 103 5000 "^IXIC" ].

End PriceSamples.

(** ** Cleaning and integration (data_preprocessing.py 17-99) *)

Module Cleaning.

Import Merge.

(** One row of the news frame of [data_acquisition.get_news_data]: the
    columns date, title, description, content and url, [None] standing for
    a missing value. *)
Record NewsItem : Type := mkNewsItem {
  i_date : option Z;
  i_title : option string;
  i_description : option string;
  i_content : option string;
  i_url : option string
}.

Definition is_some {A : Type} (o : option A) : bool :=
  match o with
  | Some _ => true
  | None => false
  end.

(** [a.fillna(b)], cell by cell *)
Definition or_else {A : Type} (a b : option A) : option A :=
  match a with
  | Some _ => a
  | None => b
  end.

(** [df['title'].str.len() > 5]; a missing title compares false. *)
Definition long_title (r : NewsItem) : bool :=
  match i_title r with
  | Some t => (5 <? Unicode.len t)%nat
  | None => false
  end.

Definition fill_description (r : NewsItem) : NewsItem :=
  mkNewsItem (i_date r) (i_title r) (or_else (i_description r) (i_title r))
             (i_content r) (i_url r).

Definition fill_content (r : NewsItem) : NewsItem :=
  mkNewsItem (i_date r) (i_title r) (i_description r)
             (or_else (i_content r) (i_description r)) (i_url r).

(** [clean_data(df, is_text_data=True)], lines 28-44. *)
Definition clean_text_data (df : list NewsItem) : list NewsItem :=
  match df with
  | [] => []
  | _ =>
    let df := filter (fun r => is_some (i_title r)) df in    (* dropna(subset=['title']) *)
    let df := filter long_title df in
    let df := map fill_description df in
    map fill_content df
  end.

(** A column of values, [None] for NaN. *)
Definition column (A : Type) : Type := list (option A).

(** [fillna(method='ffill')] on one column: a missing value takes the last
    value seen above it. *)
Fixpoint ffill_from {A : Type} (last : option A) (col : column A) : column A :=
  match col with
  | [] => []
  | Some v :: rest => Some v :: ffill_from (Some v) rest
  | None :: rest => last :: ffill_from last rest
  end.

Definition ffill {A : Type} (col : column A) : column A := ffill_from None col.

(** The values of a column that are not missing. *)
Fixpoint present {A : Type} (col : column A) : list A :=
  match col with
  | [] => []
  | Some v :: rest => v :: present rest
  | None :: rest => present rest
  end.

(** [col.mean()]: the mean of the values present, NaN when there is none. *)
Definition column_mean (col : column Q) : option Q :=
  match present col with
  | [] => None
  | values => Some (mean values)
  end.

(** [col.fillna(value)] with a scalar, which may itself be NaN. *)
Definition fill_with {A : Type} (value : option A) (col : column A) : column A :=
  map (fun x => or_else x value) col.

(** What lines 49-54 do to a numeric column. *)
Definition clean_numeric (col : column Q) : column Q :=
  let col := ffill col in
  fill_with (column_mean col) col.

(** A frame by columns: the float64 and int64 ones, and the others. *)
Record Table : Type := mkTable {
  numeric_columns : list (string * column Q);
  other_columns : list (string * column string)
}.

(** [df.empty] for a frame by columns. *)
Definition table_empty (t : Table) : bool :=
  match numeric_columns t, other_columns t with
  | [], [] => true
  | (_, []) :: _, _ => true
  | _, (_, []) :: _ => true
  | _, _ => false
  end.

(** [clean_data(df)], the stock and index frame (lines 46-54): every column
    is filled forward, and the numeric ones then with their mean. *)
Definition clean_data (t : Table) : Table :=
  if table_empty t then t
  else
    mkTable (map (fun c => (fst c, clean_numeric (snd c))) (numeric_columns t))
            (map (fun c => (fst c, ffill (snd c))) (other_columns t)).

(** *** integrate_data (lines 58-99) *)

(** [sep.join(values)]: TypeError when a value is not a string. *)
Definition join_strings (sep : string) (values : list (option string)) : result string :=
  if forallb is_some values then Ok (String.concat sep (present values))
  else Raise (OtherError "TypeError").

(** The news rows of a day; rows without a date belong to no group. *)
Definition dated (d : Z) (news : list NewsItem) : list NewsItem :=
  filter (fun r => match i_date r with Some x => x =? d | None => false end) news.

(** One row of [news_grouped]: the day's titles, descriptions, contents
    and urls, each joined with ' | '. *)
Definition grouped_row (news : list NewsItem) (d : Z) : result row :=
  let group := dated d news in
  bind (join_strings " | " (map i_title group)) (fun title =>
  bind (join_strings " | " (map i_description group)) (fun description =>
  bind (join_strings " | " (map i_content group)) (fun content =>
  bind (join_strings " | " (map i_url group)) (fun url =>
  Ok [ ("date", Day d); ("title", Str title); ("description", Str description);
       ("content", Str content); ("url", Str url) ])))).

(** The day's row, or a bare date where the aggregation raises. *)
Definition grouped_cells (news : list NewsItem) (d : Z) : row :=
  match grouped_row news d with
  | Ok r => r
  | Raise _ => [("date", Day d)]
  end.

Fixpoint collect {A B : Type} (f : A -> result B) (l : list A) : result (list B) :=
  match l with
  | [] => Ok []
  | x :: rest =>
    bind (f x) (fun y => bind (collect f rest) (fun ys => Ok (y :: ys)))
  end.

Definition news_grouped (news : list NewsItem) : result DataFrame :=
  bind (collect (grouped_row news) (group_keys (present (map i_date news)))) (fun rows =>
  Ok (mkFrame ["date"; "title"; "description"; "content"; "url"] rows)).

Definition text_cols : list string := ["title"; "description"; "content"; "url"].

(** The function has no [try]: an exception of the aggregation leaves it. *)
Definition integrate_data (stock_df : list StockRow) (news_df : list NewsItem)
  : result DataFrame :=
  match stock_df, news_df with
  | [], _ => Ok (stock_frame stock_df)
  | _, [] => Ok (stock_frame stock_df)
  | _, _ =>
    let stock := mkFrame (stock_columns ++ ["date"])%list (map with_date stock_df) in
    bind (news_grouped news_df) (fun grouped =>
    let combined_df := merge_left "date" stock grouped in
    Ok (fillna (fun col => Symbols.str_in col text_cols
                           && Symbols.str_in col (columns combined_df))
               (Str "") combined_df))
  end.

End Cleaning.

(** ** Template sentiment of the synthetic news (HaberVerileriniAlma.py 662-776) *)

Module Synthetic.

Inductive tone : Type := positive | negative | neutral.

(** [sentiment_map] (line 763) *)
Definition sentiment_map (t : tone) : Q :=
  match t with
  | positive => 1 # 2
  | negative => - (1 # 2)
  | neutral => 0
  end.

(** The title template and the sentiment of each entry of
    [news_templates] (lines 662-712), in order. *)
Definition news_templates (company_name : string) : list (string * tone) :=
  [ (company_name ++ " announces positive quarterly results", positive);
    (company_name ++ " stock falls on market uncertainty", negative);
    (company_name ++ " announces new strategic partnership", positive);
    (company_name ++ " faces regulatory scrutiny", negative);
    (company_name ++ " maintains stable outlook despite industry challenges", neutral);
    (company_name ++ " introduces innovative new product line", positive);
    (company_name ++ " CEO discusses future direction in industry interview", neutral);
    ("Analyst downgrades " ++ company_name ++ " citing sector headwinds", negative) ].

(** The characters of a word: up to the first white space. *)
Fixpoint take_word (s : string) : string :=
  match s with
  | EmptyString => EmptyString
  | String c s' => if Symbols.is_space c then EmptyString else String c (take_word s')
  end.

(** [s.split()[0]]; IndexError when [s] holds no word. *)
Definition first_word (s : string) : result string :=
  match Symbols.lstrip s with
  | EmptyString => Raise (OtherError "IndexError")
  | w => Ok (take_word w)
  end.

Section TemplateSentiment.

(** [re.search(pat, title)], as [Series.str.contains] applies it to one
    title; a pattern that does not compile raises. *)
Variable contains : string -> string -> result bool.

(** [news_df.loc[mask, "sentiment_compound"] = value]: the rows of the
    mask take the value, the others keep what they had ([None]: NaN). *)
Fixpoint assign_masked (mask : list bool) (value : Q) (col : list (option Q))
  : list (option Q) :=
  match mask, col with
  | m :: mask', old :: col' =>
    (if m then Some value else old) :: assign_masked mask' value col'
  | _, _ => []
  end.

(** The loop of lines 764-766 over the templates. *)
Fixpoint assign_templates (templates : list (string * tone)) (titles : list string)
    (col : list (option Q)) : result (list (option Q)) :=
  match templates with
  | [] => Ok col
  | (title_template, sentiment) :: rest =>
    bind (first_word title_template) (fun pat =>
    bind (Cleaning.collect (contains pat) titles) (fun mask =>
    assign_templates rest titles (assign_masked mask (sentiment_map sentiment) col)))
  end.

(** The sentiment_compound column after the loop, for a frame with these
    titles. *)
Definition template_sentiment (company_name : string) (titles : list string)
  : result (list (option Q)) :=
  assign_templates (news_templates company_name) titles (map (fun _ => None) titles).

End TemplateSentiment.

(** Lines 771-773: [max(0, x)], [max(0, -x)] and what is left of 1.  For
    NaN both maxima are 0, as [nan > 0] is false. *)
Definition sentiment_pos (x : option Q) : Q :=
  match x with
  | Some q => Qmax 0 q
  | None => 0
  end.

Definition sentiment_neg (x : option Q) : Q :=
  match x with
  | Some q => Qmax 0 (- q)
  | None => 0
  end.

Definition sentiment_neu (x : option Q) : Q :=
  (1 - sentiment_pos x - sentiment_neg x)%Q.

(** Lines 774-776: the label of the template score. *)
Definition template_label (x : option Q) : string :=
  match x with
  | Some q =>
    if negb (Qle_bool q (5 # 100)) then "pozitif"
    else if negb (Qle_bool (- (5 # 100)) q) then "negatif"
    else "nötr"
  | None => "nötr"
  end.

End Synthetic.

(** ** Sample frames for the cleaning and the integration *)

Module CleaningSamples.
Import Cleaning.

(** Three news rows of day 1: one with nothing but a title and a url, one
    with a short title, one without a title. *)
Definition raw_news : list NewsItem :=
  [ mkNewsItem (Some 1) (Some "Shares rally") None None (Some "https://example.com/a");
    mkNewsItem (Some 1) (Some "short") (Some "d") (Some "c") (Some "https://example.com/b");
    mkNewsItem (Some 1) None (Some "d") (Some "c") None ].

(** The first of them after the cleaning. *)
Definition rally : NewsItem :=
  mkNewsItem (Some 1) (Some "Shares rally") (Some "Shares rally") (Some "Shares rally")
             (Some "https://example.com/a").

(** A dated news row without a url. *)
Definition no_url : list NewsItem :=
  [ mkNewsItem (Some 1) (Some "Shares rally") None None None ].



Definition integrated : Merge.DataFrame :=
  match integrate_data Samples.two_symbols (clean_text_data raw_news) with
  | Ok df => df
  | Raise _ => Merge.mkFrame [] []
  end.

(** Two news rows with Turkish titles, of four and of fourteen characters. *)
Definition turkish_news : list NewsItem :=
  [ mkNewsItem (Some 1) (Some "öğle") None None None;
    mkNewsItem (Some 1) (Some "Borsa yükseldi") None None (Some "https://example.com/c") ].

End CleaningSamples.

(** ** The stamping of undated news, by the binding of [time] *)

Module Stamping.
Import Merge.

(** [datetime.combine(date, time(hour, minute))] (HaberVerileriniAlma.py
    line 916), evaluated in a namespace.  The class [datetime.time] builds
    a time of day, or raises ValueError out of range; the module [time] is
    not callable, [datetime(hour, minute)] lacks its day, and [combine]
    rejects a timedelta: TypeError each time. *)
Definition combine_time (ns : namespace) (date hour minute : Z) : result datetime :=
  match lookup_name ns "time" with
  | Some DatetimeTimeClass =>
    if (0 <=? hour) && (hour <? 24) && (0 <=? minute) && (minute <? 60)
    then Ok (mkDatetime date hour minute)
    else Raise ValueError
  | Some _ => Raise (OtherError "TypeError")
  | None => Raise (OtherError "NameError")
  end.

Section NewsWithTime.

Variable random_hour : nat -> Z.
Variable random_minute : nat -> Z.
Variable ns : namespace.

(** The loop of lines 911-917. *)
Fixpoint assign_times_in (k : nat) (news : list NewsRow) : result (list NewsRow) :=
  match news with
  | [] => Ok []
  | n :: rest =>
    bind (combine_time ns (n_date n) (random_hour k) (random_minute k)) (fun t =>
    bind (assign_times_in (S k) rest) (fun stamped =>
    Ok (set_time n t :: stamped)))
  end.

(** Lines 899-925, with the call of [time] evaluated in [ns]. *)
Definition news_with_time_in (news_data : NewsFrame) : result (list NewsRow) :=
  if has_column news_data "publishedAt" then
    Ok (map (fun n => set_time n (n_publishedAt n)) (news_rows news_data))
  else if has_column news_data "date" then
    assign_times_in 0 (news_rows news_data)
  else Raise KeyError.

End NewsWithTime.

End Stamping.

(** ** Sample news without timestamps, and sample titles *)

Module NewsSamples.

(** A scored news frame that has a date but no publishedAt column. *)
Definition undated_news : NewsFrame :=
  mkNewsFrame
    ["date"; "title"; "sentiment_compound"; "sentiment_pos"; "sentiment_neg"; "sentiment_neu"]
    [Samples.article 1 0 (1 # 2) "a"].

(** A search that finds a word where it occurs as it is written. *)
Definition plain_search (pat title : string) : result bool :=
  Ok (Symbols.str_contains pat title).

Definition acme_titles : list string :=
  [ "Acme Corp announces positive quarterly results";
    "Analyst downgrades Acme Corp citing sector headwinds" ].

(** One article that has neither a title nor a description, and the
    unscored frame built from it. *)
Definition untitled : list News.Article :=
  [News.mkArticle (Some Samples.today) "" "" "" None].

Definition fetched : NewsFrame :=
  match News.build_news_frame Samples.neutral untitled false with
  | Ok news_df => news_df
  | Raise _ => empty_frame
  end.

End NewsSamples.

(** ** duygu_analizi_gorsel.py: prepare_sentiment_data (lines 66-156) *)

Module SentimentPlot.
Import Merge.

(** The values of the three [time_columns] dicts, in the order Sabah,
    Öğle, Akşam. *)
Definition default_columns : list string :=
  ["sentiment_compound_sabah"; "sentiment_compound_öğle"; "sentiment_compound_akşam"].

Definition alt_columns : list string :=
  ["sentiment_compound_sabah"; "sentiment_compound_ogle"; "sentiment_compound_aksam"].

Definition eng_columns : list string :=
  ["sentiment_compound_morning"; "sentiment_compound_noon"; "sentiment_compound_evening"].

(** [all(col in df.columns for col in cols)] *)
Definition all_in (cols : list string) (df : DataFrame) : bool :=
  forallb (fun col => Symbols.str_in col (columns df)) cols.

(** Lines 84-87. *)
Definition is_title_column (col : string) : bool :=
  Symbols.str_contains "title_" col || String.eqb col "daily_news_titles".

(** One row of [df[target] = values]: an existing cell is replaced where it
    stands, a new one is put at the end. *)
Definition set_cell (target : string) (v : cell) (r : row) : row :=
  if existsb (fun kv => String.eqb (fst kv) target) r
  then map (fun kv => if String.eqb (fst kv) target then (target, v) else kv) r
  else (r ++ [(target, v)])%list.

(** [df[target] = df[source]] *)
Definition copy_column (target source : string) (df : DataFrame) : DataFrame :=
  mkFrame
    (if Symbols.str_in target (columns df) then columns df
     else (columns df ++ [target])%list)
    (map (fun r => set_cell target
                     (match lookup source r with Some v => v | None => NaN end) r)
         (rows df)).

(** Lines 125-127 and 134-136: the three windows all get the daily column. *)
Definition spread (source : string) (df : DataFrame) : DataFrame :=
  copy_column "sentiment_compound_akşam" source
    (copy_column "sentiment_compound_öğle" source
       (copy_column "sentiment_compound_sabah" source df)).

(** The function returns [None] or the triple (df, time_columns,
    title_columns). *)
Definition prepare_sentiment_data (df : DataFrame)
  : option (DataFrame * list string * list string) :=
  let title_columns := filter is_title_column (columns df) in
  let chosen :=
    if all_in default_columns df then Some (df, default_columns)
    else if all_in alt_columns df then Some (df, alt_columns)
    else if all_in eng_columns df then Some (df, eng_columns)
    else if Symbols.str_in "sentiment_compound" (columns df)
      then Some (spread "sentiment_compound" df, default_columns)
    else if Symbols.str_in "daily_sentiment" (columns df)
      then Some (spread "daily_sentiment" df, default_columns)
    else None in
  match chosen with
  | Some (df, time_columns) =>
    Some (fillna (fun col => Symbols.str_in col time_columns
                             && Symbols.str_in col (columns df)) (Num 0) df,
          time_columns, title_columns)
  | None => None
  end.

End SentimentPlot.

(** ** evaluation.py: the significant correlations (lines 181-198) *)

Module Evaluation.

(** [a < b] on floats *)
Definition Qlt_bool (a b : Q) : bool := negb (Qle_bool b a).

(** One entry of [significant_correlations]. *)
Record Significant : Type := mkSignificant {
  var1 : string;
  var2 : string;
  correlation : option Q;
  p_value : option Q
}.

Section SignificantCorrelations.

(** [correlation_matrix.columns], and [.iloc[i, j]] of the two square
    frames over them; [None] is NaN, which no comparison accepts. *)
Variable matrix_columns : list string.
Variable correlation_matrix : nat -> nat -> option Q.
Variable correlation_pvalues : nat -> nat -> option Q.

(** [(correlation_pvalues < 0.05) & (correlation_matrix.abs() > 0.3)] *)
Definition significant_mask (i j : nat) : bool :=
  match correlation_pvalues i j, correlation_matrix i j with
  | Some p, Some c => Qlt_bool p (5 # 100) && Qlt_bool (3 # 10) (Qabs c)
  | _, _ => false
  end.

(** The two loops, by position. *)
Definition significant_positions : list (nat * nat) :=
  let n := List.length matrix_columns in
  flat_map (fun i =>
    flat_map (fun j => if significant_mask i j then [(i, j)] else [])
             (seq (S i) (n - S i)))
    (seq 0 n).

Definition significant_correlations : list Significant :=
  map (fun ij =>
         mkSignificant (nth (fst ij) matrix_columns "") (nth (snd ij) matrix_columns "")
                       (correlation_matrix (fst ij) (snd ij))
                       (correlation_pvalues (fst ij) (snd ij)))
      significant_positions.

End SignificantCorrelations.

End Evaluation.

(** ** data_mining.py: the number of clusters (lines 271-293) *)

Module Clustering.

(** [range(2, min(6, len(X) // 5 + 1))] *)
Definition K_range (len_X : nat) : list nat :=
  seq 2 (Nat.min 6 (len_X / 5 + 1) - 2).

(** [np.argmax]: the position of the first maximum. *)
Fixpoint argmax_from (best_i : nat) (best : Q) (i : nat) (scores : list Q) : nat :=
  match scores with
  | [] => best_i
  | s :: rest =>
    if Evaluation.Qlt_bool best s then argmax_from i s (S i) rest
    else argmax_from best_i best (S i) rest
  end.

Definition argmax (scores : list Q) : nat :=
  match scores with
  | [] => 0%nat
  | s :: rest => argmax_from 0 s 1 rest
  end.

Section OptimalK.

(** [silhouette_score] of the k-means fit with k clusters (random_state=42);
    the function has no [try], an exception of the scoring leaves it. *)
Variable silhouette : nat -> result Q.

(** [None] is the [{}] returned for fewer than 10 rows. *)
Definition optimal_k (len_X : nat) : result (option nat) :=
  if (len_X <? 10)%nat then Ok None
  else
    bind (Cleaning.collect silhouette (K_range len_X)) (fun silhouette_scores =>
    Ok (Some (match silhouette_scores with
              | [] => 3%nat
              | _ => nth (argmax silhouette_scores) (K_range len_X) 0%nat
              end))).

End OptimalK.

End Clustering.

(** ** get_direct_stock_data (HaberVerileriniAlma.py lines 324-408) *)

Module StockData.
Import Merge.

(** One row of a frame [yf.download] returns for a single symbol. *)
Record Bar : Type := mkBar {
  b_Date : Z;
  b_Open : Q;
  b_High : Q;
  b_Low : Q;
  b_Close : Q;
  b_Volume : Q
}.

(** [df["Symbol"] = symbol] and [reset_index()] *)
Definition labelled (symbol : string) (b : Bar) : StockRow :=
  mkStockRow (b_Date b) (b_Open b) (b_High b) (b_Low b) (b_Close b) (b_Volume b) symbol.

Section GetDirectStockData.

Variable ns : namespace.
(** [pd.to_datetime] of a date string. *)
Variable to_datetime : string -> result Z.
(** [yf.download(symbol, start=start, end=end, progress=False)] in the
    k-th invocation of the function. *)
Variable download : nat -> string -> Z -> Z -> result (list Bar).

(** Lines 361-366 and 369-374: the download is assigned before
    [time.sleep(1)] runs, and the [except Exception] clause swallows what
    either of them raises.  [None] is the initial value of the variable. *)
Definition try_download (k : nat) (symbol : string) (start end_ : Z) : option (list Bar) :=
  match download k symbol start end_ with
  | Raise _ => None
  | Ok data =>
    match call_time_sleep ns 1 with
    | Ok _ => Some data
    | Raise _ => Some data
    end
  end.

(** [data is not None and not data.empty], and the rows appended then. *)
Definition rows_of_download (symbol : string) (data : option (list Bar)) : list StockRow :=
  match data with
  | Some bars => map (labelled symbol) bars
  | None => []
  end.

(** The body of the decorated function in its k-th invocation; the empty
    list is [pd.DataFrame()].  Only a ValueError of the date parsing is
    caught there. *)
Definition get_direct_stock_data_body (k : nat)
    (stock_symbol index_symbol start_date end_date : string) : result (list StockRow) :=
  match to_datetime start_date with
  | Raise ValueError => Ok []
  | Raise e => Raise e
  | Ok start =>
    match to_datetime end_date with
    | Raise ValueError => Ok []
    | Raise e => Raise e
    | Ok end_ =>
      let stock_data := try_download k stock_symbol start end_ in
      let index_data := try_download k index_symbol start end_ in
      Ok (rows_of_download stock_symbol stock_data
          ++ rows_of_download index_symbol index_data)%list
    end
  end.

(** [@retry_with_backoff(max_retries=7)] *)
Definition get_direct_stock_data (random : nat -> Q)
    (stock_symbol index_symbol start_date end_date : string)
  : option (Retry.run (list StockRow)) :=
  Retry.wrapper (list StockRow) 1 2 true 7 ns
    (fun k => get_direct_stock_data_body k stock_symbol index_symbol start_date end_date)
    random.

End GetDirectStockData.

End StockData.

(** ** data_acquisition.py: get_news_data and generate_sample_news_data *)

Module Acquisition.
Import Cleaning.

(** An article of a NewsAPI answer; [None] is null. *)
Record Article : Type := mkArticle {
  a_publishedAt : option datetime;
  a_title : option string;
  a_description : option string;
  a_content : option string;
  a_url : option string
}.

Record Response : Type := mkResponse {
  status : string;
  articles : list Article
}.

(** Lines 101-103: the date of publishedAt and four of the keys. *)
Definition article_item (a : Article) : NewsItem :=
  mkNewsItem (option_map dt_day (a_publishedAt a)) (a_title a) (a_description a)
             (a_content a) (a_url a).

Section GenerateSampleNewsData.

(** [random.randint(0, 3)] for the k-th day of the range, and the position
    [random.choice(all_templates)] picks at the k-th draw. *)
Variable num_news : nat -> nat.
Variable choice : nat -> nat.

Definition all_templates (company_name : string) : list string :=
  [ company_name ++ " güçlü finansal sonuçlar açıkladı";
    company_name ++ " yeni bir pazara giriş yapıyor";
    company_name ++ " hisseleri yükselişe geçti";
    "Analistler " ++ company_name ++ " için alım tavsiyesi verdi";
    company_name ++ " yeni bir stratejik ortaklık duyurdu";
    company_name ++ " kar beklentilerini karşılayamadı";
    company_name ++ " bazı operasyonlarını azaltıyor";
    company_name ++ " hisseleri düşüşe geçti";
    "Analistler " ++ company_name ++ " için satış tavsiyesi verdi";
    company_name ++ " ile ilgili düzenleyici soruşturma başlatıldı";
    company_name ++ " yıllık genel kurul toplantısını gerçekleştirdi";
    company_name ++ " yeni bir yönetim kurulu üyesi atadı";
    company_name ++ " şirket yapısında değişikliğe gidiyor";
    company_name ++ " sektördeki gelişmeleri değerlendiriyor";
    company_name ++ " ile ilgili yeni bir haber yok" ].

(** Lines 172-182: one sample news row. *)
Definition sample_item (company_name : string) (date : Z) (draw : nat) : NewsItem :=
  let headline :=
    nth (choice draw mod List.length (all_templates company_name))
        (all_templates company_name) "" in
  mkNewsItem (Some date) (Some headline)
    (Some ("Bu bir örnek haber açıklamasıdır: " ++ headline))
    (Some ("Bu bir örnek haber içeriğidir. " ++ company_name ++ " ile ilgili detaylı bilgi..."))
    (Some "https://example.com/sample-news").

Fixpoint day_items (company_name : string) (date : Z) (n draw : nat) : list NewsItem :=
  match n with
  | O => []
  | S n' => sample_item company_name date draw :: day_items company_name date n' (S draw)
  end.

(** The loop over [date_range], the business days from start to end. *)
Fixpoint sample_rows (company_name : string) (date_range : list Z) (k draw : nat)
  : list NewsItem :=
  match date_range with
  | [] => []
  | date :: rest =>
    (day_items company_name date (num_news k) draw
     ++ sample_rows company_name rest (S k) (draw + num_news k))%list
  end.

Definition generate_sample_news_data (company_name : string) (date_range : list Z)
  : list NewsItem :=
  sample_rows company_name date_range 0 0.

End GenerateSampleNewsData.

Section GetNewsData.

Variable NEWS_API_KEY : option string.            (* [os.getenv("NEWS_API_KEY")] *)
Variable strptime : string -> result Z.           (* [datetime.strptime(s, "%Y-%m-%d")], in days *)
Variable strftime : Z -> string.
(** [newsapi.get_everything(q=..., from_param=..., to=..., language='tr',
    sort_by='publishedAt')] *)
Variable get_everything : string -> string -> string -> result Response.
(** [generate_sample_news_data(company_name, start_date, end_date)] *)
Variable sample : string -> string -> string -> result (list NewsItem).

(** The [while current_start < end_dt] loop (lines 79-97).  Here [time] is
    the module, so [time.sleep(1)] returns; no [try] stands inside the
    loop. *)
Fixpoint query_loop (fuel : nat) (company_name : string) (current_start end_dt : Z)
    (all_articles : list Article) : option (result (list Article)) :=
  if current_start <? end_dt then
    match fuel with
    | O => None
    | S fuel' =>
      let current_end := Z.min (current_start + 30) end_dt in
      match get_everything company_name (strftime current_start) (strftime current_end) with
      | Raise e => Some (Raise e)
      | Ok response =>
        let all_articles :=
          if String.eqb (status response) "ok"
          then (all_articles ++ articles response)%list else all_articles in
        query_loop fuel' company_name current_end end_dt all_articles
      end
    end
  else Some (Ok all_articles).

(** Every exception inside the [try] ends in the sample generator, as do
    a missing key and an empty answer. *)
Definition get_news_data (company_name start_date end_date : string)
  : option (result (list NewsItem)) :=
  let fallback := sample company_name start_date end_date in
  let key_missing :=
    match NEWS_API_KEY with
    | None => true
    | Some k => String.eqb k ""
    end in
  if key_missing then Some fallback
  else
    match strptime start_date with
    | Raise _ => Some fallback
    | Ok start_dt =>
      match strptime end_date with
      | Raise _ => Some fallback
      | Ok end_dt =>
        match query_loop (Z.to_nat (end_dt - start_dt)) company_name start_dt end_dt [] with
        | None => None
        | Some (Raise _) => Some fallback
        | Some (Ok []) => Some fallback
        | Some (Ok all_articles) => Some (Ok (map article_item all_articles))
        end
      end
    end.

End GetNewsData.

End Acquisition.

(** ** Sample answers of the data sources *)

Module SourceSamples.

(** A stock whose download fails and an index with one bar. *)
Definition index_only (k : nat) (symbol : string) (start end_ : Z)
  : result (list StockData.Bar) :=
  if String.eqb symbol "AAPL" then Raise ConnectionError
  else Ok [StockData.mkBar 1 100 101 99 100 5000].

Definition one_bar : list StockData.Bar := [StockData.mkBar 1 100 101 99 100 5000].

(** A span of 45 days, and a source that answers every request with one
    article. *)
Definition parse_span (s : string) : result Z :=
  if String.eqb s "2024-01-01" then Ok 0 else Ok 45.

Definition one_article (q from_param to : string) : result Acquisition.Response :=
  Ok (Acquisition.mkResponse "ok"
        [Acquisition.mkArticle None (Some "Shares rally") None None None]).

Definition no_sample (company_name start_date end_date : string)
  : result (list Cleaning.NewsItem) := Ok [].

(** Silhouette scores that grow with the number of clusters. *)
Definition rising (k : nat) : result Q := Ok (inject_Z (Z.of_nat k)).

End SourceSamples.

(** * Properties *)

Import TimeOfDay Symbols News Merge Preprocessing.

(** ** Time-of-day windows *)

(** C1: for every integer hour the bucketing returns 'sabah' exactly on
    9 <= h < 12, 'öğle' exactly on 12 <= h < 14, 'akşam' exactly on
    14 <= h < 17 and 'diğer' exactly on the remaining hours, so each hour
    lies in one window and one only. *)
Theorem get_time_of_day_windows (h : Z) :
  (get_time_of_day h = "sabah" <-> 9 <= h < 12) /\
  (get_time_of_day h = "öğle" <-> 12 <= h < 14) /\
  (get_time_of_day h = "akşam" <-> 14 <= h < 17) /\
  (get_time_of_day h = "diğer" <-> h < 9 \/ 17 <= h).
Proof.
  unfold get_time_of_day.
  destruct (Z.leb_spec 9 h); destruct (Z.ltb_spec h 12);
    destruct (Z.leb_spec 12 h); destruct (Z.ltb_spec h 14);
    destruct (Z.leb_spec 14 h); destruct (Z.ltb_spec h 17);
    cbn [andb]; try lia;
    repeat split; intros; try lia; try discriminate; try reflexivity.
Qed.

(** ** Deduplication by url *)

Lemma url_eqb_eq (a b : option string) : url_eqb a b = true <-> a = b.
Proof.
  destruct a as [x|], b as [y|]; simpl; split; intro H;
    try discriminate; try reflexivity.
  - apply String.eqb_eq in H; now subst.
  - injection H as ->; apply String.eqb_refl.
Qed.

Lemma seen_url_In (u : option string) (seen : list (option string)) :
  seen_url u seen = true <-> In u seen.
Proof.
  unfold seen_url; rewrite existsb_exists; split.
  - intros [x [Hin Heq]]; apply url_eqb_eq in Heq; now subst.
  - intro Hin; exists u; split; [assumption | now apply url_eqb_eq].
Qed.

Lemma drop_seen_urls (rows : list NewsRow) : forall seen u,
  In u (map n_url (drop_seen seen rows)) -> ~ In u seen /\ In u (map n_url rows).
Proof.
  induction rows as [|r rest IH]; intros seen u Hin; simpl in *.
  - contradiction.
  - destruct (seen_url (n_url r) seen) eqn:Hseen.
    + destruct (IH _ _ Hin); auto.
    + simpl in Hin; destruct Hin as [<- | Hin].
      * split; [|now left].
        intro Hs; apply seen_url_In in Hs; congruence.
      * destruct (IH _ _ Hin) as [Hn Hr]; split; [|now right].
        intro Hs; apply Hn; now right.
Qed.

Lemma drop_seen_NoDup (rows : list NewsRow) : forall seen,
  NoDup (map n_url (drop_seen seen rows)).
Proof.
  induction rows as [|r rest IH]; intro seen; simpl.
  - constructor.
  - destruct (seen_url (n_url r) seen); [apply IH|].
    simpl; constructor; [|apply IH].
    intro Hin; apply drop_seen_urls in Hin as [Hn _]; apply Hn; now left.
Qed.

Lemma drop_seen_Subseq (rows : list NewsRow) : forall seen,
  Subseq (drop_seen seen rows) rows.
Proof.
  induction rows as [|r rest IH]; intro seen; simpl.
  - constructor.
  - destruct (seen_url (n_url r) seen); constructor; apply IH.
Qed.

Lemma drop_seen_find (u : option string) (rows : list NewsRow) : forall seen,
  find (fun r => url_eqb (n_url r) u) (drop_seen seen rows) =
  if seen_url u seen then None else find (fun r => url_eqb (n_url r) u) rows.
Proof.
  induction rows as [|r rest IH]; intro seen; simpl.
  - now destruct (seen_url u seen).
  - destruct (seen_url (n_url r) seen) eqn:Hr.
    + rewrite IH. destruct (seen_url u seen) eqn:Hu; [reflexivity|].
      destruct (url_eqb (n_url r) u) eqn:He; [|reflexivity].
      apply url_eqb_eq in He; congruence.
    + simpl. destruct (url_eqb (n_url r) u) eqn:He.
      * apply url_eqb_eq in He; subst u. now rewrite Hr.
      * rewrite IH.
        assert (Hs : seen_url u (n_url r :: seen) = seen_url u seen).
        { unfold seen_url; simpl.
          destruct (url_eqb u (n_url r)) eqn:He'; [|reflexivity].
          apply url_eqb_eq in He'; subst u.
          assert (url_eqb (n_url r) (n_url r) = true) by now apply url_eqb_eq.
          congruence. }
        now rewrite Hs.
Qed.

(** C5: after [drop_duplicates(subset=["url"], keep="first")] the urls of
    the remaining rows are pairwise distinct, the remaining rows are the
    fetched rows with some removed and the order kept, and for every url
    the first row carrying it in the fetched order is the row that
    remains: a row goes only when an earlier row has its url. *)
Theorem drop_duplicates_url_keeps_first (fetched : list NewsRow) :
  NoDup (map n_url (drop_duplicates_url fetched)) /\
  Subseq (drop_duplicates_url fetched) fetched /\
  (forall u, find (fun r => url_eqb (n_url r) u) (drop_duplicates_url fetched)
             = find (fun r => url_eqb (n_url r) u) fetched).
Proof.
  unfold drop_duplicates_url; repeat split.
  - apply drop_seen_NoDup.
  - apply drop_seen_Subseq.
  - intro u; now rewrite drop_seen_find.
Qed.

(** ** Symbol formatting is idempotent *)

Lemma upper_char_idem (c : ascii) : upper_char (upper_char c) = upper_char c.
Proof. destruct c as [[] [] [] [] [] [] [] []]; reflexivity. Qed.

Lemma is_space_upper_char (c : ascii) : is_space (upper_char c) = is_space c.
Proof. destruct c as [[] [] [] [] [] [] [] []]; reflexivity. Qed.

Lemma upper_idem (s : string) : upper (upper s) = upper s.
Proof.
  induction s as [|c s IH]; simpl; [reflexivity|].
  now rewrite upper_char_idem, IH.
Qed.

Lemma lstrip_upper (s : string) : lstrip (upper s) = upper (lstrip s).
Proof.
  induction s as [|c s IH]; simpl; [reflexivity|].
  rewrite is_space_upper_char; now destruct (is_space c).
Qed.

Lemma rstrip_upper (s : string) : rstrip (upper s) = upper (rstrip s).
Proof.
  induction s as [|c s IH]; simpl; [reflexivity|].
  rewrite IH, is_space_upper_char.
  destruct (rstrip s); simpl; [now destruct (is_space c) | reflexivity].
Qed.

Lemma strip_upper (s : string) : strip (upper s) = upper (strip s).
Proof. unfold strip; now rewrite lstrip_upper, rstrip_upper. Qed.

Lemma lstrip_starts_clean (s : string) : starts_clean (lstrip s) = true.
Proof.
  induction s as [|c s IH]; simpl; [reflexivity|].
  destruct (is_space c) eqn:E; [assumption | simpl; now rewrite E].
Qed.

Lemma lstrip_clean (s : string) : starts_clean s = true -> lstrip s = s.
Proof.
  destruct s as [|c s]; simpl; [reflexivity|].
  now destruct (is_space c).
Qed.

Lemma rstrip_starts_clean (s : string) :
  starts_clean s = true -> starts_clean (rstrip s) = true.
Proof.
  destruct s as [|c s]; simpl; [auto|].
  intro H; destruct (rstrip s); simpl; [|assumption].
  destruct (is_space c) eqn:E; simpl; [discriminate | now rewrite E].
Qed.

Lemma rstrip_idem (s : string) : rstrip (rstrip s) = rstrip s.
Proof.
  induction s as [|c s IH]; simpl; [reflexivity|].
  destruct (rstrip s) as [|d r] eqn:E.
  - destruct (is_space c) eqn:Ec; simpl; [reflexivity | now rewrite Ec].
  - change (rstrip (String c (String d r)) = String c (String d r)).
    simpl in IH |- *.
    destruct (match rstrip r with
              | EmptyString => if is_space d then EmptyString else String d EmptyString
              | String d0 r0 => String d (String d0 r0)
              end) eqn:E'; [discriminate | now rewrite IH].
Qed.

Lemma strip_idem (s : string) : strip (strip s) = strip s.
Proof.
  unfold strip.
  rewrite (lstrip_clean (rstrip (lstrip s))).
  - apply rstrip_idem.
  - apply rstrip_starts_clean, lstrip_starts_clean.
Qed.

(** The normal form both functions start from: [s.upper().strip()]. *)
Lemma normalise_idem (s : string) :
  strip (upper (strip (upper s))) = strip (upper s).
Proof. now rewrite strip_upper, strip_idem, <- strip_upper, upper_idem. Qed.

(** Either the key is in the table, or the lookup gives the key back. *)
Lemma dict_get_cases (d : list (string * string)) (key : string) :
  (exists v, In (key, v) d /\ dict_get d key key = v) \/ dict_get d key key = key.
Proof.
  induction d as [|[k v] d IH]; simpl; [now right|].
  destruct (String.eqb k key) eqn:E.
  - apply String.eqb_eq in E; subst; left; exists v; auto.
  - destruct IH as [[v' [Hin Hv]] | Hm]; [left; exists v'; auto | now right].
Qed.

Lemma format_stock_symbol_default (s : string) :
  format_stock_symbol s "" =
  if str_contains "." (strip (upper s)) then strip (upper s)
  else dict_get common_symbols (strip (upper s)) (strip (upper s)).
Proof. reflexivity. Qed.

(** C9: with the default empty exchange, formatting a stock symbol that
    has already been formatted returns it unchanged, and so does formatting
    an index symbol twice: each result is upper-cased, stripped and mapped
    to itself. *)
Theorem format_symbol_idempotent (s : string) :
  format_stock_symbol (format_stock_symbol s "") "" = format_stock_symbol s "" /\
  format_index_symbol (format_index_symbol s) = format_index_symbol s.
Proof.
  pose proof (normalise_idem s) as Hn.
  split.
  - rewrite (format_stock_symbol_default s).
    set (u := strip (upper s)) in *.
    destruct (str_contains "." u) eqn:Hdot.
    + rewrite format_stock_symbol_default, Hn, Hdot; reflexivity.
    + destruct (dict_get_cases common_symbols u) as [[v [Hin Hv]] | Hm].
      * rewrite Hv; simpl in Hin.
        repeat (destruct Hin as [Hin | Hin];
                [injection Hin as <- <-; reflexivity|]); contradiction.
      * rewrite Hm, format_stock_symbol_default, Hn, Hdot; exact Hm.
  - unfold format_index_symbol.
    set (u := strip (upper s)) in *.
    destruct (dict_get_cases index_map u) as [[v [Hin Hv]] | Hm].
    + rewrite Hv; simpl in Hin.
      repeat (destruct Hin as [Hin | Hin];
              [injection Hin as <- <-; reflexivity|]); contradiction.
    + rewrite Hm, Hn; exact Hm.
Qed.

(** ** retry_with_backoff *)

Section RetryFacts.

Variable A : Type.
Variables initial_delay exponential_base : Q.
Variable jitter : bool.
Variable max_retries : Z.
Variable ns : namespace.
Variable func : nat -> result A.
Variable random : nat -> Q.

Local Abbreviation loop := (Retry.loop A exponential_base jitter max_retries ns func random).
Local Abbreviation wrapper :=
  (Retry.wrapper A initial_delay exponential_base jitter max_retries ns func random).

(** The loop ends within the fuel [wrapper] gives it. *)
Lemma retry_loop_total (fuel : nat) : forall num_retries delay ncalls slept,
  max_retries - num_retries < Z.of_nat fuel -> fuel <> O ->
  exists r, loop fuel num_retries delay ncalls slept = Some r.
Proof.
  induction fuel as [|fuel IH]; intros nr delay nc slept Hlt Hne; [congruence|].
  simpl. destruct (func nc) as [v|e]; [eauto|].
  destruct (Retry.caught e); [|eauto].
  destruct (Z.gtb_spec (nr + 1) max_retries); [eauto|].
  destruct (call_time_sleep ns _); [|eauto].
  apply IH; lia.
Qed.

Lemma retry_wrapper_total : exists r, wrapper = Some r.
Proof.
  apply retry_loop_total; unfold Retry.wrapper_fuel; lia.
Qed.

(** Each pass through the loop invokes the wrapped function once and
    either ends the call or uses up one retry. *)
Lemma retry_loop_calls (fuel : nat) : forall num_retries delay ncalls slept r,
  loop fuel num_retries delay ncalls slept = Some r ->
  num_retries <= max_retries ->
  Z.of_nat (Retry.calls r) - Z.of_nat ncalls <= max_retries - num_retries + 1.
Proof.
  induction fuel as [|fuel IH]; intros nr delay nc slept r Hr Hle; [discriminate|].
  simpl in Hr. destruct (func nc) as [v|e].
  - injection Hr as <-; cbn [Retry.calls]; lia.
  - destruct (Retry.caught e); [|injection Hr as <-; cbn [Retry.calls]; lia].
    destruct (Z.gtb_spec (nr + 1) max_retries); [injection Hr as <-; cbn [Retry.calls]; lia|].
    destruct (call_time_sleep ns _); [|injection Hr as <-; cbn [Retry.calls]; lia].
    apply IH in Hr; lia.
Qed.

(** The wrapped function is invoked at most max_retries + 1 times. *)
Lemma retry_calls_bound (r : Retry.run A) :
  0 <= max_retries -> wrapper = Some r -> Z.of_nat (Retry.calls r) <= max_retries + 1.
Proof.
  intros Hm Hr; apply retry_loop_calls in Hr; lia.
Qed.

(** An exception outside the [except] clause's classes leaves at once. *)
Lemma retry_uncaught_propagates (e : exn) :
  func O = Raise e -> Retry.caught e = false ->
  wrapper = Some (Retry.mkRun (Raise e) 1 []).
Proof.
  intros Hf Hc; unfold Retry.wrapper, Retry.wrapper_fuel; simpl.
  now rewrite Hf, Hc.
Qed.

End RetryFacts.

Lemma time_sleep_as_imported (delay : Q) :
  call_time_sleep news_module_globals delay = Raise AttributeError.
Proof. reflexivity. Qed.

(** In the modules as written [time] names the class [datetime.time], so
    the first caught failure that is allowed a retry ends the call with
    AttributeError: the wrapped function is never invoked again. *)
Lemma retry_as_written_never_retries
    (A : Type) (initial_delay exponential_base : Q) (jitter : bool) (max_retries : Z)
    (func : nat -> result A) (random : nat -> Q) (e : exn) :
  func O = Raise e -> Retry.caught e = true -> 1 <= max_retries ->
  Retry.wrapper A initial_delay exponential_base jitter max_retries
                news_module_globals func random
  = Some (Retry.mkRun (Raise AttributeError) 1 []).
Proof.
  intros Hf Hc Hm; unfold Retry.wrapper, Retry.wrapper_fuel; simpl.
  rewrite Hf, Hc.
  destruct (Z.gtb_spec 1 max_retries); [lia | reflexivity].
Qed.

(** C6, at a function that fails once with ValueError: the decorator with
    its defaults invokes it a single time and raises AttributeError from
    [time.sleep], where one wait and a second, successful invocation are
    due; with [time] bound to the module the same call waits once and
    returns on the second invocation. *)
Theorem retry_with_backoff_as_written_does_not_retry :
  Retry.wrapper Z 1 2 true 5 news_module_globals Samples.fails_once Samples.half
    = Some (Retry.mkRun (Raise AttributeError) 1 []) /\
  Retry.wrapper Z 1 2 true 5 intended_globals Samples.fails_once Samples.half
    = Some (Retry.mkRun (Ok 7) 2 [(1 * (2 * 1) * ((1 # 2) + (1 # 2)))%Q]).
Proof. split; reflexivity. Qed.

(** ** get_news_data and its fallback *)

Lemma retry_wrapper_returns (A : Type) (d b : Q) (j : bool) (m : Z) (ns : namespace)
    (x : A) (random : nat -> Q) :
  Retry.wrapper A d b j m ns (fun _ => Ok x) random = Some (Retry.mkRun (Ok x) 1 []).
Proof. reflexivity. Qed.

Section NewsFacts.

Variable ns : namespace.
Variable now : datetime.
Variable NEWS_API_KEY : option string.
Variable strptime : string -> result Z.
Variable strftime : Z -> string.
Variable get_everything : string -> string -> string -> result Response.
Variable file_exists : string -> bool.
Variable read_csv : string -> result NewsFrame.
Variable polarity_scores : string -> Q * Q * Q * Q.
Variable generate_synthetic : string -> string -> string -> bool -> result NewsFrame.

Local Abbreviation alternative :=
  (get_alternative_news_data file_exists read_csv generate_synthetic).
Local Abbreviation effective_end := (effective_end_date now strptime strftime).
Local Abbreviation fetch := (fetch_articles ns strptime strftime get_everything).
Local Abbreviation floop := (fetch_loop ns strftime get_everything).
Local Abbreviation body :=
  (get_news_data_body ns now NEWS_API_KEY strptime strftime get_everything
                      file_exists read_csv polarity_scores generate_synthetic).
Local Abbreviation get_news :=
  (get_news_data ns now NEWS_API_KEY strptime strftime get_everything
                 file_exists read_csv polarity_scores generate_synthetic).

(** The query loop ends: every pass moves [current_start] forward. *)
Lemma fetch_loop_total (fuel : nat) : forall company current_start end_dt acc,
  end_dt - current_start <= Z.of_nat fuel ->
  exists r, floop fuel company current_start end_dt acc = Some r.
Proof.
  induction fuel as [|fuel IH]; intros company cur end_dt acc Hfuel; simpl.
  - destruct (Z.ltb_spec cur end_dt); [lia | eauto].
  - destruct (Z.ltb_spec cur end_dt); [|destruct fuel; eauto].
    destruct (call_time_sleep ns 2); [|eauto].
    apply IH; lia.
Qed.

Lemma fetch_articles_total (company start_date end_date : string) :
  exists r, fetch company start_date end_date = Some r.
Proof.
  unfold fetch_articles.
  destruct (strptime start_date) as [s|]; [|eauto].
  destruct (strptime end_date) as [e|]; [|eauto].
  apply fetch_loop_total; unfold fetch_fuel; lia.
Qed.

(** When no query brings an article the loop leaves the list as it was. *)
Lemma fetch_loop_no_articles (company : string) (fuel : nat) :
  (forall a b, query strftime get_everything company a b = []) ->
  forall current_start end_dt acc l,
  floop fuel company current_start end_dt acc = Some (Ok l) -> l = acc.
Proof.
  intro Hq; induction fuel as [|fuel IH]; intros cur end_dt acc l; simpl.
  - destruct (cur <? end_dt); [discriminate | congruence].
  - destruct (cur <? end_dt); [|destruct fuel; congruence].
    rewrite Hq, app_nil_r.
    destruct (call_time_sleep ns 2); [apply IH | discriminate].
Qed.

Lemma get_news_data_body_falls_back (company start_date end_date : string) (analyze : bool) :
  key_missing NEWS_API_KEY = true
  \/ (forall a b, query strftime get_everything company a b = [])
  \/ (exists e, strptime end_date = Raise e)
  \/ (exists e, fetch company start_date (effective_end end_date) = Some (Raise e)) ->
  body company start_date end_date analyze
  = Some (Ok (alternative company start_date (effective_end end_date) analyze)).
Proof.
  intro H; unfold get_news_data_body.
  destruct (strptime end_date) as [end_dt|e] eqn:Hend.
  - destruct (key_missing NEWS_API_KEY) eqn:Hkey; [reflexivity|].
    destruct (fetch_articles_total company start_date (effective_end end_date)) as [r Hr].
    rewrite Hr.
    destruct r as [[|a l]|e]; try reflexivity.
    destruct H as [H | [H | [[e H] | [e H]]]]; try congruence.
    unfold fetch_articles in Hr.
    destruct (strptime start_date); [|discriminate].
    destruct (strptime (effective_end end_date)); [|discriminate].
    apply (fetch_loop_no_articles company _ H) in Hr; discriminate.
  - unfold effective_end_date; now rewrite Hend.
Qed.

(** C7: when NEWS_API_KEY is unset (or empty), or no NewsAPI query brings
    an article, or an exception is raised while the dates are parsed or the
    articles fetched, [get_news_data] invokes its body once and returns,
    without raising, the frame of [get_alternative_news_data] for the same
    company and start date and the end date moved back to today when it
    lay in the future. *)
Theorem get_news_data_returns_alternative
    (random : nat -> Q) (company start_date end_date : string) (analyze : bool) :
  key_missing NEWS_API_KEY = true
  \/ (forall a b, query strftime get_everything company a b = [])
  \/ (exists e, strptime end_date = Raise e)
  \/ (exists e, fetch company start_date (effective_end end_date) = Some (Raise e)) ->
  get_news random company start_date end_date analyze
  = Some (Retry.mkRun
            (Ok (alternative company start_date (effective_end end_date) analyze)) 1 []).
Proof.
  intro H; unfold get_news_data.
  rewrite (get_news_data_body_falls_back _ _ _ _ H).
  apply retry_wrapper_returns.
Qed.

(** The alternative source: the saved CSV when it exists, reads and is not
    empty; otherwise the generated news, or an empty frame when generating
    or saving them raised. *)
Lemma get_alternative_news_data_cases (company start_date end_date : string) (analyze : bool) :
  let path := saved_file_path company start_date end_date in
  let result := alternative company start_date end_date analyze in
  (forall data, file_exists path = true -> read_csv path = Ok data ->
                frame_empty data = false -> result = data) /\
  (forall news, saved_news file_exists read_csv company start_date end_date = None ->
                generate_synthetic company start_date end_date analyze = Ok news ->
                result = news) /\
  (forall e, saved_news file_exists read_csv company start_date end_date = None ->
             generate_synthetic company start_date end_date analyze = Raise e ->
             result = empty_frame).
Proof.
  unfold get_alternative_news_data, saved_news; cbn zeta.
  repeat split.
  - intros data He Hr Hn; now rewrite He, Hr, Hn.
  - intros news Hs Hg; now rewrite Hs, Hg.
  - intros e Hs Hg; now rewrite Hs, Hg.
Qed.

End NewsFacts.

Lemma fetch_loop_as_written
    (strftime : Z -> string) (get_everything : string -> string -> string -> result Response)
    (company : string) (start_dt end_dt : Z) :
  fetch_loop news_module_globals strftime get_everything
             (fetch_fuel start_dt end_dt) company start_dt end_dt []
  = if start_dt <? end_dt then Some (Raise AttributeError) else Some (Ok []).
Proof.
  unfold fetch_fuel.
  destruct (Z.to_nat (end_dt - start_dt)) eqn:Hf; simpl;
    destruct (Z.ltb_spec start_dt end_dt); try reflexivity; lia.
Qed.

(** In the module as written [time.sleep(2)] raises inside the query loop,
    so [get_news_data] returns the alternative source's frame on every
    input, whatever NewsAPI answers. *)
Lemma get_news_data_as_written
    (now : datetime) (key : option string) (strptime : string -> result Z)
    (strftime : Z -> string) (get_everything : string -> string -> string -> result Response)
    (file_exists : string -> bool) (read_csv : string -> result NewsFrame)
    (polarity_scores : string -> Q * Q * Q * Q)
    (generate_synthetic : string -> string -> string -> bool -> result NewsFrame)
    (random : nat -> Q) (company start_date end_date : string) (analyze : bool) :
  get_news_data news_module_globals now key strptime strftime get_everything
                file_exists read_csv polarity_scores generate_synthetic
                random company start_date end_date analyze
  = Some (Retry.mkRun
            (Ok (get_alternative_news_data file_exists read_csv generate_synthetic
                   company start_date
                   (effective_end_date now strptime strftime end_date) analyze)) 1 []).
Proof.
  unfold get_news_data, get_news_data_body.
  destruct (strptime end_date) as [e0|e0] eqn:Hend.
  - destruct (key_missing key); [reflexivity|].
    unfold fetch_articles.
    destruct (strptime start_date) as [s|e1]; [|reflexivity].
    destruct (strptime (effective_end_date now strptime strftime end_date)) as [e|e1];
      [|reflexivity].
    rewrite fetch_loop_as_written.
    destruct (s <? e); reflexivity.
  - unfold effective_end_date; rewrite Hend; reflexivity.
Qed.

(** ** transform_data *)

Lemma nth_error_combine {A B : Type} (l1 : list A) : forall (l2 : list B) k a b,
  nth_error l1 k = Some a -> nth_error l2 k = Some b ->
  nth_error (combine l1 l2) k = Some (a, b).
Proof.
  induction l1 as [|x l1 IH]; intros [|y l2] [|k] a b H1 H2; simpl in *;
    try discriminate.
  - congruence.
  - now apply IH.
Qed.

Section Float64Order.

Import SpecFloat.
Import Float64.

(** Comparing the other way round gives the opposite answer. *)
Lemma SFcompare_antisym (a b : spec_float) :
  SFcompare b a = option_map CompOpp (SFcompare a b).
Proof.
  destruct a as [sa|sa| |sa ma ea], b as [sb|sb| |sb mb eb]; cbn;
    try reflexivity; try (destruct sa; reflexivity); try (destruct sb; reflexivity);
    try (destruct sa, sb; reflexivity).
  destruct sa, sb; try reflexivity;
    rewrite (Z.compare_antisym ea eb); destruct (ea ?= eb); cbn; try reflexivity;
    rewrite (Pos.compare_cont_antisym ma mb Eq); cbn; rewrite ?CompOpp_involutive;
    reflexivity.
Qed.

Lemma flt_not_fle (a b : float64) : flt a b -> ~ fle b a.
Proof.
  unfold flt, fle; rewrite FloatAxioms.ltb_spec, FloatAxioms.leb_spec.
  unfold SFltb, SFleb; rewrite (SFcompare_antisym (FloatOps.Prim2SF a)).
  destruct (SFcompare (FloatOps.Prim2SF a) (FloatOps.Prim2SF b)) as [[| |]|]; cbn;
    congruence.
Qed.

(** A float above -inf is a number, and comparable with every number. *)
Lemma fle_or_flt (x c : float64) :
  flt PrimFloat.neg_infinity x -> fle c c -> fle x c \/ flt c x.
Proof.
  unfold flt, fle; rewrite !FloatAxioms.ltb_spec, !FloatAxioms.leb_spec.
  unfold SFltb, SFleb;
    rewrite (SFcompare_antisym (FloatOps.Prim2SF x) (FloatOps.Prim2SF c)).
  change (FloatOps.Prim2SF PrimFloat.neg_infinity) with (S754_infinity true).
  destruct (FloatOps.Prim2SF x) as [sx|sx| |sx mx ex]; try discriminate;
  destruct (FloatOps.Prim2SF c) as [sc|sc| |sc mc ec]; try discriminate; intros _ _;
    match goal with
    | |- context [SFcompare ?a ?b] => destruct (SFcompare a b) as [[| |]|] eqn:E
    end; cbn; auto; cbn in E; discriminate.
Qed.

Lemma fle_infinity (a x : float64) : flt a x -> fle x PrimFloat.infinity.
Proof.
  unfold flt, fle; rewrite FloatAxioms.ltb_spec, FloatAxioms.leb_spec.
  change (FloatOps.Prim2SF PrimFloat.infinity) with (S754_infinity false).
  destruct (FloatOps.Prim2SF x) as [sx|[|]| |sx mx ex]; try reflexivity.
  destruct (FloatOps.Prim2SF a) as [sa|[|]| |sa ma ea]; discriminate.
Qed.

Lemma flt_neg_infinity (a x : float64) : flt a x -> flt PrimFloat.neg_infinity x.
Proof.
  unfold flt; rewrite !FloatAxioms.ltb_spec.
  change (FloatOps.Prim2SF PrimFloat.neg_infinity) with (S754_infinity true).
  destruct (FloatOps.Prim2SF x) as [sx|[|]| |sx mx ex]; try reflexivity;
  destruct (FloatOps.Prim2SF a) as [sa|[|]| |sa ma ea]; discriminate.
Qed.

(** The two inner bin edges: 0.01 is 5764607523034235 * 2^-59, and -0.01
    its opposite. *)
Lemma one_percent_bits :
  FloatOps.Prim2SF one_percent = S754_finite false 5764607523034235 (-59) /\
  FloatOps.Prim2SF (PrimFloat.opp one_percent) = S754_finite true 5764607523034235 (-59).
Proof. split; vm_compute; reflexivity. Qed.

(** That float lies within half the distance between neighbouring floats,
    2^-60, of 1/100. *)
Lemma one_percent_nearest :
  (Qabs ((5764607523034235 # 576460752303423488) - (1 # 100))
   < (1 # 1152921504606846976))%Q.
Proof. vm_compute; reflexivity. Qed.

Lemma edges_are_numbers :
  fle (PrimFloat.opp one_percent) (PrimFloat.opp one_percent) /\ fle one_percent one_percent.
Proof. split; vm_compute; reflexivity. Qed.

Lemma below_apart (x : float64) :
  fle x (PrimFloat.opp one_percent) -> ~ flt one_percent x.
Proof.
  unfold flt, fle; rewrite FloatAxioms.ltb_spec, FloatAxioms.leb_spec.
  destruct one_percent_bits as [-> ->].
  unfold SFleb, SFltb, SFcompare.
  destruct (FloatOps.Prim2SF x) as [sx|[|]| |[|] mx ex]; congruence.
Qed.

(** The three bins of the relative performance: they are disjoint, and
    they leave out NaN and -inf only. *)
Lemma relative_category_cases (rel : float64) :
  let category := cut_float relative_bins relative_labels rel in
  (category = Some "Negatif Sapma"
   <-> flt PrimFloat.neg_infinity rel /\ fle rel (PrimFloat.opp one_percent)) /\
  (category = Some "Nötr" <-> flt (PrimFloat.opp one_percent) rel /\ fle rel one_percent) /\
  (category = Some "Pozitif Sapma" <-> flt one_percent rel) /\
  (category = None <-> ~ flt PrimFloat.neg_infinity rel).
Proof.
  cbn [cut_float relative_bins relative_labels]; cbv zeta.
  pose proof (flt_not_fle (PrimFloat.opp one_percent) rel) as A1.
  pose proof (flt_not_fle one_percent rel) as A2.
  pose proof (below_apart rel) as A3.
  pose proof (fle_infinity one_percent rel) as A4.
  pose proof (flt_neg_infinity (PrimFloat.opp one_percent) rel) as A5.
  pose proof (flt_neg_infinity one_percent rel) as A6.
  pose proof (fun H => fle_or_flt rel (PrimFloat.opp one_percent) H
                         (proj1 edges_are_numbers)) as A7.
  pose proof (fun H => fle_or_flt rel one_percent H (proj2 edges_are_numbers)) as A8.
  unfold flt, fle in *.
  destruct (PrimFloat.ltb PrimFloat.neg_infinity rel);
  destruct (PrimFloat.leb rel (PrimFloat.opp one_percent));
  destruct (PrimFloat.ltb (PrimFloat.opp one_percent) rel);
  destruct (PrimFloat.leb rel one_percent);
  destruct (PrimFloat.ltb one_percent rel);
  destruct (PrimFloat.leb rel PrimFloat.infinity); cbn [andb];
  repeat split; try congruence; try tauto; intros; try discriminate;
  try (exfalso; intuition congruence).
Qed.

(** NaN minus anything is NaN. *)
Lemma sub_nan (x : float64) : PrimFloat.sub PrimFloat.nan x = PrimFloat.nan.
Proof.
  apply FloatAxioms.Prim2SF_inj; rewrite FloatAxioms.sub_spec.
  change (FloatOps.Prim2SF PrimFloat.nan) with S754_nan.
  destruct (FloatOps.Prim2SF x); reflexivity.
Qed.

End Float64Order.

Section TransformFacts.

Import Float64.
Import PrimFloat.PrimFloatNotations.

(** C8, amended: when the stock selection and the index selection have as
    many rows, [transform_data] returns one row per stock row, in which
    daily_return is (Close - Open) / Open in float64 arithmetic for the
    stock and for the index at the same position, relative_performance is
    the stock's daily_return minus the index's, and relative_perf_category
    is 'Negatif Sapma' iff -inf < relative_performance <= -0.01, 'Nötr'
    iff -0.01 < relative_performance <= 0.01, 'Pozitif Sapma' iff
    relative_performance > 0.01, and missing iff relative_performance is
    NaN or -inf.  An Open of zero is no exception. *)
Theorem transform_data_features (df : list PriceRow) (stock_symbol index_symbol : string) :
  List.length (rows_of stock_symbol df) = List.length (rows_of index_symbol df) ->
  exists out,
    transform_data df stock_symbol index_symbol = Ok out /\
    List.length out = List.length (rows_of stock_symbol df) /\
    forall k s i,
      nth_error (rows_of stock_symbol df) k = Some s ->
      nth_error (rows_of index_symbol df) k = Some i ->
      exists r,
        nth_error out k = Some r /\
        t_stock r = Some s /\
        daily_return r = ((p_Close s - p_Open s) / p_Open s)%float /\
        index_daily_return r = ((p_Close i - p_Open i) / p_Open i)%float /\
        relative_performance r = (daily_return r - index_daily_return r)%float /\
        (relative_perf_category r = Some "Negatif Sapma"
         <-> flt PrimFloat.neg_infinity (relative_performance r) /\
             fle (relative_performance r) (- one_percent)%float) /\
        (relative_perf_category r = Some "Nötr"
         <-> flt (- one_percent)%float (relative_performance r) /\
             fle (relative_performance r) one_percent) /\
        (relative_perf_category r = Some "Pozitif Sapma"
         <-> flt one_percent (relative_performance r)) /\
        (relative_perf_category r = None
         <-> ~ flt PrimFloat.neg_infinity (relative_performance r)).
Proof.
  intros Hlen.
  exists (map (fun p => transform_row (Some (fst p)) (snd p))
              (combine (rows_of stock_symbol df) (rows_of index_symbol df))).
  split; [|split].
  - unfold transform_data. destruct df as [|d df']; [reflexivity|].
    destruct (rows_of stock_symbol (d :: df')) as [|s0 stock] eqn:Hs.
    + destruct (rows_of index_symbol (d :: df')); [reflexivity | discriminate Hlen].
    + now rewrite Hlen, Nat.eqb_refl.
  - rewrite length_map, length_combine, <- Hlen; apply Nat.min_id.
  - intros k s i Hs Hi.
    eexists; split.
    + rewrite nth_error_map, (nth_error_combine _ _ _ _ _ Hs Hi); reflexivity.
    + unfold transform_row, daily_return_of; cbn [t_stock daily_return index_daily_return
        relative_performance relative_perf_category fst snd].
      exact (conj eq_refl (conj eq_refl (conj eq_refl (conj eq_refl
               (relative_category_cases _))))).
Qed.

(** A frame that holds no row of the stock but rows of the index: each
    index row gives a row whose stock columns, daily_return and
    relative_performance are NaN and which has no category. *)
Lemma transform_data_without_stock_rows (df : list PriceRow) (stock_symbol index_symbol : string) :
  rows_of stock_symbol df = [] ->
  transform_data df stock_symbol index_symbol
  = Ok (map (fun i => mkTransformed None PrimFloat.nan (p_Open i) (p_High i) (p_Low i)
                        (p_Close i) (p_Volume i) (daily_return_of i) PrimFloat.nan None)
            (rows_of index_symbol df)).
Proof.
  intro Hs; unfold transform_data; rewrite Hs.
  destruct df as [|d df']; [reflexivity|].
  f_equal; apply map_ext; intro i; unfold transform_row.
  now rewrite sub_nan.
Qed.

(** The other mismatches of the two selections raise. *)
Lemma transform_data_raises (df : list PriceRow) (stock_symbol index_symbol : string) :
  rows_of stock_symbol df <> [] ->
  List.length (rows_of stock_symbol df) <> List.length (rows_of index_symbol df) ->
  transform_data df stock_symbol index_symbol = Raise ValueError.
Proof.
  intros Hs Hlen; unfold transform_data.
  destruct df as [|d df']; [now elim Hs|].
  destruct (rows_of stock_symbol (d :: df')) as [|s0 stock]; [now elim Hs|].
  now apply Nat.eqb_neq in Hlen as ->.
Qed.

End TransformFacts.

Open Scope Q_scope.

(** ** process_text_data *)

Lemma clamp_in_range (score : Q) : in_unit_range (clamp score).
Proof.
  unfold in_unit_range, clamp; split.
  - apply Q.le_max_l.
  - apply Q.max_lub; [lra | apply Q.le_min_l].
Qed.

Lemma zero_in_range : in_unit_range 0.
Proof. unfold in_unit_range; lra. Qed.

Lemma parse_score_in_range (text : string) : in_unit_range (parse_score text).
Proof.
  unfold parse_score; destruct (search_number text);
    [apply clamp_in_range | apply zero_in_range].
Qed.

Section TextFacts.

Variable GEMINI_API_KEY : option string.
Variable uniform : nat -> Q.
Variable sentiment_reply : nat -> string -> result string.
Variable topics_reply : nat -> string -> result string.

Local Abbreviation step := (score_step sentiment_reply topics_reply).
Local Abbreviation scores := (score_rows sentiment_reply topics_reply).
Local Abbreviation process :=
  (process_text_data GEMINI_API_KEY uniform sentiment_reply topics_reply).

Lemma score_step_in_range (k : nat) (text : string) :
  Forall in_unit_range (fst (step k text)).
Proof.
  unfold score_step.
  destruct (too_short text); [repeat constructor; apply zero_in_range|].
  destruct (sentiment_reply k text); [|repeat constructor; apply zero_in_range].
  destruct (topics_reply k text); simpl;
    repeat constructor; try apply parse_score_in_range; apply zero_in_range.
Qed.

Lemma score_rows_in_range (df : list TextRow) : forall k ss ts,
  scores k df = Ok (ss, ts) -> Forall in_unit_range ss.
Proof.
  induction df as [|r df IH]; intros k ss ts; cbn [score_rows].
  - intros [= <- <-]; constructor.
  - destruct (news_text r) as [text|e]; [|discriminate].
    pose proof (score_step_in_range k text) as Hs.
    destruct (step k text) as [s t]; specialize (IH (S k)).
    destruct (scores (S k) df) as [[ss' ts']|e]; [|discriminate].
    intros [= <- <-]; apply Forall_app; split; [exact Hs | exact (IH _ _ eq_refl)].
Qed.

Lemma attach_scores (df : list TextRow) : forall ss ts r,
  In r (attach df ss ts) -> In (sentiment_score r) ss.
Proof.
  induction df as [|x df IH]; intros [|s ss] [|t ts] r; simpl; try contradiction.
  intros [<- | Hin]; [now left | right; eapply IH; eauto].
Qed.

Lemma attach_length (df : list TextRow) : forall ss ts,
  List.length ss = List.length df -> List.length ts = List.length df ->
  List.length (attach df ss ts) = List.length df.
Proof.
  induction df as [|x df IH]; intros [|s ss] [|t ts]; simpl; try discriminate; auto.
Qed.

Lemma random_scores_spec (df : list TextRow) : forall k r,
  In r (random_scores uniform k df) -> exists j, sentiment_score r = uniform j.
Proof.
  induction df as [|x df IH]; intros k r; simpl; [contradiction|].
  intros [<- | Hin]; [now exists k | eauto].
Qed.

Lemma random_scores_length (df : list TextRow) : forall k,
  List.length (random_scores uniform k df) = List.length df.
Proof. induction df; intro k; simpl; auto. Qed.

(** C10: every sentiment_score of a frame [process_text_data] returns lies
    in [-1, 1], one score per row: parsed scores are clamped, rows with
    missing or short text and rows whose request fails get 0, and without
    an API key the scores are the draws from [-1, 1). *)
Theorem process_text_data_scores_in_range (df : list TextRow) (out : list Scored) :
  (forall k, - (1) <= uniform k /\ uniform k < 1) ->
  process df = Ok out ->
  List.length out = List.length df /\
  forall r, In r out -> - (1) <= sentiment_score r /\ sentiment_score r <= 1.
Proof.
  intros Hu; unfold process_text_data.
  destruct df as [|x df]; [intros [= <-]; split; [reflexivity | contradiction]|].
  set (rows := x :: df).
  destruct (match GEMINI_API_KEY with
            | Some k => (k =? "")%string
            | None => true
            end).
  - intros [= <-]; split; [exact (random_scores_length rows 0)|].
    intros r Hin; apply (random_scores_spec rows 0) in Hin as [j ->].
    destruct (Hu j); split; [assumption | lra].
  - pose proof (score_rows_in_range rows 0) as Hr.
    destruct (scores 0%nat rows) as [[ss ts]|e]; [|discriminate].
    specialize (Hr ss ts eq_refl).
    destruct (Nat.eqb_spec (List.length ss) (List.length rows)); [|discriminate].
    destruct (Nat.eqb_spec (List.length ts) (List.length rows)); [|discriminate].
    intros [= <-]; split; [exact (attach_length rows ss ts e e0)|].
    intros r Hin; apply (attach_scores rows) in Hin.
    rewrite Forall_forall in Hr; exact (Hr _ Hin).
Qed.

(** The frame does come back whenever no cell is NaN and no topics request
    fails after its sentiment request succeeded. *)
Lemma process_text_data_returns (df : list TextRow) :
  (forall r, In r df -> x_title r <> Missing /\ x_description r <> Missing) ->
  (forall k text reply, sentiment_reply k text = Ok reply ->
                        exists topics, topics_reply k text = Ok topics) ->
  exists out, process df = Ok out.
Proof.
  intros Hcells Ht.
  assert (Hlen : forall l k,
             (forall r, In r l -> x_title r <> Missing /\ x_description r <> Missing) ->
             exists ss ts, scores k l = Ok (ss, ts) /\
               List.length ss = List.length l /\ List.length ts = List.length l).
  { intro l; induction l as [|r l IH]; intros k Hl; cbn [score_rows];
      [exists [], []; auto|].
    destruct (IH (S k)) as (ss & ts & -> & H1 & H2); [intros x Hx; apply Hl; now right|].
    destruct (Hl r (or_introl eq_refl)) as [Hti Hde].
    assert (Hn : exists text, news_text r = Ok text).
    { unfold news_text, join_text.
      destruct (x_title r) as [t| |]; [| |now elim Hti];
        destruct (x_description r) as [d| |]; try (now elim Hde); cbn;
        repeat match goal with |- context [negb ?b] => destruct b; cbn end; eauto. }
    destruct Hn as [text ->].
    assert (Hs : List.length (fst (step k text)) = 1%nat /\
                 List.length (snd (step k text)) = 1%nat).
    { unfold score_step. destruct (too_short text); [auto|].
      destruct (sentiment_reply k text) eqn:E; [|auto].
      destruct (Ht _ _ _ E) as [t ->]; auto. }
    destruct (step k text) as [s t]; cbn [fst snd] in Hs.
    do 2 eexists; split; [reflexivity|].
    rewrite !length_app; cbn [List.length]; lia. }
  unfold process_text_data.
  destruct df as [|x df]; [eauto|].
  destruct (match GEMINI_API_KEY with
            | Some k => (k =? "")%string
            | None => true
            end); [eauto|].
  destruct (Hlen (x :: df) 0%nat Hcells) as (ss & ts & -> & H1 & H2).
  rewrite H1, H2, Nat.eqb_refl; eauto.
Qed.

End TextFacts.

Close Scope Q_scope.

(** ** Frames: lookups, filling and the left merge *)

Open Scope list_scope.

Lemma lookup_app (c : string) (a b : row) :
  lookup c (a ++ b) = match lookup c a with
                      | Some v => Some v
                      | None => lookup c b
                      end.
Proof.
  induction a as [|[k v] a IH]; simpl; [reflexivity|].
  now destruct (String.eqb k c).
Qed.

Lemma lookup_drop_column (c key : string) (r : row) :
  String.eqb c key = false -> lookup c (drop_column key r) = lookup c r.
Proof.
  intro Hne; induction r as [|[k v] r IH]; simpl; [reflexivity|].
  destruct (String.eqb k key) eqn:Ek; simpl.
  - apply String.eqb_eq in Ek; subst k.
    rewrite String.eqb_sym, Hne; exact IH.
  - destruct (String.eqb k c); [reflexivity | exact IH].
Qed.

Lemma lookup_fillna_row (pick : string -> bool) (value : cell) (c : string) (r : row) :
  lookup c (fillna_row pick value r)
  = match lookup c r with
    | Some v => Some (if pick c && is_nan v then value else v)
    | None => None
    end.
Proof.
  induction r as [|[k v] r IH]; simpl; [reflexivity|].
  destruct (pick k && is_nan v) eqn:Ep; simpl;
    destruct (String.eqb k c) eqn:Ek; try exact IH;
    apply String.eqb_eq in Ek; subst k; now rewrite Ep.
Qed.

(** Group keys: the dates that occur, each once, in ascending order. *)
Lemma insert_key_In (d x : Z) (keys : list Z) :
  In x (insert_key d keys) <-> x = d \/ In x keys.
Proof.
  induction keys as [|k keys IH]; simpl; [intuition|].
  destruct (Z.ltb_spec d k); [simpl; intuition|].
  destruct (Z.eqb_spec d k); [subst; simpl; intuition|].
  simpl; rewrite IH; intuition.
Qed.

Lemma group_keys_In (x : Z) (dates : list Z) : In x (group_keys dates) <-> In x dates.
Proof.
  induction dates as [|d dates IH]; simpl; [reflexivity|].
  rewrite insert_key_In, IH; intuition.
Qed.

Lemma insert_key_sorted (d : Z) (keys : list Z) :
  StronglySorted Z.lt keys -> StronglySorted Z.lt (insert_key d keys).
Proof.
  induction 1 as [|k keys Hs IH Hall]; simpl; [repeat constructor|].
  destruct (Z.ltb_spec d k).
  - constructor; [now constructor|].
    constructor; [assumption|].
    eapply Forall_impl; [|exact Hall]; intros; lia.
  - destruct (Z.eqb_spec d k); [now constructor|].
    constructor; [assumption|].
    rewrite Forall_forall in *; intros x Hx.
    apply insert_key_In in Hx as [-> | Hx]; [lia | auto].
Qed.

Lemma group_keys_sorted (dates : list Z) : StronglySorted Z.lt (group_keys dates).
Proof.
  induction dates; simpl; [constructor | now apply insert_key_sorted].
Qed.

Lemma group_keys_NoDup (dates : list Z) : NoDup (group_keys dates).
Proof.
  induction (group_keys_sorted dates) as [|k keys Hs IH Hall]; constructor; [|assumption].
  intro Hin; rewrite Forall_forall in Hall; specialize (Hall _ Hin); lia.
Qed.

Lemma existsb_eqb_In (x : Z) (keys : list Z) : existsb (Z.eqb x) keys = true <-> In x keys.
Proof.
  rewrite existsb_exists; split.
  - intros [y [Hin He]]; apply Z.eqb_eq in He; now subst.
  - intro Hin; exists x; split; [assumption | apply Z.eqb_refl].
Qed.

(** Among rows keyed by distinct days, the rows matching a day. *)
Lemma filter_keyed (key : string) (f : Z -> row) (x : Z) (keys : list Z) :
  NoDup keys -> (forall d, lookup key (f d) = Some (Day d)) ->
  filter (fun r => key_eqb (Some (Day x)) (lookup key r)) (map f keys)
  = if existsb (Z.eqb x) keys then [f x] else [].
Proof.
  intros Hnd Hf; induction Hnd as [|k keys Hnotin Hnd IH]; [reflexivity|].
  cbn [map filter existsb]; rewrite Hf.
  change (key_eqb (Some (Day x)) (Some (Day k))) with (x =? k).
  destruct (Z.eqb_spec x k) as [->|Hne]; cbn [orb].
  - rewrite IH.
    destruct (existsb (Z.eqb k) keys) eqn:E; [|reflexivity].
    apply existsb_eqb_In in E; contradiction.
  - exact IH.
Qed.

Lemma filter_unkeyed (key : string) (l : row) (right_rows : list row) :
  (forall x, lookup key l <> Some (Day x)) ->
  filter (fun r => key_eqb (lookup key l) (lookup key r)) right_rows = [].
Proof.
  intro H; induction right_rows as [|r rs IH]; simpl; [reflexivity|].
  destruct (lookup key l) as [[| | |x]|]; simpl; try exact IH.
  exfalso; now apply (H x).
Qed.

(** Such a merge keeps every left row, in order, exactly once. *)
Lemma merge_left_keyed (key : string) (left right : DataFrame) (f : Z -> row) (keys : list Z) :
  NoDup keys -> (forall d, lookup key (f d) = Some (Day d)) ->
  rows right = map f keys ->
  rows (merge_left key left right)
  = map (fun l => l ++ joined key f keys
                    (filter (fun c => negb (String.eqb c key)) (columns right)) l)
        (rows left).
Proof.
  intros Hnd Hf Hr; unfold merge_left; cbn [rows]; rewrite Hr.
  match goal with |- flat_map ?g _ = map ?h _ => set (G := g); set (H := h) end.
  induction (rows left) as [|l ls IH]; [reflexivity|].
  cbn [flat_map map]; rewrite IH; clear IH.
  replace (G l) with [H l]; [reflexivity|].
  subst G H; cbv beta; unfold joined.
  destruct (lookup key l) as [[| | |x]|] eqn:El;
    try (rewrite <- El, filter_unkeyed by (rewrite El; discriminate); reflexivity).
  rewrite (filter_keyed key f x keys Hnd Hf).
  destruct (existsb (Z.eqb x) keys); reflexivity.
Qed.

(** ** The merged rows *)

Lemma str_in_In (x : string) (l : list string) : str_in x l = true <-> In x l.
Proof.
  unfold str_in; rewrite existsb_exists; split.
  - intros [y [Hin He]]; apply String.eqb_eq in He; now subst.
  - intro Hin; exists x; split; [assumption | apply String.eqb_refl].
Qed.


Lemma stock_fields_with_date (s : StockRow) (extra : row) :
  stock_fields (with_date s ++ extra) = Some s.
Proof. destruct s; reflexivity. Qed.

Lemma stock_fields_stock_cells (s : StockRow) : stock_fields (stock_cells s) = Some s.
Proof. destruct s; reflexivity. Qed.

(** Filling missing values leaves the stock fields alone. *)
Lemma stock_fields_fillna_row (pick : string -> bool) (value : cell) (r : row) (s : StockRow) :
  stock_fields r = Some s -> stock_fields (fillna_row pick value r) = Some s.
Proof.
  unfold stock_fields; rewrite !lookup_fillna_row.
  destruct (lookup "Date" r) as [[| | |d]|]; try discriminate.
  destruct (lookup "Open" r) as [[|o| |]|]; try discriminate.
  destruct (lookup "High" r) as [[|h| |]|]; try discriminate.
  destruct (lookup "Low" r) as [[|l| |]|]; try discriminate.
  destruct (lookup "Close" r) as [[|c| |]|]; try discriminate.
  destruct (lookup "Volume" r) as [[|v| |]|]; try discriminate.
  destruct (lookup "Symbol" r) as [[| |y|]|]; try discriminate.
  cbn [is_nan]; rewrite !andb_false_r; auto.
Qed.

Lemma stock_fields_fill_missing (merged : DataFrame) (sel : list StockRow) :
  map stock_fields (rows merged) = map Some sel ->
  map stock_fields (rows (fill_missing merged)) = map Some sel.
Proof.
  assert (Hfill : forall pick value df,
             map stock_fields (rows df) = map Some sel ->
             map stock_fields (rows (fillna pick value df)) = map Some sel).
  { intros pick value df; unfold fillna; cbn [rows]; rewrite map_map.
    generalize sel; induction (rows df) as [|r rs IH]; intros [|s ss]; simpl;
      try discriminate; [reflexivity|].
    intros [= Hr Hrs]; f_equal; [now apply stock_fields_fillna_row | now apply IH]. }
  intro H; unfold fill_missing.
  destruct (str_in "daily_news_titles" _); repeat apply Hfill; assumption.
Qed.

Lemma sentiment_df_rows (news : list NewsRow) :
  rows (merge_left "date" (daily_sentiment news) (fill_pivot (time_pivot news)))
  = map (sentiment_row news) (group_keys (map n_date news)).
Proof.
  set (keys := group_keys (map n_date news)).
  rewrite (merge_left_keyed "date" _ _
             (fun d => fillna_row pivot_sentiment_column (Num 0) (time_pivot_row news d)) keys).
  - unfold daily_sentiment; cbn [rows]; rewrite map_map.
    apply map_ext_in; intros d Hd; unfold sentiment_row; f_equal.
    unfold joined; cbn [daily_sentiment_row lookup String.eqb Ascii.eqb Bool.eqb].
    apply existsb_eqb_In in Hd; now rewrite Hd.
  - apply group_keys_NoDup.
  - intro d; rewrite lookup_fillna_row; reflexivity.
  - unfold fill_pivot, fillna, time_pivot; cbn [rows]; now rewrite map_map.
Qed.

(** The left merge of the dated stock rows with a frame keyed by distinct
    days: each stock row once, followed by its day's cells or by missing
    values. *)
Lemma merge_stock_rows (cols : list string) (sel : list StockRow) (right : DataFrame)
    (g : Z -> row) (keys : list Z) :
  NoDup keys -> (forall d, lookup "date" (g d) = Some (Day d)) ->
  rows right = map g keys ->
  rows (merge_left "date" (mkFrame cols (map with_date sel)) right)
  = map (fun s => with_date s ++
                  if existsb (Z.eqb (s_Date s)) keys then drop_column "date" (g (s_Date s))
                  else map (fun c => (c, NaN))
                           (filter (fun c => negb (String.eqb c "date")) (columns right)))
        sel.
Proof.
  intros Hnd Hg Hr.
  rewrite (merge_left_keyed "date" _ _ g keys Hnd Hg Hr); cbn [rows]; rewrite map_map.
  apply map_ext; intro s; f_equal.
Qed.

Section MergeFacts.

Variable random_hour : nat -> Z.
Variable random_minute : nat -> Z.

Local Abbreviation timed := (news_with_time random_hour random_minute).
Local Abbreviation days := (news_days random_hour random_minute).
Local Abbreviation selected := (merge_selected random_hour random_minute).
Local Abbreviation merge := (merge_stock_and_news_data random_hour random_minute).

(** The merge steps raise exactly when a column they read is missing. *)
Lemma merge_selected_raises (sel : list StockRow) (news_data : NewsFrame) :
  news_columns_suffice news_data = false -> exists e, selected sel news_data = Raise e.
Proof.
  unfold news_columns_suffice, merge_selected, news_with_time.
  destruct (frame_empty news_data); [discriminate|]; cbn [negb orb].
  destruct (has_column news_data "publishedAt"), (has_column news_data "date"),
    (has_column news_data "sentiment_compound"), (has_column news_data "title"),
    (has_column news_data "sentiment_pos"), (has_column news_data "sentiment_neg"),
    (has_column news_data "sentiment_neu"); cbn; intro H; try discriminate; eauto.
Qed.

(** The shape of the merged frame before the final filling: the dated
    stock rows, in order, each followed by the cells joined to it, which
    are all missing on a day without news. *)
Lemma merge_selected_shape (sel : list StockRow) (news_data : NewsFrame) :
  news_columns_suffice news_data = true ->
  exists merged right_columns joined_cells,
    selected sel news_data = Ok merged /\
    columns merged = (stock_columns ++ ["date"]) ++ right_columns /\
    rows merged = map (fun s => with_date s ++ joined_cells s) sel /\
    (forall s, ~ In (s_Date s) (days news_data) ->
               joined_cells s = map (fun c => (c, NaN)) right_columns).
Proof.
  unfold news_columns_suffice, merge_selected, news_days.
  destruct (frame_empty news_data); cbn [negb orb].
  - intros _. exists (mkFrame (stock_columns ++ ["date"]) (map with_date sel)), [], (fun _ => []).
    cbn [columns rows]; split; [reflexivity|]; split; [now rewrite app_nil_r|]; split.
    + apply map_ext; intro s; now rewrite app_nil_r.
    + reflexivity.
  - intro Hcols.
    assert (Htimed : exists news, timed news_data = Ok news).
    { unfold news_with_time; revert Hcols.
      destruct (has_column news_data "publishedAt"); [eauto|].
      destruct (has_column news_data "date"); [eauto | cbn [orb andb]; intro Hf; discriminate Hf]. }
    destruct Htimed as [news Hnews]; rewrite Hnews; cbn [bind].
    assert (Htitle : has_column news_data "title" = true).
    { revert Hcols; destruct (has_column news_data "title"); [reflexivity|].
      now rewrite andb_false_r. }
    rewrite Htitle, andb_true_r in *.
    set (keys := group_keys (map n_date news)).
    assert (Hmiss : forall s : StockRow, ~ In (s_Date s) (map n_date news) ->
                    existsb (Z.eqb (s_Date s)) keys = false).
    { intros s Hs. destruct (existsb (Z.eqb (s_Date s)) keys) eqn:E; [|reflexivity].
      apply existsb_eqb_In in E; apply (proj1 (group_keys_In _ _)) in E; contradiction. }
    destruct (has_column news_data "sentiment_compound").
    + replace (has_column news_data "sentiment_pos" && has_column news_data "sentiment_neg"
               && has_column news_data "sentiment_neu") with true
        by (revert Hcols;
            now destruct (has_column news_data "publishedAt" || has_column news_data "date")).
      eexists; eexists; eexists; split; [reflexivity|]; split; [reflexivity|]; split.
      * apply (merge_stock_rows _ _ _ (sentiment_row news) keys).
        -- apply group_keys_NoDup.
        -- reflexivity.
        -- apply sentiment_df_rows.
      * intros s Hs; cbv beta; now rewrite (Hmiss s Hs).
    + eexists; eexists; eexists; split; [reflexivity|]; split; [reflexivity|]; split.
      * apply (merge_stock_rows _ _ _
                 (fun d => [("date", Day d);
                            ("daily_news_titles", Str (join_titles (titles (on_date d news))))])
                 keys).
        -- apply group_keys_NoDup.
        -- reflexivity.
        -- reflexivity.
      * intros s Hs; cbv beta; now rewrite (Hmiss s Hs).
Qed.

End MergeFacts.

(** The rows after the final filling (lines 1003-1010). *)
Lemma fill_missing_rows (merged : DataFrame) :
  rows (fill_missing merged)
  = map (fun r =>
           let r := fillna_row (str_contains "sentiment") (Num 0) r in
           if str_in "daily_news_titles" (columns merged)
           then fillna_row (String.eqb "daily_news_titles") (Str "Haber yok") r
           else r)
        (rows merged).
Proof.
  unfold fill_missing, fillna; cbn [columns rows].
  destruct (str_in "daily_news_titles" (columns merged)); cbn [rows];
    [rewrite map_map|]; reflexivity.
Qed.


Section MergeTheorems.

Variable random_hour : nat -> Z.
Variable random_minute : nat -> Z.

Local Abbreviation timed := (news_with_time random_hour random_minute).
Local Abbreviation days := (news_days random_hour random_minute).
Local Abbreviation selected := (merge_selected random_hour random_minute).
Local Abbreviation merge := (merge_stock_and_news_data random_hour random_minute).



End MergeTheorems.

(** ** Sentiment means per day and per window *)

Lemma eqb_append_prefix (p a b : string) :
  String.eqb (String.append p a) (String.append p b) = String.eqb a b.
Proof.
  induction p as [|c p IH]; simpl; [reflexivity|].
  now rewrite Ascii.eqb_refl.
Qed.

(** Looking a prefixed label up among cells labelled with the same prefix. *)
Lemma lookup_prefixed (p : string) (g : string -> cell) (w : string) (ws : list string) :
  lookup (String.append p w) (map (fun w' => (String.append p w', g w')) ws)
  = if existsb (String.eqb w) ws then Some (g w) else None.
Proof.
  induction ws as [|w' ws IH]; simpl; [reflexivity|].
  rewrite eqb_append_prefix, (String.eqb_sym w w').
  destruct (String.eqb w' w) eqn:E; [|exact IH].
  apply String.eqb_eq in E; now subst.
Qed.

Lemma lookup_title_cells (g : string -> cell) (w : string) (ws : list string) :
  lookup (String.append "sentiment_compound_" w)
         (map (fun w' => (String.append "title_" w', g w')) ws) = None.
Proof. induction ws as [|w' ws IH]; simpl; [reflexivity | exact IH]. Qed.

Lemma existsb_filter_eqb (P : string -> bool) (w : string) (l : list string) :
  existsb (String.eqb w) (filter P l) = existsb (String.eqb w) l && P w.
Proof.
  induction l as [|x l IH]; simpl; [reflexivity|].
  destruct (P x) eqn:Px; simpl; rewrite IH.
  - destruct (String.eqb w x) eqn:E; [|reflexivity].
    apply String.eqb_eq in E; subst; now rewrite Px.
  - destruct (String.eqb w x) eqn:E; [|reflexivity].
    apply String.eqb_eq in E; subst; rewrite Px.
    now rewrite !andb_false_r.
Qed.

(** The pivot cell of a window column, before filling. *)
Lemma lookup_time_pivot_row (news : list NewsRow) (d : Z) (w : string) :
  In w all_windows ->
  lookup (String.append "sentiment_compound_" w) (time_pivot_row news d)
  = if existsb (fun n => String.eqb (time_of_day n) w) news
    then Some (window_sentiment news d w) else None.
Proof.
  intro Hw; unfold time_pivot_row.
  change (lookup ?c (("date", ?v) :: ?rest)) with
    (if String.eqb "date" c then Some v else lookup c rest).
  replace (String.eqb "date" (String.append "sentiment_compound_" w)) with false by reflexivity.
  rewrite lookup_app, lookup_prefixed, lookup_title_cells.
  unfold windows_present; rewrite existsb_filter_eqb.
  replace (existsb (String.eqb w) all_windows) with true; [cbn [andb]|].
  - now destruct (existsb _ news).
  - symmetry; apply existsb_exists; exists w; split; [assumption | apply String.eqb_refl].
Qed.

(** The cell of a window column in [sentiment_df]: the window's mean, or 0
    when the day has no news in it; no cell at all when no day has. *)
Lemma lookup_sentiment_row_window (news : list NewsRow) (d : Z) (w : string) :
  In w all_windows ->
  lookup (String.append "sentiment_compound_" w) (sentiment_row news d)
  = if existsb (fun n => String.eqb (time_of_day n) w) news
    then Some (Num (match in_window w (on_date d news) with
                    | [] => 0%Q
                    | group => mean (map n_sentiment_compound group)
                    end))
    else None.
Proof.
  intro Hw; unfold sentiment_row.
  rewrite lookup_app.
  replace (lookup (String.append "sentiment_compound_" w) (daily_sentiment_row news d))
    with (@None cell) by reflexivity.
  rewrite lookup_drop_column by reflexivity.
  rewrite lookup_fillna_row, (lookup_time_pivot_row news d w Hw).
  destruct (existsb _ news); [|reflexivity].
  replace (pivot_sentiment_column (String.append "sentiment_compound_" w)) with true
    by reflexivity.
  unfold window_sentiment; now destruct (in_window w (on_date d news)).
Qed.

Section SentimentMeans.

Variable random_hour : nat -> Z.
Variable random_minute : nat -> Z.

Local Abbreviation timed := (news_with_time random_hour random_minute).
Local Abbreviation selected := (merge_selected random_hour random_minute).
Local Abbreviation merge := (merge_stock_and_news_data random_hour random_minute).

(** The merged rows on the sentiment path: a stock row whose day has news
    is followed by that day's row of [sentiment_df]. *)
Lemma merge_selected_sentiment (sel : list StockRow) (news_data : NewsFrame)
    (news : list NewsRow) :
  frame_empty news_data = false ->
  has_column news_data "sentiment_compound" = true ->
  news_columns_suffice news_data = true ->
  timed news_data = Ok news ->
  exists merged joined_cells,
    selected sel news_data = Ok merged /\
    rows merged = map (fun s => with_date s ++ joined_cells s) sel /\
    (forall s, In (s_Date s) (map n_date news) ->
               joined_cells s = drop_column "date" (sentiment_row news (s_Date s))).
Proof.
  intros Hne Hsent Hcols Hnews.
  unfold news_columns_suffice in Hcols; rewrite Hne, Hsent in Hcols; cbn [orb] in Hcols.
  apply andb_prop in Hcols as [Hcols Hrest]; apply andb_prop in Hcols as [_ Htitle].
  unfold merge_selected; rewrite Hne, Hnews, Hsent, Hrest, Htitle; cbn [negb bind andb].
  eexists; eexists; split; [reflexivity|]; split.
  - apply (merge_stock_rows _ _ _ (sentiment_row news) (group_keys (map n_date news))).
    + apply group_keys_NoDup.
    + reflexivity.
    + apply sentiment_df_rows.
  - intros s Hs; cbv beta.
    apply group_keys_In, existsb_eqb_In in Hs; now rewrite Hs.
Qed.

(** What the merge computes for a non-empty news frame with sentiment
    scores, in every merged row whose stock date d is a news day:
    daily_sentiment is the arithmetic mean of sentiment_compound over
    exactly the news rows dated d; for a window w that holds news on some
    day the cell sentiment_compound_w is the mean over the news rows of d
    whose hour lies in w, or 0 when d has none there.  For a window that
    holds no news on any day the pivot of lines 968-972 makes no column,
    so the fill of lines 977-980 has nothing to fill and the row has no
    such cell: the defect of C2. *)
Lemma merge_attaches_sentiment_means
    (stock_data : list StockRow) (news_data : NewsFrame) (stock_symbol : string)
    (news : list NewsRow) (r : row) (d : Z) :
  frame_empty news_data = false ->
  has_column news_data "sentiment_compound" = true ->
  news_columns_suffice news_data = true ->
  timed news_data = Ok news ->
  In r (rows (merge stock_data news_data stock_symbol)) ->
  lookup "Date" r = Some (Day d) ->
  In d (map n_date news) ->
  lookup "daily_sentiment" r
    = Some (Num (mean (map n_sentiment_compound (on_date d news)))) /\
  forall w, In w all_windows ->
    lookup (String.append "sentiment_compound_" w) r
    = if existsb (fun n => String.eqb (time_of_day n) w) news
      then Some (Num (match in_window w (on_date d news) with
                      | [] => 0%Q
                      | group => mean (map n_sentiment_compound group)
                      end))
      else None.
Proof.
  intros Hne Hsent Hcols Hnews Hin Hd Hday.
  unfold merge_stock_and_news_data in Hin.
  destruct stock_data as [|s0 rest]; [contradiction|].
  destruct (merge_selected_sentiment (stock_selection (s0 :: rest) stock_symbol)
              news_data news Hne Hsent Hcols Hnews) as (merged & J & Hm & Hrows & HJ).
  rewrite Hm, fill_missing_rows, Hrows, map_map in Hin.
  apply in_map_iff in Hin as [s [<- _]]; cbv zeta in *.
  assert (Hdate : d = s_Date s).
  { destruct (str_in "daily_news_titles" (columns merged));
      rewrite ?lookup_fillna_row, lookup_app in Hd;
      destruct s; cbn in Hd |- *; congruence. }
  subst d; rewrite (HJ s Hday).
  assert (Hlook : forall c v,
            lookup c (with_date s) = None -> String.eqb c "date" = false ->
            String.eqb "daily_news_titles" c = false ->
            lookup c (sentiment_row news (s_Date s)) = Some (Num v) ->
            lookup c (if str_in "daily_news_titles" (columns merged)
                      then fillna_row (String.eqb "daily_news_titles") (Str "Haber yok")
                             (fillna_row (str_contains "sentiment") (Num 0)
                                (with_date s ++ drop_column "date" (sentiment_row news (s_Date s))))
                      else fillna_row (str_contains "sentiment") (Num 0)
                             (with_date s ++ drop_column "date" (sentiment_row news (s_Date s))))
            = Some (Num v)).
  { intros c v Hstock Hnd Hnt Hrow.
    destruct (str_in "daily_news_titles" (columns merged));
      rewrite ?lookup_fillna_row, lookup_app, Hstock, lookup_drop_column, Hrow by assumption;
      cbn [is_nan]; rewrite ?andb_false_r; reflexivity. }
  split.
  - apply Hlook; try reflexivity.
  - intros w Hw.
    pose proof (lookup_sentiment_row_window news (s_Date s) w Hw) as Hrow.
    destruct (existsb (fun n => String.eqb (time_of_day n) w) news).
    + apply Hlook; try reflexivity; assumption.
    + destruct (str_in "daily_news_titles" (columns merged));
        rewrite ?lookup_fillna_row, lookup_app, lookup_drop_column, Hrow by reflexivity;
        replace (lookup (String.append "sentiment_compound_" w) (with_date s))
          with (@None cell) by reflexivity; reflexivity.
Qed.

End SentimentMeans.

(** ** The properties at sample inputs *)

(** C2, at three articles: two on the morning of day 1 and one at noon
    of day 2.  In the merged row of day 1 daily_sentiment and the morning
    cell are the mean of the two morning scores and the noon cell is the
    substituted 0; but no article of any day falls into the evening window,
    and the row has no sentiment_compound_akşam cell, nor the frame such a
    column, where line 977 means to guarantee a value for every window. *)
Theorem merge_leaves_out_window_without_news :
  exists r1 r2,
    rows Samples.merged_two_days = [r1; r2] /\
    lookup "Date" r1 = Some (Day 1) /\
    map n_sentiment_compound (on_date 1 (news_rows Samples.two_day_news))
    = [(1 # 2)%Q; (1 # 4)%Q] /\
    lookup "daily_sentiment" r1 = Some (Num (mean [(1 # 2)%Q; (1 # 4)%Q])) /\
    lookup "sentiment_compound_sabah" r1 = Some (Num (mean [(1 # 2)%Q; (1 # 4)%Q])) /\
    in_window "öğle" (on_date 1 (news_rows Samples.two_day_news)) = [] /\
    lookup "sentiment_compound_öğle" r1 = Some (Num 0) /\
    in_window "akşam" (on_date 1 (news_rows Samples.two_day_news)) = [] /\
    lookup "sentiment_compound_akşam" r1 = None /\
    Symbols.str_in "sentiment_compound_akşam" (columns Samples.merged_two_days) = false /\
    Symbols.str_in "sentiment_compound_öğle" (columns Samples.merged_two_days) = true.
Proof. do 2 eexists; repeat split; reflexivity. Qed.

(** The same with a single article, on the morning of day 1: the noon
    window holds no news, and the merged row of day 1 has no
    sentiment_compound_öğle cell at all instead of a 0. *)
Lemma window_without_news_has_no_column :
  exists r rest,
    rows Samples.merged_sample = r :: rest /\
    lookup "Date" r = Some (Day 1) /\
    in_window "öğle" (on_date 1 (news_rows Samples.morning_news)) = [] /\
    lookup "sentiment_compound_öğle" r = None /\
    lookup "sentiment_compound_sabah" r = Some (Num (mean [(1 # 2)%Q])).
Proof. do 2 eexists; repeat split; reflexivity. Qed.

(** The cells of the first merged row of the three articles, of day 1. *)
Lemma merge_attaches_sentiment_means_witness :
  lookup "daily_sentiment" (nth 0 (rows Samples.merged_two_days) [])
    = Some (Num (mean (map n_sentiment_compound
                           (on_date 1 (news_rows Samples.two_day_news))))) /\
  forall w, In w all_windows ->
    lookup (String.append "sentiment_compound_" w) (nth 0 (rows Samples.merged_two_days) [])
    = if existsb (fun n => String.eqb (time_of_day n) w) (news_rows Samples.two_day_news)
      then Some (Num (match in_window w (on_date 1 (news_rows Samples.two_day_news)) with
                      | [] => 0%Q
                      | group => mean (map n_sentiment_compound group)
                      end))
      else None.
Proof.
  apply (merge_attaches_sentiment_means Samples.nine Samples.zero Samples.two_symbols
           Samples.two_day_news "AAPL" (news_rows Samples.two_day_news)).
  - reflexivity.
  - reflexivity.
  - reflexivity.
  - reflexivity.
  - left; reflexivity.
  - reflexivity.
  - left; reflexivity.
Defined.



(** C7 in a world without NEWS_API_KEY. *)
Lemma get_news_data_returns_alternative_witness :
  get_news_data news_module_globals Samples.today None Samples.parse_any Samples.print_any
                Samples.no_response Samples.no_file Samples.unreadable Samples.neutral
                Samples.no_synthetic Samples.half "ACME" "2024-01-01" "2024-02-01" true
  = Some (Retry.mkRun
            (Ok (get_alternative_news_data Samples.no_file Samples.unreadable
                   Samples.no_synthetic "ACME" "2024-01-01"
                   (effective_end_date Samples.today Samples.parse_any Samples.print_any
                      "2024-02-01") true)) 1 []).
Proof.
  apply get_news_data_returns_alternative.
  left; reflexivity.
Defined.

(** C8 at one stock bar and one index bar. *)
Lemma transform_data_features_witness :
  exists out,
    transform_data PriceSamples.bars "AAPL" "^IXIC" = Ok out /\
    List.length out = List.length (rows_of "AAPL" PriceSamples.bars) /\
    forall k s i,
      nth_error (rows_of "AAPL" PriceSamples.bars) k = Some s ->
      nth_error (rows_of "^IXIC" PriceSamples.bars) k = Some i ->
      exists r,
        nth_error out k = Some r /\
        t_stock r = Some s /\
        daily_return r
        = PrimFloat.div (PrimFloat.sub (p_Close s) (p_Open s)) (p_Open s) /\
        index_daily_return r
        = PrimFloat.div (PrimFloat.sub (p_Close i) (p_Open i)) (p_Open i) /\
        relative_performance r = PrimFloat.sub (daily_return r) (index_daily_return r) /\
        (relative_perf_category r = Some "Negatif Sapma"
         <-> Float64.flt PrimFloat.neg_infinity (relative_performance r) /\
             Float64.fle (relative_performance r) (PrimFloat.opp Float64.one_percent)) /\
        (relative_perf_category r = Some "Nötr"
         <-> Float64.flt (PrimFloat.opp Float64.one_percent) (relative_performance r) /\
             Float64.fle (relative_performance r) Float64.one_percent) /\
        (relative_perf_category r = Some "Pozitif Sapma"
         <-> Float64.flt Float64.one_percent (relative_performance r)) /\
        (relative_perf_category r = None
         <-> ~ Float64.flt PrimFloat.neg_infinity (relative_performance r)).
Proof.
  apply (transform_data_features PriceSamples.bars "AAPL" "^IXIC").
  reflexivity.
Defined.

(** C8, as first stated, fails: with the stock going from 100 to 104 and
    the index from 2^-600 to 2^600, all Opens non-zero, the index's
    daily_return overflows to inf, relative_performance is -inf, which is
    <= -0.01, and the row has no category. *)
Lemma infinite_fall_has_no_category :
  exists r,
    transform_data PriceSamples.soaring_index "AAPL" "^IXIC" = Ok [r] /\
    index_daily_return r = PrimFloat.infinity /\
    relative_performance r = PrimFloat.neg_infinity /\
    Float64.fle (relative_performance r) (PrimFloat.opp Float64.one_percent) /\
    relative_perf_category r = None.
Proof. eexists; repeat split; vm_compute; reflexivity. Qed.

(** At the edge of a bin the rounding decides: 100 to 104 against 100 to
    103 gives 0.04 - 0.03 in floats, which is the float next above 0.01,
    and the row is a 'Pozitif Sapma'. *)
Lemma rounding_at_the_edge :
  exists r,
    transform_data PriceSamples.bars "AAPL" "^IXIC" = Ok [r] /\
    FloatOps.Prim2SF (relative_performance r)
    = SpecFloat.S754_finite false 5764607523034236 (-59) /\
    Float64.flt Float64.one_percent (relative_performance r) /\
    relative_perf_category r = Some "Pozitif Sapma".
Proof. eexists; repeat split; vm_compute; reflexivity. Qed.

(** A frame with one bar of the index and none of the stock. *)
Lemma transform_data_without_stock_rows_witness :
  transform_data PriceSamples.index_only "AAPL" "^IXIC"
  = Ok (map (fun i => mkTransformed None PrimFloat.nan (p_Open i) (p_High i) (p_Low i)
                        (p_Close i) (p_Volume i) (daily_return_of i) PrimFloat.nan None)
            (rows_of "^IXIC" PriceSamples.index_only)).
Proof.
  apply (transform_data_without_stock_rows PriceSamples.index_only "AAPL" "^IXIC").
  reflexivity.
Defined.

(** C10 at two headlines scored through the API path. *)
Lemma process_text_data_scores_in_range_witness :
  List.length Samples.scored_headlines = List.length Samples.headlines /\
  forall r, In r Samples.scored_headlines ->
            (- (1) <= sentiment_score r)%Q /\ (sentiment_score r <= 1)%Q.
Proof.
  apply (process_text_data_scores_in_range (Some "key") Samples.draw_zero
           Samples.reply_high Samples.reply_topics Samples.headlines).
  - intro k; split; [discriminate | reflexivity].
  - reflexivity.
Defined.

(** A reply of 3.5 is clamped to 1 and a headline under ten characters
    scores 0. *)
Lemma scored_headlines_values :
  map sentiment_score Samples.scored_headlines = [clamp (35 # 10); 0%Q].
Proof. reflexivity. Qed.

(** When the topics request fails after the sentiment request succeeded,
    the row's score and a 0 are both appended: the score list outgrows the
    frame and the column assignment raises ValueError. *)
Lemma process_text_data_topics_failure :
  process_text_data (Some "key") Samples.draw_zero Samples.reply_high
                    Samples.failing_topics Samples.headlines
  = Raise ValueError.
Proof. reflexivity. Qed.

(** The bound on invocations, at the function that fails once. *)
Lemma retry_calls_bound_witness :
  Z.of_nat (Retry.calls (Retry.mkRun (A := Z) (Raise AttributeError) 1 [])) <= 5 + 1.
Proof.
  apply (retry_calls_bound Z 1 2 true 5 news_module_globals Samples.fails_once Samples.half).
  - lia.
  - reflexivity.
Defined.

(** An AttributeError raised by the wrapped function itself is not retried. *)
Lemma retry_uncaught_propagates_witness :
  Retry.wrapper Z 1 2 true 5 intended_globals (fun _ => Raise AttributeError) Samples.half
  = Some (Retry.mkRun (Raise AttributeError) 1 []).
Proof.
  apply retry_uncaught_propagates; reflexivity.
Defined.

(** * Further properties *)

Import Cleaning.

(** ** clean_data *)

Lemma clean_text_data_closed (df : list NewsItem) :
  clean_text_data df
  = map fill_content (map fill_description
      (filter long_title (filter (fun r => is_some (i_title r)) df))).
Proof. destruct df; reflexivity. Qed.

Lemma clean_text_data_rows (df : list NewsItem) (r : NewsItem) :
  In r (clean_text_data df) ->
  exists title description content,
    i_title r = Some title /\ (5 < Unicode.len title)%nat /\
    i_description r = Some description /\ i_content r = Some content.
Proof.
  rewrite clean_text_data_closed, map_map.
  intro Hin; apply in_map_iff in Hin as [r0 [<- Hin]].
  apply filter_In in Hin as [_ Hlong].
  unfold long_title in Hlong.
  destruct r0 as [d [t|] desc cont u]; cbn [i_title] in Hlong; [|discriminate].
  apply Nat.ltb_lt in Hlong.
  destruct desc as [ds|]; destruct cont as [c|]; cbn; eauto 8.
Qed.

Lemma clean_text_data_fixes (df : list NewsItem) :
  (forall r, In r df ->
     long_title r = true /\ is_some (i_description r) = true /\ is_some (i_content r) = true) ->
  clean_text_data df = df.
Proof.
  rewrite clean_text_data_closed; induction df as [|r df IH]; intro H; [reflexivity|].
  destruct (H r (or_introl eq_refl)) as (Hl & Hd & Hc).
  assert (Ht : is_some (i_title r) = true)
    by (unfold long_title in Hl; now destruct (i_title r)).
  cbn [filter]; rewrite Ht; cbn [filter]; rewrite Hl; cbn [map].
  rewrite IH by (intros; apply H; now right).
  f_equal. clear H IH Hl Ht.
  destruct r as [d t [ds|] [c|] u]; cbn in Hd, Hc; try discriminate; reflexivity.
Qed.

(** After the text cleaning every row comes from a row of the input that
    has a title longer than five characters; it has that row's date, title
    and url, its description if there is one and the title otherwise, and
    its content if there is one and the new description otherwise. *)
Theorem clean_text_data_complete (df : list NewsItem) (r : NewsItem) :
  In r (clean_text_data df) ->
  exists r0 title,
    In r0 df /\ i_title r0 = Some title /\ (5 < Unicode.len title)%nat /\
    i_date r = i_date r0 /\ i_title r = Some title /\ i_url r = i_url r0 /\
    i_description r = or_else (i_description r0) (Some title) /\
    i_content r = or_else (i_content r0) (or_else (i_description r0) (Some title)).
Proof.
  rewrite clean_text_data_closed, map_map.
  intro Hin; apply in_map_iff in Hin as [r0 [<- Hin]].
  apply filter_In in Hin as [Hin Hlong].
  apply filter_In in Hin as [Hin _].
  unfold long_title in Hlong.
  destruct r0 as [d [t|] desc cont u]; cbn [i_title] in Hlong; [|discriminate].
  apply Nat.ltb_lt in Hlong.
  exists (mkNewsItem d (Some t) desc cont u), t.
  destruct desc as [ds|]; destruct cont as [c|]; cbn; auto 10.
Qed.

(** Text cleaning keeps the complete rows as they are and in order, and
    cleaning a cleaned frame changes nothing. *)
Theorem clean_text_data_idempotent (df : list NewsItem) :
  clean_text_data (clean_text_data df) = clean_text_data df.
Proof.
  apply clean_text_data_fixes; intros r Hin.
  destruct (clean_text_data_rows df r Hin) as (t & d & c & Ht & Hl & Hd & Hc).
  unfold long_title; rewrite Ht, Hd, Hc; repeat split.
  now apply Nat.ltb_lt.
Qed.

(** Forward filling keeps every value that is present. *)
Lemma ffill_from_keeps {A : Type} (col : column A) : forall last i v,
  nth_error col i = Some (Some v) -> nth_error (ffill_from last col) i = Some (Some v).
Proof.
  induction col as [|x col IH]; intros last [|i] v H; cbn in *; try discriminate.
  - injection H as ->; reflexivity.
  - destruct x; cbn; now apply IH.
Qed.

Lemma ffill_from_length {A : Type} (col : column A) : forall last,
  List.length (ffill_from last col) = List.length col.
Proof.
  induction col as [|x col IH]; intro last; [reflexivity|].
  destruct x; cbn; now rewrite IH.
Qed.

Lemma present_ffill_from {A : Type} (col : column A) : forall last,
  present col <> [] -> present (ffill_from last col) <> [].
Proof.
  induction col as [|x col IH]; intros last H; [contradiction|].
  destruct x as [v|]; cbn; [discriminate|].
  cbn in H; destruct last; [discriminate | now apply IH].
Qed.

(** A numeric column after cleaning: as long as before, every value that
    was present unchanged, and, if the column held any value at all, no
    missing value left. *)
Lemma clean_numeric_spec (col : column Q) :
  List.length (clean_numeric col) = List.length col /\
  (forall i v, nth_error col i = Some (Some v) ->
               nth_error (clean_numeric col) i = Some (Some v)) /\
  (present col <> [] -> forall x, In x (clean_numeric col) -> x <> None).
Proof.
  unfold clean_numeric, fill_with; repeat split.
  - unfold ffill; now rewrite length_map, ffill_from_length.
  - intros i v H; rewrite nth_error_map.
    unfold ffill; now rewrite (ffill_from_keeps col None i v H).
  - intros Hp x Hin; apply in_map_iff in Hin as [y [<- _]].
    pose proof (present_ffill_from col None Hp) as Hq.
    unfold column_mean, ffill.
    destruct (present (ffill_from None col)); [contradiction|].
    destruct y; discriminate.
Qed.

(** A column without a single value is left as it is: its mean is NaN. *)
Lemma clean_numeric_all_missing (col : column Q) :
  present col = [] -> clean_numeric col = col.
Proof.
  intro H.
  assert (Hf : forall l : column Q, present l = [] -> ffill_from None l = l).
  { induction l as [|x l IH]; [reflexivity|].
    destruct x; cbn; [discriminate | intro Hl; now rewrite IH]. }
  unfold clean_numeric, ffill, column_mean; rewrite (Hf col H), H.
  unfold fill_with; induction col as [|x col IH]; [reflexivity|].
  destruct x; [discriminate|]; cbn in *; now rewrite IH.
Qed.

Lemma fill_with_full {A : Type} (value : option A) (col : column A) :
  (forall x, In x col -> x <> None) -> fill_with value col = col.
Proof.
  unfold fill_with; induction col as [|x col IH]; intro H; [reflexivity|].
  cbn [map]; rewrite IH by (intros; apply H; now right).
  destruct x; [reflexivity | exfalso; apply (H None); [now left | reflexivity]].
Qed.

Lemma ffill_from_full {A : Type} (col : column A) : forall last,
  (forall x, In x col -> x <> None) -> ffill_from last col = col.
Proof.
  induction col as [|x col IH]; intros last H; [reflexivity|].
  destruct x; [|exfalso; apply (H None); [now left | reflexivity]].
  cbn; now rewrite IH by (intros; apply H; now right).
Qed.

(** Cleaning a cleaned numeric column changes nothing. *)
Lemma clean_numeric_twice (col : column Q) :
  clean_numeric (clean_numeric col) = clean_numeric col.
Proof.
  destruct (present col) eqn:Hp.
  - now rewrite !(clean_numeric_all_missing col Hp).
  - assert (Hfull : forall x, In x (clean_numeric col) -> x <> None)
      by (apply clean_numeric_spec; rewrite Hp; discriminate).
    unfold clean_numeric at 1, ffill.
    now rewrite (ffill_from_full _ None Hfull), (fill_with_full _ _ Hfull).
Qed.


Lemma ffill_from_twice {A : Type} (col : column A) : forall last,
  ffill_from last (ffill_from last col) = ffill_from last col.
Proof.
  induction col as [|x col IH]; intro last; [reflexivity|].
  destruct x as [v|]; cbn; [now rewrite IH|].
  destruct last as [v|]; cbn; now rewrite IH.
Qed.

Lemma table_empty_clean_data (t : Table) : table_empty (clean_data t) = table_empty t.
Proof.
  unfold clean_data; destruct (table_empty t) eqn:E; [exact E|].
  destruct t as [[|[n [|x c]] nums] [|[m [|y o]] others]]; cbn in *;
    try discriminate; try reflexivity;
    try (destruct x); try (destruct y); reflexivity.
Qed.

(** Cleaning a cleaned stock frame changes nothing. *)
Theorem clean_data_idempotent (t : Table) : clean_data (clean_data t) = clean_data t.
Proof.
  unfold clean_data at 1; rewrite table_empty_clean_data.
  destruct (table_empty t) eqn:E; [reflexivity|].
  unfold clean_data; rewrite E; cbn [numeric_columns other_columns].
  rewrite !map_map; f_equal; apply map_ext; intros [n c]; cbn [fst snd]; f_equal.
  - apply clean_numeric_twice.
  - apply ffill_from_twice.
Qed.

(** ** integrate_data *)

Lemma join_strings_cases (sep : string) (values : list (option string)) :
  (exists s, join_strings sep values = Ok s /\ forall v, In v values -> v <> None) \/
  (join_strings sep values = Raise (OtherError "TypeError") /\ In None values).
Proof.
  unfold join_strings; destruct (forallb is_some values) eqn:E.
  - left; eexists; split; [reflexivity|].
    rewrite forallb_forall in E; intros v Hv ->; specialize (E _ Hv); discriminate.
  - right; split; [reflexivity|].
    induction values as [|[x|] values IH]; cbn in E; [discriminate | | now left].
    right; now apply IH.
Qed.

(** The day's row exists unless a field of one of the day's news is
    missing, and then the aggregation raises TypeError. *)
Lemma grouped_row_cases (news : list NewsItem) (d : Z) :
  (exists title description content url,
     grouped_row news d
     = Ok [ ("date", Day d); ("title", Str title); ("description", Str description);
            ("content", Str content); ("url", Str url) ] /\
     forall r, In r (dated d news) ->
       i_title r <> None /\ i_description r <> None /\ i_content r <> None /\ i_url r <> None)
  \/
  (grouped_row news d = Raise (OtherError "TypeError") /\
   exists r, In r (dated d news) /\
     (i_title r = None \/ i_description r = None \/ i_content r = None \/ i_url r = None)).
Proof.
  assert (Hmiss : forall (f : NewsItem -> option string) l,
             In None (map f l) -> exists r, In r l /\ f r = None).
  { intros f l H; apply in_map_iff in H as [r [Hf Hr]]; eauto. }
  assert (Hfull : forall (f : NewsItem -> option string) l,
             (forall v, In v (map f l) -> v <> None) -> forall r, In r l -> f r <> None).
  { intros f l H r Hr; apply H, in_map; assumption. }
  unfold grouped_row.
  destruct (join_strings_cases " | " (map i_title (dated d news))) as [[t [-> Ht]] | [-> Ht]];
    [|right; split; [reflexivity|]; destruct (Hmiss _ _ Ht) as [r [? ?]]; eauto 6].
  destruct (join_strings_cases " | " (map i_description (dated d news)))
    as [[ds [-> Hd]] | [-> Hd]];
    [|right; split; [reflexivity|]; destruct (Hmiss _ _ Hd) as [r [? ?]]; eauto 6].
  destruct (join_strings_cases " | " (map i_content (dated d news))) as [[c [-> Hc]] | [-> Hc]];
    [|right; split; [reflexivity|]; destruct (Hmiss _ _ Hc) as [r [? ?]]; eauto 7].
  destruct (join_strings_cases " | " (map i_url (dated d news))) as [[u [-> Hu]] | [-> Hu]];
    [|right; split; [reflexivity|]; destruct (Hmiss _ _ Hu) as [r [? ?]]; eauto 8].
  left; exists t, ds, c, u; split; [reflexivity|].
  intros r Hr; repeat split; eapply Hfull; eauto.
Qed.

Lemma grouped_cells_keyed (news : list NewsItem) (d : Z) :
  lookup "date" (grouped_cells news d) = Some (Day d).
Proof.
  unfold grouped_cells.
  destruct (grouped_row_cases news d) as [(t & ds & c & u & -> & _) | [-> _]]; reflexivity.
Qed.

Lemma collect_cases {A B : Type} (f : A -> result B) (g : A -> B) (l : list A) :
  (forall x y, f x = Ok y -> g x = y) ->
  (collect f l = Ok (map g l) /\ forall x, In x l -> exists y, f x = Ok y) \/
  (exists x e, In x l /\ f x = Raise e /\ collect f l = Raise e).
Proof.
  intro Hg; induction l as [|x l IH]; [left; split; [reflexivity | contradiction]|].
  cbn [collect]; destruct (f x) as [y|e] eqn:Hx; [|right; exists x, e; cbn; auto].
  cbn [bind]; destruct IH as [[-> Hall] | (x' & e & Hin & Hf & ->)].
  - left; cbn; rewrite (Hg _ _ Hx); split; [reflexivity|].
    intros z [<- | Hz]; eauto.
  - right; exists x', e; cbn; auto.
Qed.

Lemma In_present {A : Type} (col : list (option A)) (x : A) :
  In x (present col) <-> In (Some x) col.
Proof.
  induction col as [|[y|] col IH]; cbn; [tauto | | ].
  - rewrite IH; split; intros [H | H]; auto; left; congruence.
  - rewrite IH; split; [auto | intros [H | H]; [discriminate | assumption]].
Qed.

Lemma In_dated (news : list NewsItem) (d : Z) (r : NewsItem) :
  In r (dated d news) <-> In r news /\ i_date r = Some d.
Proof.
  unfold dated; rewrite filter_In; split; intros [Hin H]; split; auto.
  - destruct (i_date r); [|discriminate]; apply Z.eqb_eq in H; now subst.
  - rewrite H; apply Z.eqb_refl.
Qed.

(** The grouped news frame: one row per news day, or TypeError when a
    dated news row lacks a field. *)
Lemma news_grouped_cases (news : list NewsItem) :
  (news_grouped news
   = Ok (mkFrame ["date"; "title"; "description"; "content"; "url"]
                 (map (grouped_cells news) (group_keys (present (map i_date news))))) /\
   forall r d, In r news -> i_date r = Some d ->
     i_title r <> None /\ i_description r <> None /\ i_content r <> None /\ i_url r <> None)
  \/
  (news_grouped news = Raise (OtherError "TypeError") /\
   exists r d, In r news /\ i_date r = Some d /\
     (i_title r = None \/ i_description r = None \/ i_content r = None \/ i_url r = None)).
Proof.
  unfold news_grouped.
  destruct (collect_cases (grouped_row news) (grouped_cells news)
              (group_keys (present (map i_date news))))
    as [[-> Hall] | (d & e & Hin & Hf & ->)].
  - intros x y H; unfold grouped_cells; now rewrite H.
  - left; split; [reflexivity|].
    intros r d Hr Hd.
    assert (Hk : In d (group_keys (present (map i_date news)))).
    { apply group_keys_In, In_present; rewrite <- Hd; now apply in_map. }
    destruct (Hall d Hk) as [y Hy].
    destruct (grouped_row_cases news d) as [(t & ds & c & u & _ & Hfull) | [Hraise _]];
      [|congruence].
    apply Hfull, In_dated; auto.
  - right.
    destruct (grouped_row_cases news d) as [(t & ds & c & u & Hok & _) | [Hraise Hmiss]];
      [congruence|].
    rewrite Hraise in Hf; injection Hf as <-; split; [reflexivity|].
    destruct Hmiss as [r [Hr Hm]]; apply In_dated in Hr as [Hr Hd]; eauto.
Qed.

(** The rows of the integrated frame before the empty strings are put in. *)
Lemma integrate_data_rows (stock_df : list StockRow) (news_df : list NewsItem) :
  rows (merge_left "date"
          (mkFrame (stock_columns ++ ["date"]) (map with_date stock_df))
          (mkFrame ["date"; "title"; "description"; "content"; "url"]
             (map (grouped_cells news_df) (group_keys (present (map i_date news_df))))))
  = map (fun s => with_date s ++
           if existsb (Z.eqb (s_Date s)) (group_keys (present (map i_date news_df)))
           then drop_column "date" (grouped_cells news_df (s_Date s))
           else map (fun c => (c, NaN)) text_cols)
        stock_df.
Proof.
  rewrite (merge_stock_rows _ _ _ (grouped_cells news_df)
             (group_keys (present (map i_date news_df)))); [reflexivity | | | reflexivity].
  - apply group_keys_NoDup.
  - apply grouped_cells_keyed.
Qed.

Lemma integrate_data_nonempty (stock_df : list StockRow) (news_df : list NewsItem) :
  stock_df <> [] -> news_df <> [] ->
  integrate_data stock_df news_df
  = bind (news_grouped news_df) (fun grouped =>
      let combined_df :=
        merge_left "date" (mkFrame (stock_columns ++ ["date"]) (map with_date stock_df))
                   grouped in
      Ok (fillna (fun col => str_in col text_cols && str_in col (columns combined_df))
                 (Str "") combined_df)).
Proof.
  destruct stock_df; [contradiction|]; destruct news_df; [contradiction|]; reflexivity.
Qed.

(** The rows [integrate_data] returns when both frames have rows and the
    aggregation does not raise. *)
Lemma integrate_data_returns (stock_df : list StockRow) (news_df : list NewsItem)
    (combined_df : DataFrame) :
  stock_df <> [] -> news_df <> [] ->
  integrate_data stock_df news_df = Ok combined_df ->
  exists pick,
    rows combined_df
    = map (fun s => fillna_row pick (Str "")
             (with_date s ++
                if existsb (Z.eqb (s_Date s)) (group_keys (present (map i_date news_df)))
                then drop_column "date" (grouped_cells news_df (s_Date s))
                else map (fun c => (c, NaN)) text_cols))
          stock_df /\
    forall col, In col text_cols -> pick col = true.
Proof.
  intros Hs Hn; rewrite (integrate_data_nonempty _ _ Hs Hn).
  destruct (news_grouped_cases news_df) as [[-> _] | [-> _]]; [|discriminate].
  unfold bind; intros [= <-].
  set (combined := merge_left "date" _ _).
  exists (fun col => str_in col text_cols && str_in col (columns combined)); split.
  - unfold fillna, rows at 1; subst combined.
    rewrite integrate_data_rows, map_map; reflexivity.
  - intros col Hcol; cbv beta.
    assert (Hin : In col (columns combined))
      by (subst combined; unfold merge_left, columns; apply in_or_app; right; exact Hcol).
    apply str_in_In in Hcol; apply str_in_In in Hin; now rewrite Hcol, Hin.
Qed.

(** Whenever [integrate_data] returns, its frame has exactly one row for
    each stock row, in order, and the stock fields in it are unchanged. *)
Theorem integrate_data_keeps_stock_rows
    (stock_df : list StockRow) (news_df : list NewsItem) (combined_df : DataFrame) :
  integrate_data stock_df news_df = Ok combined_df ->
  map stock_fields (rows combined_df) = map Some stock_df.
Proof.
  assert (Hplain : map stock_fields (rows (stock_frame stock_df)) = map Some stock_df).
  { unfold stock_frame, rows; rewrite map_map.
    apply map_ext; intro s; apply stock_fields_stock_cells. }
  destruct stock_df as [|s0 stock].
  { change (integrate_data [] news_df) with (Ok (stock_frame [])).
    intros [= <-]; exact Hplain. }
  destruct news_df as [|n0 news].
  { change (integrate_data (s0 :: stock) []) with (Ok (stock_frame (s0 :: stock))).
    intros [= <-]; exact Hplain. }
  intro H.
  destruct (integrate_data_returns (s0 :: stock) (n0 :: news) combined_df)
    as [pick [-> _]]; try assumption; try discriminate.
  rewrite map_map; apply map_ext; intro s.
  apply stock_fields_fillna_row, stock_fields_with_date.
Qed.

(** In the integrated frame a stock row whose day has no news carries the
    empty string in title, description, content and url. *)
Theorem integrate_data_without_news
    (stock_df : list StockRow) (news_df : list NewsItem) (combined_df : DataFrame)
    (r : row) (d : Z) (col : string) :
  integrate_data stock_df news_df = Ok combined_df ->
  news_df <> [] ->
  In r (rows combined_df) ->
  lookup "Date" r = Some (Day d) ->
  ~ In (Some d) (map i_date news_df) ->
  In col text_cols ->
  lookup col r = Some (Str "").
Proof.
  intros H Hn.
  destruct stock_df as [|s0 stock].
  { change (integrate_data [] news_df) with (Ok (stock_frame [])) in H.
    injection H as <-; intros []. }
  destruct (integrate_data_returns (s0 :: stock) news_df combined_df) as [pick [-> Hpick]];
    try assumption; try discriminate.
  intro Hin; apply in_map_iff in Hin as [s [<- _]].
  rewrite !lookup_fillna_row, !lookup_app.
  replace (lookup "Date" (with_date s)) with (Some (Day (s_Date s)))
    by (destruct s; reflexivity).
  cbn [is_nan]; rewrite andb_false_r; intros [= <-] Hnews Hcol.
  rewrite (Hpick _ Hcol).
  destruct (existsb (Z.eqb (s_Date s)) (group_keys (present (map i_date news_df)))) eqn:E.
  - apply existsb_eqb_In in E; apply (proj1 (group_keys_In _ _)) in E.
    apply In_present in E; contradiction.
  - cbn in Hcol; destruct s;
      repeat (destruct Hcol as [<- | Hcol]; [reflexivity|]); contradiction.
Qed.

(** Given stock rows and news rows, [integrate_data] raises, with
    TypeError, exactly when a dated news row lacks its title, description,
    content or url. *)
Theorem integrate_data_raises
    (stock_df : list StockRow) (news_df : list NewsItem) :
  stock_df <> [] -> news_df <> [] ->
  (integrate_data stock_df news_df = Raise (OtherError "TypeError") <->
   exists r d, In r news_df /\ i_date r = Some d /\
     (i_title r = None \/ i_description r = None \/ i_content r = None \/ i_url r = None))
  /\ (forall e, integrate_data stock_df news_df = Raise e -> e = OtherError "TypeError").
Proof.
  intros Hs Hn; rewrite (integrate_data_nonempty _ _ Hs Hn).
  destruct (news_grouped_cases news_df) as [[-> Hfull] | [-> Hmiss]]; unfold bind.
  - split; [split; [discriminate|] | discriminate].
    intros (r & d & Hr & Hd & Hm); destruct (Hfull r d Hr Hd) as (? & ? & ? & ?).
    tauto.
  - split; [tauto | now intros e [= <-]].
Qed.


Lemma join_strings_full (sep : string) (values : list (option string)) :
  (forall v, In v values -> v <> None) ->
  join_strings sep values = Ok (String.concat sep (present values)).
Proof.
  intro H; unfold join_strings.
  replace (forallb is_some values) with true; [reflexivity|].
  symmetry; apply forallb_forall; intros [v|] Hv; [reflexivity|].
  now destruct (H None Hv).
Qed.

Lemma integrate_data_full (stock_df : list StockRow) (news_df : list NewsItem)
    (combined_df : DataFrame) :
  stock_df <> [] -> news_df <> [] ->
  integrate_data stock_df news_df = Ok combined_df ->
  forall r d, In r news_df -> i_date r = Some d ->
    i_title r <> None /\ i_description r <> None /\ i_content r <> None /\ i_url r <> None.
Proof.
  intros Hs Hn; rewrite (integrate_data_nonempty _ _ Hs Hn).
  destruct (news_grouped_cases news_df) as [[_ Hfull] | [-> _]]; [|discriminate].
  intros _; exact Hfull.
Qed.

(** In the integrated frame a stock row whose day has news carries, in
    title, description, content and url, the day's values in the order of
    the news frame, joined with ' | '. *)
Theorem integrate_data_joins_news
    (stock_df : list StockRow) (news_df : list NewsItem) (combined_df : DataFrame)
    (r : row) (d : Z) :
  integrate_data stock_df news_df = Ok combined_df ->
  In r (rows combined_df) ->
  lookup "Date" r = Some (Day d) ->
  In (Some d) (map i_date news_df) ->
  lookup "title" r
  = Some (Str (String.concat " | " (present (map i_title (dated d news_df))))) /\
  lookup "description" r
  = Some (Str (String.concat " | " (present (map i_description (dated d news_df))))) /\
  lookup "content" r
  = Some (Str (String.concat " | " (present (map i_content (dated d news_df))))) /\
  lookup "url" r
  = Some (Str (String.concat " | " (present (map i_url (dated d news_df))))).
Proof.
  intros H Hin Hdate Hnews.
  assert (Hn : news_df <> []) by (intros ->; contradiction).
  destruct stock_df as [|s0 stock].
  { change (integrate_data [] news_df) with (Ok (stock_frame [])) in H.
    injection H as <-; destruct Hin. }
  assert (Hs : s0 :: stock <> []) by discriminate.
  pose proof (integrate_data_full _ _ _ Hs Hn H) as Hfull.
  destruct (integrate_data_returns _ _ _ Hs Hn H) as [pick [Hrows _]].
  rewrite Hrows in Hin; apply in_map_iff in Hin as [s [<- _]].
  revert Hdate; rewrite !lookup_fillna_row, !lookup_app.
  replace (lookup "Date" (with_date s)) with (Some (Day (s_Date s)))
    by (destruct s; reflexivity).
  cbn [is_nan]; rewrite andb_false_r; intros [= <-].
  replace (existsb (Z.eqb (s_Date s)) (group_keys (present (map i_date news_df))))
    with true
    by (symmetry; apply existsb_exists; exists (s_Date s); split;
        [now apply group_keys_In, In_present | apply Z.eqb_refl]).
  assert (Hday : forall (f : NewsItem -> option string) v,
             (forall x e, In x news_df -> i_date x = Some e -> f x <> None) ->
             In v (map f (dated (s_Date s) news_df)) -> v <> None).
  { intros f v Hf Hv; apply in_map_iff in Hv as [x [<- Hx]].
    apply In_dated in Hx as [Hx Hd]; eapply Hf; eauto. }
  unfold grouped_cells, grouped_row.
  rewrite (join_strings_full _ (map i_title _)),
          (join_strings_full _ (map i_description _)),
          (join_strings_full _ (map i_content _)),
          (join_strings_full _ (map i_url _));
    try (intro v; apply Hday; intros x e Hx He; now apply (Hfull x e Hx He)).
  destruct s; cbn; rewrite ?andb_false_r; auto.
Qed.


Lemma In_clean_text_data (df : list NewsItem) (r : NewsItem) :
  In r (clean_text_data df) <->
  exists r0, In r0 df /\ long_title r0 = true /\ r = fill_content (fill_description r0).
Proof.
  rewrite clean_text_data_closed, map_map, in_map_iff; split.
  - intros [r0 [<- Hin]]; apply filter_In in Hin as [Hin Hl].
    apply filter_In in Hin as [Hin _]; eauto.
  - intros (r0 & Hin & Hl & ->); exists r0; split; [reflexivity|].
    apply filter_In; split; [apply filter_In; split; [exact Hin|] | exact Hl].
    unfold long_title in Hl; now destruct (i_title r0).
Qed.

(** [clean_data] on the news followed by [integrate_data], as [main]
    runs them: the text cleaning makes title, description and content
    joinable but leaves the url as it is, so that the integration returns
    exactly when every dated news row with a title of more than five
    characters has a url. *)
Theorem clean_then_integrate (stock_df : list StockRow) (news_df : list NewsItem) :
  stock_df <> [] -> clean_text_data news_df <> [] ->
  ((exists combined_df, integrate_data stock_df (clean_text_data news_df) = Ok combined_df)
   <-> forall r d, In r news_df -> long_title r = true -> i_date r = Some d ->
         i_url r <> None).
Proof.
  intros Hs Hn; rewrite (integrate_data_nonempty _ _ Hs Hn).
  destruct (news_grouped_cases (clean_text_data news_df)) as [[-> Hfull] | [-> Hmiss]];
    unfold bind; split.
  - intros _ r d Hr Hl Hd.
    specialize (Hfull (fill_content (fill_description r)) d).
    destruct r as [dt t ds c u]; cbn in Hd; subst dt.
    apply Hfull; [|reflexivity].
    apply In_clean_text_data; eauto.
  - eauto.
  - intros [? ?]; discriminate.
  - intro Hurl; exfalso.
    destruct Hmiss as (r & d & Hr & Hd & Hm).
    destruct (clean_text_data_rows _ _ Hr) as (t & ds & c & Ht & _ & Hds & Hc).
    apply In_clean_text_data in Hr as (r0 & Hr0 & Hl & ->).
    destruct r0 as [dt t0 ds0 c0 u]; cbn in Hd, Hm, Ht, Hds, Hc; subst dt.
    apply (Hurl _ d Hr0 Hl eq_refl); cbn.
    destruct Hm as [Hm | [Hm | [Hm | Hm]]]; congruence.
Qed.


(** *** The cleaning and the integration at the sample frames *)

(** The cleaned row of the first sample news row. *)
Lemma clean_text_data_complete_witness :
  exists r0 title,
    In r0 CleaningSamples.raw_news /\ i_title r0 = Some title /\
    (5 < Unicode.len title)%nat /\
    i_date CleaningSamples.rally = i_date r0 /\
    i_title CleaningSamples.rally = Some title /\
    i_url CleaningSamples.rally = i_url r0 /\
    i_description CleaningSamples.rally = or_else (i_description r0) (Some title) /\
    i_content CleaningSamples.rally
    = or_else (i_content r0) (or_else (i_description r0) (Some title)).
Proof.
  apply (clean_text_data_complete CleaningSamples.raw_news CleaningSamples.rally).
  left; reflexivity.
Defined.


(** The three sample stock rows, integrated with the cleaned sample news. *)
Lemma integrate_data_keeps_stock_rows_witness :
  map stock_fields (rows CleaningSamples.integrated) = map Some Samples.two_symbols.
Proof.
  apply (integrate_data_keeps_stock_rows Samples.two_symbols
           (clean_text_data CleaningSamples.raw_news)).
  reflexivity.
Defined.

(** The third integrated row, of day 2, a day without news. *)
Lemma integrate_data_without_news_witness :
  lookup "title" (nth 2 (rows CleaningSamples.integrated) []) = Some (Str "").
Proof.
  apply (integrate_data_without_news Samples.two_symbols
           (clean_text_data CleaningSamples.raw_news) CleaningSamples.integrated _ 2 "title").
  - reflexivity.
  - vm_compute; discriminate.
  - right; right; left; reflexivity.
  - reflexivity.
  - vm_compute; intros [H | []]; discriminate.
  - left; reflexivity.
Defined.

(** The first integrated row, of day 1, the day of the sample news. *)
Lemma integrate_data_joins_news_witness :
  lookup "title" (nth 0 (rows CleaningSamples.integrated) [])
  = Some (Str (String.concat " | "
       (present (map i_title (dated 1 (clean_text_data CleaningSamples.raw_news)))))) /\
  lookup "description" (nth 0 (rows CleaningSamples.integrated) [])
  = Some (Str (String.concat " | "
       (present (map i_description (dated 1 (clean_text_data CleaningSamples.raw_news)))))) /\
  lookup "content" (nth 0 (rows CleaningSamples.integrated) [])
  = Some (Str (String.concat " | "
       (present (map i_content (dated 1 (clean_text_data CleaningSamples.raw_news)))))) /\
  lookup "url" (nth 0 (rows CleaningSamples.integrated) [])
  = Some (Str (String.concat " | "
       (present (map i_url (dated 1 (clean_text_data CleaningSamples.raw_news)))))).
Proof.
  apply (integrate_data_joins_news Samples.two_symbols
           (clean_text_data CleaningSamples.raw_news) CleaningSamples.integrated).
  - reflexivity.
  - left; reflexivity.
  - reflexivity.
  - left; reflexivity.
Defined.

(** A dated news row without a url. *)
Lemma integrate_data_raises_witness :
  (integrate_data Samples.two_symbols CleaningSamples.no_url = Raise (OtherError "TypeError")
   <-> exists r d, In r CleaningSamples.no_url /\ i_date r = Some d /\
         (i_title r = None \/ i_description r = None \/ i_content r = None \/
          i_url r = None))
  /\ (forall e, integrate_data Samples.two_symbols CleaningSamples.no_url = Raise e ->
                e = OtherError "TypeError").
Proof.
  apply (integrate_data_raises Samples.two_symbols CleaningSamples.no_url); discriminate.
Defined.

(** The sample news, cleaned and integrated. *)
Lemma clean_then_integrate_witness :
  (exists combined_df,
     integrate_data Samples.two_symbols (clean_text_data CleaningSamples.raw_news)
     = Ok combined_df)
  <-> forall r d, In r CleaningSamples.raw_news -> long_title r = true ->
        i_date r = Some d -> i_url r <> None.
Proof.
  apply (clean_then_integrate Samples.two_symbols CleaningSamples.raw_news).
  - discriminate.
  - vm_compute; discriminate.
Defined.


(** ** The sentiment columns of the news frames *)

Import Synthetic.

Lemma take_word_append (w rest : string) :
  take_word (String.append w (String " " rest)) = take_word w.
Proof.
  induction w as [|c w IH]; [reflexivity|].
  cbn [String.append take_word]; destruct (Symbols.is_space c); [reflexivity|].
  now rewrite IH.
Qed.

(** The first word of a template that starts with the company name is the
    first word of the name. *)
Lemma first_word_append (company p rest : string) :
  first_word company = Ok p ->
  first_word (String.append company (String " " rest)) = Ok p.
Proof.
  unfold first_word; induction company as [|c company IH]; [discriminate|].
  cbn [Symbols.lstrip String.append].
  destruct (Symbols.is_space c) eqn:Ec; [exact IH|].
  intros [= <-]; f_equal.
  exact (take_word_append (String c company) rest).
Qed.

Lemma collect_constant {A B : Type} (f : A -> result B) (g : A -> B) (l : list A) :
  (forall x, In x l -> f x = Ok (g x)) -> collect f l = Ok (map g l).
Proof.
  induction l as [|x l IH]; intro H; [reflexivity|].
  cbn [collect]; rewrite (H x (or_introl eq_refl)); cbn [bind].
  rewrite IH by (intros; apply H; now right); reflexivity.
Qed.

Lemma assign_masked_map {A : Type} (m : A -> bool) (old : A -> option Q) (value : Q)
    (l : list A) :
  assign_masked (map m l) value (map old l)
  = map (fun t => if m t then Some value else old t) l.
Proof.
  induction l as [|t l IH]; [reflexivity|]; cbn; now rewrite IH.
Qed.

(** The loop over the templates keeps, for every title, the value of the
    last template whose first word the title contains.  Seven of the eight
    templates start with the company name, so when the titles contain the
    first word of the name, every title ends with 0.0, the value of the
    seventh template, unless it contains the word Analyst, and then with
    -0.5: no title is given a positive score. *)
Theorem template_sentiment_last_match
    (contains : string -> string -> result bool) (company_name p : string)
    (titles : list string) (analyst : string -> bool) :
  first_word company_name = Ok p ->
  (forall t, In t titles -> contains p t = Ok true) ->
  (forall t, In t titles -> contains "Analyst" t = Ok (analyst t)) ->
  template_sentiment contains company_name titles
  = Ok (map (fun t => Some (if analyst t then (- (1 # 2))%Q else 0%Q)) titles).
Proof.
  intros Hp Hall Han.
  unfold template_sentiment, news_templates.
  cbn [assign_templates].
  rewrite !(first_word_append company_name p _ Hp).
  replace (first_word _) with (Ok (A := string) "Analyst") by reflexivity.
  unfold bind.
  rewrite (collect_constant (contains p) (fun _ => true) titles Hall).
  rewrite (collect_constant (contains "Analyst") analyst titles Han).
  rewrite !assign_masked_map; f_equal.
  apply map_ext; intro t; now destruct (analyst t).
Qed.


Open Scope Q_scope.

Lemma Qle_bool_cases (a b : Q) :
  (Qle_bool a b = true /\ a <= b) \/ (Qle_bool a b = false /\ b < a).
Proof.
  destruct (Qle_bool a b) eqn:E; [left | right]; split; try reflexivity.
  - now apply Qle_bool_iff.
  - apply Qnot_le_lt; rewrite <- Qle_bool_iff; congruence.
Qed.

(** The file labels a compound score in two places: [get_sentiment_label]
    counts 0.05 as pozitif and -0.05 as negatif, the labelling of the
    template scores counts both as nötr.  They agree on every other
    score. *)
Theorem sentiment_labels_agree (x : Q) :
  template_label (Some x) = News.get_sentiment_label x
  <-> ~ x == 5 # 100 /\ ~ x == - (5 # 100).
Proof.
  unfold template_label, News.get_sentiment_label.
  destruct (Qle_bool_cases x (5 # 100)) as [[E1 H1] | [E1 H1]];
  destruct (Qle_bool_cases (- (5 # 100)) x) as [[E2 H2] | [E2 H2]];
  destruct (Qle_bool_cases (5 # 100) x) as [[E3 H3] | [E3 H3]];
  destruct (Qle_bool_cases x (- (5 # 100))) as [[E4 H4] | [E4 H4]];
  rewrite E1, E3, ?E2, ?E4; cbn [negb]; split; try discriminate; try reflexivity;
    try (intros _; split; intro He; rewrite He in *; lra);
    try (intros [Ha Hb]; exfalso; lra).
Qed.

(** The three template scores are never negative and sum to 1 whenever the
    compound score lies in [-1, 1]; the positive part minus the negative
    part is the compound score.  A title no template matched (NaN) gets
    0, 0 and 1, and the label nötr. *)
Theorem template_scores_split (x : option Q) :
  0 <= sentiment_pos x /\ 0 <= sentiment_neg x /\
  sentiment_pos x + sentiment_neg x + sentiment_neu x == 1 /\
  match x with
  | Some q =>
    sentiment_pos x - sentiment_neg x == q /\
    (sentiment_pos x == 0 \/ sentiment_neg x == 0) /\
    (-1 <= q <= 1 -> 0 <= sentiment_neu x)
  | None =>
    sentiment_pos x == 0 /\ sentiment_neg x == 0 /\ sentiment_neu x == 1 /\
    template_label x = "nötr"%string
  end.
Proof.
  unfold sentiment_neu; destruct x as [q|]; cbn [sentiment_pos sentiment_neg template_label].
  - destruct (Q.max_spec 0 q) as [[Hlt ->] | [Hle ->]];
    destruct (Q.max_spec 0 (- q)) as [[Hlt' ->] | [Hle' ->]];
      repeat split; try lra; try (left; lra); try (right; lra); intros [? ?]; lra.
  - repeat split; lra.
Qed.

Close Scope Q_scope.


(** ** The two uses of the name [time] *)

Section TimeBinding.

Variable random_hour : nat -> Z.
Variable random_minute : nat -> Z.

Lemma assign_times_in_as_written (news : list NewsRow) : forall k,
  (forall j, 0 <= random_hour j < 24 /\ 0 <= random_minute j < 60) ->
  Stamping.assign_times_in random_hour random_minute news_module_globals k news
  = Ok (assign_times random_hour random_minute k news).
Proof.
  induction news as [|n news IH]; intros k Hr; [reflexivity|].
  cbn [Stamping.assign_times_in assign_times].
  unfold Stamping.combine_time; cbn [lookup_name news_module_globals].
  replace (lookup_name news_module_globals "time") with (Some DatetimeTimeClass)
    by reflexivity.
  destruct (Hr k) as [[H1 H2] [H3 H4]].
  apply Z.leb_le in H1, H3; apply Z.ltb_lt in H2, H4; rewrite H1, H2, H3, H4.
  cbn [andb bind]; rewrite (IH (S k) Hr); reflexivity.
Qed.

(** [merge_stock_and_news_data] stamps a news frame that has no
    publishedAt column with [datetime.combine(date, time(hour, minute))].
    In the module as written, where [time] is the class [datetime.time],
    the stamping returns; in any namespace in which [time.sleep] works it
    raises TypeError on the first news row.  No binding of [time] serves
    both [time.sleep] and line 916. *)
Theorem time_binding_conflict (ns : namespace) (news_data : NewsFrame) (delay : Q) :
  (forall j, 0 <= random_hour j < 24 /\ 0 <= random_minute j < 60) ->
  frame_empty news_data = false ->
  has_column news_data "publishedAt" = false ->
  has_column news_data "date" = true ->
  Stamping.news_with_time_in random_hour random_minute news_module_globals news_data
  = news_with_time random_hour random_minute news_data
  /\ (call_time_sleep ns delay = Ok tt ->
      Stamping.news_with_time_in random_hour random_minute ns news_data
      = Raise (OtherError "TypeError")).
Proof.
  intros Hr Hne Hp Hd; unfold Stamping.news_with_time_in, news_with_time.
  rewrite Hp, Hd; split; [now apply assign_times_in_as_written|].
  unfold call_time_sleep; intro Hs.
  unfold frame_empty in Hne.
  destruct (news_columns news_data); [discriminate|].
  destruct (news_rows news_data) as [|n rest]; [discriminate|].
  cbn [Stamping.assign_times_in]; unfold Stamping.combine_time.
  destruct (lookup_name ns "time") as [[| | |]|]; try discriminate; reflexivity.
Qed.

End TimeBinding.


(** ** More on merge_stock_and_news_data *)

Lemma columns_fill_missing (merged : DataFrame) :
  columns (fill_missing merged) = columns merged.
Proof.
  unfold fill_missing; cbn [columns fillna].
  now destruct (str_in "daily_news_titles" (columns merged)).
Qed.

Lemma fillna_row_with_date (pick : string -> bool) (value : cell) (s : StockRow) :
  fillna_row pick value (with_date s) = with_date s.
Proof.
  destruct s; unfold fillna_row, with_date, stock_cells; cbn.
  now rewrite !andb_false_r.
Qed.

Lemma append_inj (p a b : string) : String.append p a = String.append p b -> a = b.
Proof.
  induction p as [|c p IH]; cbn; [trivial|].
  intros [= H]; now apply IH.
Qed.

Lemma filter_sentiment_names (ws : list string) :
  filter (fun c => negb (String.eqb c "date")) (map (String.append "sentiment_compound_") ws)
  = map (String.append "sentiment_compound_") ws.
Proof.
  induction ws as [|w ws IH]; [reflexivity|]; cbn [map filter].
  replace (negb (String.eqb (String.append "sentiment_compound_" w) "date")) with true
    by reflexivity.
  now rewrite IH.
Qed.

Lemma filter_title_names (ws : list string) :
  filter (fun c => negb (String.eqb c "date")) (map (String.append "title_") ws)
  = map (String.append "title_") ws.
Proof.
  induction ws as [|w ws IH]; [reflexivity|]; cbn [map filter].
  replace (negb (String.eqb (String.append "title_" w) "date")) with true by reflexivity.
  now rewrite IH.
Qed.

(** A slice [s[:n]] has at most n characters. *)
Lemma len_take (s : string) : forall n, (Unicode.len (Unicode.take n s) <= n)%nat.
Proof.
  induction s as [|c s IH]; intro n; cbn [Unicode.take Unicode.len]; [lia|].
  destruct (Unicode.continuation c) eqn:Hc.
  - cbn [Unicode.len]; rewrite Hc; apply IH.
  - destruct n as [|n]; cbn [Unicode.len]; [lia|].
    rewrite Hc; specialize (IH n); lia.
Qed.

Section MergeMore.

Variable random_hour : nat -> Z.
Variable random_minute : nat -> Z.

Local Abbreviation timed := (news_with_time random_hour random_minute).
Local Abbreviation selected := (merge_selected random_hour random_minute).
Local Abbreviation merge := (merge_stock_and_news_data random_hour random_minute).

(** The columns the merge joins to the stock columns and date. *)
Lemma merge_selected_columns (sel : list StockRow) (news_data : NewsFrame)
    (merged : DataFrame) :
  selected sel news_data = Ok merged ->
  columns merged
  = (stock_columns ++ ["date"]) ++
    if frame_empty news_data then []
    else if has_column news_data "sentiment_compound" then
      ["daily_sentiment"; "daily_pos"; "daily_neg"; "daily_neu"; "daily_news_titles"] ++
      match timed news_data with
      | Ok news =>
        map (String.append "sentiment_compound_") (windows_present news) ++
        map (String.append "title_") (windows_present news)
      | Raise _ => []
      end
    else ["daily_news_titles"].
Proof.
  unfold merge_selected.
  destruct (frame_empty news_data); cbn [negb].
  { intros [= <-]; reflexivity. }
  destruct (timed news_data) as [news|e]; cbn [bind]; [|discriminate].
  destruct (has_column news_data "sentiment_compound").
  - destruct (_ && _); [|discriminate].
    intros [= <-]; unfold merge_left at 1; cbn [columns]; f_equal.
    unfold merge_left, fill_pivot, fillna, time_pivot, daily_sentiment; cbn [columns].
    cbn [filter String.eqb Ascii.eqb Bool.eqb negb app].
    do 5 f_equal.
    rewrite (filter_app _ (map (String.append "sentiment_compound_") (windows_present news))),
      filter_sentiment_names, filter_title_names.
    now rewrite (filter_app _ (map (String.append "sentiment_compound_") (windows_present news))),
      filter_sentiment_names, filter_title_names.
  - destruct (has_column news_data "title"); [|discriminate].
    intros [= <-]; reflexivity.
Qed.

(** With the columns the merge reads, the result keeps the selection. *)
Lemma merge_rows_sufficient
    (stock_data : list StockRow) (news_data : NewsFrame) (stock_symbol : string) :
  news_columns_suffice news_data = true ->
  map stock_fields (rows (merge stock_data news_data stock_symbol))
  = map Some (stock_selection stock_data stock_symbol).
Proof.
  intro Hcols; unfold merge_stock_and_news_data.
  destruct stock_data as [|s0 rest]; [reflexivity|].
  destruct (merge_selected_shape random_hour random_minute
              (stock_selection (s0 :: rest) stock_symbol) news_data Hcols)
    as (merged & rc & J & Hm & _ & Hrows & _).
  rewrite Hm; apply stock_fields_fill_missing.
  rewrite Hrows, map_map; apply map_ext; intro s; apply stock_fields_with_date.
Qed.

(** With an empty news frame the result is the stock selection with one
    added column, date: no sentiment column and no title column is made,
    and nothing is filled in. *)
Theorem merge_without_news
    (stock_data : list StockRow) (news_data : NewsFrame) (stock_symbol : string) :
  stock_data <> [] ->
  frame_empty news_data = true ->
  merge stock_data news_data stock_symbol
  = mkFrame (stock_columns ++ ["date"])
            (map with_date (stock_selection stock_data stock_symbol)).
Proof.
  intros Hs He; unfold merge_stock_and_news_data, merge_selected.
  destruct stock_data as [|s0 rest]; [contradiction|].
  rewrite He; cbn [negb].
  unfold fill_missing, fillna; cbn [columns rows].
  replace (str_in "daily_news_titles" (stock_columns ++ ["date"])) with false
    by reflexivity.
  f_equal; rewrite map_map.
  apply map_ext; intro s; apply fillna_row_with_date.
Qed.

End MergeMore.


Lemma get_time_of_day_business (hour : Z) :
  9 <= hour < 17 -> get_time_of_day hour <> "diğer".
Proof.
  intros [H1 H2]; unfold get_time_of_day.
  destruct (Z.leb_spec 9 hour), (Z.ltb_spec hour 12), (Z.leb_spec 12 hour),
    (Z.ltb_spec hour 14), (Z.leb_spec 14 hour), (Z.ltb_spec hour 17);
    cbn [andb]; try discriminate; lia.
Qed.

Lemma not_in_names (x : string) (l : list string) : str_in x l = false -> ~ In x l.
Proof. intros H Hin; apply str_in_In in Hin; congruence. Qed.

Section MergeOrigins.

Variable random_hour : nat -> Z.
Variable random_minute : nat -> Z.

Local Abbreviation timed := (news_with_time random_hour random_minute).
Local Abbreviation selected := (merge_selected random_hour random_minute).
Local Abbreviation merge := (merge_stock_and_news_data random_hour random_minute).

Lemma assign_times_hours (news : list NewsRow) : forall k n,
  In n (assign_times random_hour random_minute k news) ->
  exists j, dt_hour (n_publishedAt n) = random_hour j.
Proof.
  induction news as [|m news IH]; intros k n; cbn; [contradiction|].
  intros [<- | Hin]; [exists k; reflexivity | eapply IH; eassumption].
Qed.

(** When the news frame has no publishedAt column the merge draws each
    row's hour from range(9, 17), and those hours all fall in sabah, öğle
    or akşam: whatever is drawn, the merged frame has no column for the
    window diğer. *)
Theorem drawn_hours_have_no_other_window
    (stock_data : list StockRow) (news_data : NewsFrame) (stock_symbol : string) :
  (forall k, 9 <= random_hour k < 17) ->
  has_column news_data "publishedAt" = false ->
  ~ In "sentiment_compound_diğer" (columns (merge stock_data news_data stock_symbol)) /\
  ~ In "title_diğer" (columns (merge stock_data news_data stock_symbol)).
Proof.
  intros Hr Hp.
  assert (Hws : forall news, timed news_data = Ok news -> ~ In "diğer" (windows_present news)).
  { unfold news_with_time; rewrite Hp.
    destruct (has_column news_data "date"); [|discriminate].
    intros news [= <-] Hin.
    apply filter_In in Hin as [_ Hin]; apply existsb_exists in Hin as [n [Hn He]].
    apply String.eqb_eq in He.
    destruct (assign_times_hours _ _ _ Hn) as [j Hj].
    unfold time_of_day in He; rewrite Hj in He.
    exact (get_time_of_day_business _ (Hr j) He). }
  unfold merge_stock_and_news_data.
  destruct stock_data as [|s0 rest]; [split; intros []|].
  destruct (selected (stock_selection (s0 :: rest) stock_symbol) news_data)
    as [merged|e] eqn:Hsel.
  2: { split; apply not_in_names; reflexivity. }
  rewrite columns_fill_missing, (merge_selected_columns _ _ _ _ _ Hsel).
  assert (Hstock : forall x, str_in x (stock_columns ++ ["date"]) = false ->
            str_in x ["daily_sentiment"; "daily_pos"; "daily_neg"; "daily_neu";
                      "daily_news_titles"] = false ->
            (forall news, timed news_data = Ok news ->
               ~ In x (map (String.append "sentiment_compound_") (windows_present news)) /\
               ~ In x (map (String.append "title_") (windows_present news))) ->
            ~ In x ((stock_columns ++ ["date"]) ++
                    if frame_empty news_data then []
                    else if has_column news_data "sentiment_compound" then
                      ["daily_sentiment"; "daily_pos"; "daily_neg"; "daily_neu";
                       "daily_news_titles"] ++
                      match timed news_data with
                      | Ok news =>
                        map (String.append "sentiment_compound_") (windows_present news) ++
                        map (String.append "title_") (windows_present news)
                      | Raise _ => []
                      end
                    else ["daily_news_titles"])).
  { intros x H1 H2 H3 Hin.
    apply in_app_or in Hin as [Hin | Hin]; [exact (not_in_names _ _ H1 Hin)|].
    destruct (frame_empty news_data); [destruct Hin|].
    destruct (has_column news_data "sentiment_compound").
    - apply in_app_or in Hin as [Hin | Hin]; [exact (not_in_names _ _ H2 Hin)|].
      destruct (timed news_data) as [news|e]; [|destruct Hin].
      destruct (H3 news eq_refl) as [Ha Hb].
      apply in_app_or in Hin as [Hin | Hin]; [exact (Ha Hin) | exact (Hb Hin)].
    - destruct Hin as [<- | []]; discriminate H2. }
  split; apply Hstock; try reflexivity; intros news Hnews; split; intro Hin;
    apply in_map_iff in Hin as [w [Hw Hin]].
  - apply (append_inj "sentiment_compound_" w "diğer") in Hw; subst w.
    exact (Hws news Hnews Hin).
  - discriminate Hw.
  - discriminate Hw.
  - apply (append_inj "title_" w "diğer") in Hw; subst w.
    exact (Hws news Hnews Hin).
Qed.

(** The rows of the articles are built exactly when every article has a
    timestamp. *)
Lemma map_article_rows (all_articles : list Article) :
  (forall a, In a all_articles -> a_publishedAt a <> None) ->
  exists fetched, Py.map_result article_row all_articles = Ok fetched /\
    List.length fetched = List.length all_articles.
Proof.
  induction all_articles as [|a rest IH]; intro Hall; [exists []; split; reflexivity|].
  destruct IH as (fetched & Hf & Hlen); [intros b Hb; apply Hall; now right|].
  cbn [Py.map_result]; unfold article_row at 1.
  destruct (a_publishedAt a) as [published|] eqn:Ha; [|elim (Hall a (or_introl eq_refl) Ha)].
  rewrite Hf; eexists; split; [reflexivity|]; cbn; now rewrite Hlen.
Qed.

(** One missing timestamp is enough for lines 497-572 to raise. *)
Lemma build_news_frame_missing_timestamp (polarity_scores : string -> Q * Q * Q * Q)
    (all_articles : list Article) (analyze_sentiment : bool) :
  (exists a, In a all_articles /\ a_publishedAt a = None) ->
  build_news_frame polarity_scores all_articles analyze_sentiment
  = Raise (OtherError "TypeError").
Proof.
  intros (a & Hin & Ha); unfold build_news_frame.
  replace (Py.map_result article_row all_articles)
    with (@Raise (list NewsRow) (OtherError "TypeError")); [reflexivity|].
  induction all_articles as [|b rest IH]; [destruct Hin|].
  cbn [Py.map_result]; unfold article_row at 1.
  destruct Hin as [-> | Hin]; [now rewrite Ha|].
  destruct (a_publishedAt b); [|reflexivity].
  now rewrite <- (IH Hin).
Qed.

(** [get_news_data] then returns the alternative source's frame. *)
Lemma get_news_data_body_missing_timestamp
    (ns : namespace) (now : datetime) (key : option string) (strptime : string -> result Z)
    (strftime : Z -> string) (get_everything : string -> string -> string -> result Response)
    (file_exists : string -> bool) (read_csv : string -> result NewsFrame)
    (polarity_scores : string -> Q * Q * Q * Q)
    (generate_synthetic : string -> string -> string -> bool -> result NewsFrame)
    (company start_date end_date : string) (analyze : bool)
    (end_dt : Z) (all_articles : list Article) :
  strptime end_date = Ok end_dt ->
  key_missing key = false ->
  fetch_articles ns strptime strftime get_everything company start_date
    (effective_end_date now strptime strftime end_date) = Some (Ok all_articles) ->
  (exists a, In a all_articles /\ a_publishedAt a = None) ->
  get_news_data_body ns now key strptime strftime get_everything file_exists read_csv
    polarity_scores generate_synthetic company start_date end_date analyze
  = Some (Ok (get_alternative_news_data file_exists read_csv generate_synthetic
                company start_date (effective_end_date now strptime strftime end_date)
                analyze)).
Proof.
  intros Hend Hkey Hfetch Hmiss; unfold get_news_data_body.
  rewrite Hend, Hkey, Hfetch.
  rewrite (build_news_frame_missing_timestamp polarity_scores all_articles analyze Hmiss).
  destruct all_articles; reflexivity.
Qed.

(** A frame built from NewsAPI articles always has the columns the merge
    reads. *)
Lemma build_news_frame_suffices (polarity_scores : string -> Q * Q * Q * Q)
    (all_articles : list Article) (analyze_sentiment : bool) (news_data : NewsFrame) :
  build_news_frame polarity_scores all_articles analyze_sentiment = Ok news_data ->
  news_columns_suffice news_data = true.
Proof.
  unfold build_news_frame.
  destruct (Py.map_result article_row all_articles) as [fetched|e]; [|discriminate].
  cbn [Py.bind]; intros [= <-].
  unfold news_columns_suffice; apply orb_true_iff; right.
  destruct analyze_sentiment; reflexivity.
Qed.

(** The frame that lines 497-572 of [get_news_data] build from
    NewsAPI articles which all carry a timestamp, handed to the merge: the
    frame is built, the merge's result has exactly the rows of the stock
    selection, in order and with their stock fields, and it has the daily
    sentiment columns exactly when the articles were scored
    (analyze_sentiment) and there is at least one article and one stock
    row. *)
Theorem merge_of_built_news (polarity_scores : string -> Q * Q * Q * Q)
    (all_articles : list Article) (analyze_sentiment : bool)
    (stock_data : list StockRow) (stock_symbol : string) :
  (forall a, In a all_articles -> a_publishedAt a <> None) ->
  exists news_data,
    build_news_frame polarity_scores all_articles analyze_sentiment = Ok news_data /\
    map stock_fields (rows (merge stock_data news_data stock_symbol))
    = map Some (stock_selection stock_data stock_symbol) /\
    (In "daily_sentiment" (columns (merge stock_data news_data stock_symbol))
     <-> analyze_sentiment = true /\ all_articles <> [] /\ stock_data <> []).
Proof.
  intro Hall.
  destruct (map_article_rows all_articles Hall) as (fetched & Hf & Hlen).
  assert (Hb : exists news_data,
            build_news_frame polarity_scores all_articles analyze_sentiment = Ok news_data)
    by (unfold build_news_frame; rewrite Hf; eexists; reflexivity).
  destruct Hb as [news_data Hb]; exists news_data; split; [exact Hb|].
  pose proof (build_news_frame_suffices _ _ _ _ Hb) as Hcols.
  split.
  { apply merge_rows_sufficient, Hcols. }
  unfold merge_stock_and_news_data.
  destruct stock_data as [|s0 rest]; [split; [intros [] | intros (_ & _ & H); now elim H]|].
  destruct (merge_selected_shape random_hour random_minute
              (stock_selection (s0 :: rest) stock_symbol) news_data Hcols)
    as (merged & rc & J & Hm & _ & _ & _).
  rewrite Hm, columns_fill_missing, (merge_selected_columns _ _ _ _ _ Hm).
  unfold build_news_frame in Hb; rewrite Hf in Hb; cbn [Py.bind] in Hb.
  injection Hb as Hb.
  assert (Hempty : frame_empty news_data = true <-> all_articles = []).
  { subst news_data; unfold add_sentiment_scores, frame_empty.
    destruct analyze_sentiment; cbn [has_column news_columns str_in existsb String.eqb
      Ascii.eqb Bool.eqb orb andb news_rows app].
    - split.
      + destruct all_articles; [reflexivity|]; destruct fetched; [discriminate Hlen|].
        cbn; discriminate.
      + intros ->; destruct fetched; [reflexivity | discriminate Hlen].
    - split.
      + destruct all_articles; [reflexivity|]; destruct fetched; [discriminate Hlen|].
        cbn; discriminate.
      + intros ->; destruct fetched; [reflexivity | discriminate Hlen]. }
  destruct (frame_empty news_data) eqn:He.
  - split.
    + intro Hin; apply str_in_In in Hin; discriminate Hin.
    + intros (_ & Ha & _); elim Ha; now apply Hempty.
  - assert (Hsent : has_column news_data "sentiment_compound" = analyze_sentiment)
      by (subst news_data; destruct analyze_sentiment; reflexivity).
    rewrite Hsent; destruct analyze_sentiment.
    + split; [intros _; repeat split; try discriminate|
              intros _; apply in_or_app; right; left; reflexivity].
      intro Ha; apply Hempty in Ha; congruence.
    + split; [intro Hin; apply str_in_In in Hin; discriminate Hin | intros [H _]; discriminate].
Qed.

(** When the news frame has sentiment scores, a daily_news_titles cell of
    the result never holds more than 500 characters (code points, as
    [len] counts them): the joined titles of a day are cut there. *)
Theorem daily_news_titles_bounded
    (stock_data : list StockRow) (news_data : NewsFrame) (stock_symbol : string)
    (r : row) (joined_titles : string) :
  has_column news_data "sentiment_compound" = true ->
  In r (rows (merge stock_data news_data stock_symbol)) ->
  lookup "daily_news_titles" r = Some (Str joined_titles) ->
  (Unicode.len joined_titles <= 500)%nat.
Proof.
  intros Hsent Hin Hlook; unfold merge_stock_and_news_data in Hin.
  destruct stock_data as [|s0 rest]; [destruct Hin|].
  set (sel := stock_selection (s0 :: rest) stock_symbol) in *.
  destruct (news_columns_suffice news_data) eqn:Hcols.
  2: { destruct (merge_selected_raises random_hour random_minute sel news_data Hcols)
         as [e He]; rewrite He in Hin.
       unfold stock_frame in Hin; cbn [rows] in Hin.
       apply in_map_iff in Hin as [s [<- _]]; destruct s; discriminate Hlook. }
  destruct (merge_selected_shape random_hour random_minute sel news_data Hcols)
    as (merged & rc & J & Hm & Hc & Hrows & HJ).
  rewrite Hm, fill_missing_rows, Hrows, map_map in Hin.
  apply in_map_iff in Hin as [s [<- Hs]]; cbv zeta in Hlook.
  assert (Hfilled : forall v,
            lookup "daily_news_titles" (J s) = v ->
            match v with
            | Some (Str t) => (Unicode.len t <= 500)%nat
            | _ => True
            end ->
            (Unicode.len joined_titles <= 500)%nat).
  { intros v Hv Hb; revert Hlook.
    destruct (str_in "daily_news_titles" (columns merged));
      rewrite ?lookup_fillna_row, lookup_app, Hv;
      replace (lookup "daily_news_titles" (with_date s)) with (@None cell)
        by (destruct s; reflexivity);
      destruct v as [[| | t |]|]; cbn; intros [= <-]; try exact Hb; vm_compute; lia. }
  destruct (frame_empty news_data) eqn:Hne.
  { revert Hm; unfold merge_selected; rewrite Hne; cbn [negb]; intros [= <-].
    cbn [rows] in Hrows.
    assert (HJs : with_date s ++ J s = with_date s)
      by exact (eq_sym (proj1 map_ext_in_iff Hrows s Hs)).
    rewrite <- (app_nil_r (with_date s)) in HJs at 2; apply app_inv_head in HJs.
    apply (Hfilled None); [now rewrite HJs | exact I]. }
  destruct (timed news_data) as [news|e] eqn:Hnews.
  2: { revert Hm; unfold merge_selected; rewrite Hne, Hnews; discriminate. }
  destruct (in_dec Z.eq_dec (s_Date s) (map n_date news)) as [Hday | Hday].
  - destruct (merge_selected_sentiment random_hour random_minute sel news_data news
                Hne Hsent Hcols Hnews) as (merged' & J' & Hm' & Hrows' & HJ').
    rewrite Hm in Hm'; injection Hm' as <-.
    assert (HJs : with_date s ++ J s = with_date s ++ J' s).
    { rewrite Hrows in Hrows'.
      exact (proj1 map_ext_in_iff Hrows' s Hs). }
    apply app_inv_head in HJs.
    apply (Hfilled (Some (Str (Unicode.take 500
             (join_titles (titles (on_date (s_Date s) news))))))).
    + rewrite HJs, (HJ' s Hday), lookup_drop_column by reflexivity.
      unfold sentiment_row; rewrite lookup_app; reflexivity.
    + apply len_take.
  - assert (Hnd : ~ In (s_Date s) (news_days random_hour random_minute news_data))
      by (unfold news_days; now rewrite Hnews).
    apply (Hfilled (lookup "daily_news_titles" (J s))); [reflexivity|].
    rewrite (HJ s Hnd); generalize rc; clear; intro l.
    induction l as [|c l IH]; [exact I|].
    cbn [map lookup fst snd]; destruct (String.eqb c "daily_news_titles"); [exact I | exact IH].
Qed.

End MergeOrigins.


(** *** The news frames at sample inputs *)

(** Two titles of a company called Acme Corp, one of them of the Analyst template. *)
Lemma template_sentiment_last_match_witness :
  template_sentiment NewsSamples.plain_search "Acme Corp" NewsSamples.acme_titles
  = Ok (map (fun t => Some (if str_contains "Analyst" t then (- (1 # 2))%Q else 0%Q))
            NewsSamples.acme_titles).
Proof.
  apply (template_sentiment_last_match NewsSamples.plain_search "Acme Corp" "Acme"
           NewsSamples.acme_titles (str_contains "Analyst")).
  - reflexivity.
  - intros t [<- | [<- | []]]; reflexivity.
  - intros t _; reflexivity.
Defined.

(** The undated sample news, stamped in the module as written and where [time] is the module. *)
Lemma time_binding_conflict_witness :
  Stamping.news_with_time_in Samples.nine Samples.zero news_module_globals
    NewsSamples.undated_news
  = news_with_time Samples.nine Samples.zero NewsSamples.undated_news
  /\ (call_time_sleep intended_globals 2 = Ok tt ->
      Stamping.news_with_time_in Samples.nine Samples.zero intended_globals
        NewsSamples.undated_news
      = Raise (OtherError "TypeError")).
Proof.
  apply (time_binding_conflict Samples.nine Samples.zero intended_globals
           NewsSamples.undated_news 2).
  - intro j; unfold Samples.nine, Samples.zero; lia.
  - reflexivity.
  - reflexivity.
  - reflexivity.
Defined.

(** The undated sample news, every hour drawn being 9. *)
Lemma drawn_hours_have_no_other_window_witness :
  ~ In "sentiment_compound_diğer"
       (columns (merge_stock_and_news_data Samples.nine Samples.zero Samples.two_symbols
                   NewsSamples.undated_news "AAPL")) /\
  ~ In "title_diğer"
       (columns (merge_stock_and_news_data Samples.nine Samples.zero Samples.two_symbols
                   NewsSamples.undated_news "AAPL")).
Proof.
  apply (drawn_hours_have_no_other_window Samples.nine Samples.zero Samples.two_symbols
           NewsSamples.undated_news "AAPL").
  - intro k; unfold Samples.nine; lia.
  - reflexivity.
Defined.

(** The sample stock rows and [pd.DataFrame()]. *)
Lemma merge_without_news_witness :
  merge_stock_and_news_data Samples.nine Samples.zero Samples.two_symbols empty_frame "AAPL"
  = mkFrame (stock_columns ++ ["date"])
            (map with_date (stock_selection Samples.two_symbols "AAPL")).
Proof.
  apply (merge_without_news Samples.nine Samples.zero Samples.two_symbols empty_frame "AAPL").
  - discriminate.
  - reflexivity.
Defined.

(** The first row of the merged sample. *)
Lemma daily_news_titles_bounded_witness :
  lookup "daily_news_titles" (nth 0 (rows Samples.merged_sample) []) = Some (Str "a") /\
  (Unicode.len "a" <= 500)%nat.
Proof.
  split; [reflexivity|].
  apply (daily_news_titles_bounded Samples.nine Samples.zero Samples.two_symbols
           Samples.morning_news "AAPL" (nth 0 (rows Samples.merged_sample) []) "a").
  - reflexivity.
  - left; reflexivity.
  - reflexivity.
Defined.


(** One article with a timestamp, scored, and the sample stock rows. *)
Lemma merge_of_built_news_witness :
  exists news_data,
    build_news_frame Samples.neutral NewsSamples.untitled true = Ok news_data /\
    map stock_fields
        (rows (merge_stock_and_news_data Samples.nine Samples.zero Samples.two_symbols
                 news_data "AAPL"))
    = map Some (stock_selection Samples.two_symbols "AAPL") /\
    (In "daily_sentiment"
        (columns (merge_stock_and_news_data Samples.nine Samples.zero Samples.two_symbols
                    news_data "AAPL"))
     <-> true = true /\ NewsSamples.untitled <> [] /\ Samples.two_symbols <> []).
Proof.
  apply (merge_of_built_news Samples.nine Samples.zero Samples.neutral NewsSamples.untitled
           true Samples.two_symbols "AAPL").
  intros a [<- | []]; discriminate.
Defined.

(** ** process_text_data: when the column assignment raises *)

Section ProcessTextDataRaises.

Import Preprocessing.

Variable uniform : nat -> Q.
Variable sentiment_reply : nat -> string -> result string.
Variable topics_reply : nat -> string -> result string.

(** A title or description cell of the row is NaN. *)
Local Abbreviation has_nan r := (x_title r = Missing \/ x_description r = Missing).

(** Row k is long enough to be sent, its sentiment request is answered and
    its topics request fails. *)
Local Abbreviation topics_fail k r :=
  (exists text, news_text r = Ok text /\ too_short text = false /\
   exists reply e, sentiment_reply k text = Ok reply /\ topics_reply k text = Raise e).

(** Line 187 raises exactly on a NaN cell. *)
Lemma news_text_cases (r : TextRow) :
  (has_nan r /\ news_text r = Raise (OtherError "TypeError")) \/
  (~ has_nan r /\ exists text, news_text r = Ok text).
Proof.
  unfold news_text, join_text.
  destruct (x_title r) as [t| |]; destruct (x_description r) as [d| |];
    cbn [filter truthy];
    repeat match goal with |- context [negb ?b] => destruct b; cbn [negb] end;
    cbn [Py.map_result Py.bind];
    try (left; split; [auto | reflexivity]);
    right; (split; [intros [H | H]; discriminate H | eexists; reflexivity]).
Qed.

Lemma score_step_lengths (k : nat) (text : string) :
  List.length (snd (score_step sentiment_reply topics_reply k text)) = 1%nat /\
  ((List.length (fst (score_step sentiment_reply topics_reply k text)) = 1%nat
    /\ ~ (too_short text = false /\
          exists reply e, sentiment_reply k text = Ok reply /\ topics_reply k text = Raise e))
   \/
   (List.length (fst (score_step sentiment_reply topics_reply k text)) = 2%nat
    /\ too_short text = false /\
       exists reply e, sentiment_reply k text = Ok reply /\ topics_reply k text = Raise e)).
Proof.
  unfold score_step.
  destruct (too_short text) eqn:Hs.
  { split; [reflexivity|]; left; split; [reflexivity|]; intros [H _]; discriminate. }
  destruct (sentiment_reply k text) as [reply|e] eqn:Hr.
  2: { split; [reflexivity|]; left; split; [reflexivity|].
       intros [_ (x & y & H & _)]; discriminate. }
  destruct (topics_reply k text) as [topics|e] eqn:Ht.
  - split; [reflexivity|]; left; split; [reflexivity|].
    intros [_ (x & y & _ & H)]; discriminate.
  - split; [reflexivity|]; right; split; [reflexivity|]; eauto.
Qed.

Lemma score_rows_cases (df : list TextRow) : forall k,
  ((exists r, In r df /\ has_nan r) /\
   score_rows sentiment_reply topics_reply k df = Raise (OtherError "TypeError")) \/
  ((forall r, In r df -> ~ has_nan r) /\
   exists ss ts, score_rows sentiment_reply topics_reply k df = Ok (ss, ts) /\
     List.length ts = List.length df /\
     ((List.length ss = List.length df /\
       forall i r, nth_error df i = Some r -> ~ topics_fail (k + i)%nat r) \/
      ((List.length df < List.length ss)%nat /\
       exists i r, nth_error df i = Some r /\ topics_fail (k + i)%nat r))).
Proof.
  induction df as [|r df IH]; intro k.
  { right; split; [intros r []|]; exists [], []; repeat split.
    left; split; [reflexivity|]; intros [|i] r H; discriminate. }
  cbn [score_rows].
  destruct (news_text_cases r) as [[Hnan ->] | [Hnan [text Htext]]].
  { left; split; [exists r; split; [now left | exact Hnan] | reflexivity]. }
  rewrite Htext.
  destruct (score_step_lengths k text) as [Ht Hs].
  destruct (score_step sentiment_reply topics_reply k text) as [s t].
  destruct (IH (S k)) as [[(x & Hx & Hxn) ->] | [Hclean (ss & ts & -> & IHt & IHs)]].
  { left; split; [exists x; split; [now right | exact Hxn] | reflexivity]. }
  right; split; [intros x [<- | Hx]; [exact Hnan | exact (Hclean x Hx)]|].
  do 2 eexists; split; [reflexivity|].
  cbn [fst snd] in *; rewrite !length_app, Ht, IHt; split; [reflexivity|].
  destruct Hs as [[Hs Hok] | [Hs Hfail]].
  - destruct IHs as [[IHs Hall] | [IHs (i & x & Hi & Hx)]].
    + left; split; [cbn [List.length]; lia|].
      intros [|i] x Hx; cbn in Hx.
      * injection Hx as <-; rewrite Nat.add_0_r.
        intros (text' & Ht' & Hf); rewrite Htext in Ht'; injection Ht' as <-.
        exact (Hok Hf).
      * rewrite Nat.add_succ_r; exact (Hall i x Hx).
    + right; split; [cbn [List.length]; lia|].
      exists (S i), x; split; [exact Hi | now rewrite Nat.add_succ_r].
  - right; split.
    + cbn [List.length]; destruct IHs as [[IHs _] | [IHs _]]; lia.
    + exists 0%nat, r; split; [reflexivity|]; rewrite Nat.add_0_r.
      exists text; split; [exact Htext | exact Hfail].
Qed.

(** With an API key, [process_text_data] raises in two cases only.  It
    raises TypeError exactly when a title or description cell of some row
    is NaN: [filter(None, ...)] keeps the NaN and [' '.join] refuses it,
    outside the [try].  Otherwise it raises ValueError exactly when, for
    some row whose stripped text has at least ten characters, the topics
    request fails after the row's sentiment request was answered: the
    score and the 0 of the [except] clause are then both appended,
    sentiment_scores outgrows the frame, and the assignment of the column
    raises.  Failures of the sentiment request are harmless. *)
Theorem process_text_data_raises_iff (key : string) (df : list TextRow) :
  key <> ""%string ->
  (process_text_data (Some key) uniform sentiment_reply topics_reply df
   = Raise (OtherError "TypeError")
   <-> exists r, In r df /\ has_nan r) /\
  (process_text_data (Some key) uniform sentiment_reply topics_reply df = Raise ValueError
   <-> (forall r, In r df -> ~ has_nan r) /\
       exists i r, nth_error df i = Some r /\ topics_fail i r) /\
  (forall e, process_text_data (Some key) uniform sentiment_reply topics_reply df = Raise e ->
             e = ValueError \/ e = OtherError "TypeError").
Proof.
  intro Hkey; unfold process_text_data.
  destruct df as [|x df].
  { split; [split; [discriminate | intros (r & [] & _)]|].
    split; [split; [discriminate | intros (_ & [|i] & r & H & _); discriminate]
           | discriminate]. }
  set (l := x :: df).
  replace (String.eqb key "") with false
    by (symmetry; apply String.eqb_neq; exact Hkey).
  destruct (score_rows_cases l 0) as [[Hnan ->] | [Hclean (ss & ts & -> & Ht & Hs)]].
  { split; [split; [intros _; exact Hnan | reflexivity]|].
    split; [split; [discriminate|] | intros e [= <-]; now right].
    intros (Hclean & _); destruct Hnan as (r & Hr & Hn); elim (Hclean r Hr Hn). }
  cbn [Nat.add] in Hs.
  assert (Hno : ~ exists r, In r l /\ has_nan r)
    by (intros (r & Hr & Hn); exact (Hclean r Hr Hn)).
  rewrite Ht, Nat.eqb_refl.
  destruct Hs as [[Hs Hall] | [Hs Hex]].
  - rewrite Hs, Nat.eqb_refl.
    split; [split; [discriminate | intro H; elim (Hno H)]|].
    split; [split; [discriminate|] | discriminate].
    intros (_ & i & r & Hi & Hf); exfalso; exact (Hall i r Hi Hf).
  - replace (Nat.eqb (List.length ss) (List.length l)) with false
      by (symmetry; apply Nat.eqb_neq; lia).
    split; [split; [discriminate | intro H; elim (Hno H)]|].
    split; [split; [intros _; split; [exact Hclean | exact Hex] | reflexivity]
           | intros e [= <-]; now left].
Qed.

End ProcessTextDataRaises.


(** ** prepare_sentiment_data on a merged frame *)

Import SentimentPlot.

Lemma lookup_replaced (target : string) (v : cell) (c : string) (r : row) :
  lookup c (map (fun kv => if String.eqb (fst kv) target then (target, v) else kv) r)
  = if String.eqb target c
    then match lookup c r with Some _ => Some v | None => None end
    else lookup c r.
Proof.
  induction r as [|[k x] r IH]; [now destruct (String.eqb target c)|].
  cbn [map fst]; destruct (String.eqb k target) eqn:Ek.
  - apply String.eqb_eq in Ek; subst k; cbn [lookup].
    destruct (String.eqb target c) eqn:Et; [reflexivity|].
    exact IH.
  - cbn [lookup]; rewrite IH.
    destruct (String.eqb target c) eqn:Et; [|reflexivity].
    apply String.eqb_eq in Et; subst c; now rewrite Ek.
Qed.

Lemma lookup_existsb (target : string) (r : row) :
  lookup target r = None <-> existsb (fun kv => String.eqb (fst kv) target) r = false.
Proof.
  induction r as [|[k x] r IH]; [split; reflexivity|].
  cbn [lookup existsb fst]; destruct (String.eqb k target); [split; discriminate | exact IH].
Qed.

Lemma lookup_set_cell (target : string) (v : cell) (c : string) (r : row) :
  lookup c (set_cell target v r) = if String.eqb target c then Some v else lookup c r.
Proof.
  unfold set_cell.
  destruct (existsb (fun kv => String.eqb (fst kv) target) r) eqn:E.
  - rewrite lookup_replaced.
    destruct (String.eqb target c) eqn:Et; [|reflexivity].
    apply String.eqb_eq in Et; subst c.
    destruct (lookup target r) eqn:El; [reflexivity|].
    apply lookup_existsb in El; congruence.
  - rewrite lookup_app; cbn [lookup].
    destruct (String.eqb target c) eqn:Et; [|now destruct (lookup c r)].
    apply String.eqb_eq in Et; subst c.
    now rewrite (proj2 (lookup_existsb target r) E).
Qed.

Lemma str_in_copy_column (target source c : string) (df : DataFrame) :
  str_in c (columns (copy_column target source df))
  = str_in c (columns df) || String.eqb c target.
Proof.
  unfold copy_column; cbn [columns].
  destruct (str_in target (columns df)) eqn:E.
  - destruct (String.eqb c target) eqn:Ec; [|now rewrite orb_false_r].
    apply String.eqb_eq in Ec; subst c; now rewrite E.
  - unfold str_in; rewrite existsb_app; cbn [existsb]; now rewrite orb_false_r.
Qed.

(** What the function does to a frame that lacks one of the window
    columns of each naming and has daily_sentiment but no
    sentiment_compound column. *)
Lemma prepare_spreads_daily (df : DataFrame) :
  all_in default_columns df = false ->
  all_in alt_columns df = false ->
  all_in eng_columns df = false ->
  str_in "sentiment_compound" (columns df) = false ->
  str_in "daily_sentiment" (columns df) = true ->
  exists out g,
    prepare_sentiment_data df
    = Some (out, default_columns, filter is_title_column (columns df)) /\
    rows out = map g (rows df) /\
    forall r c, In c default_columns ->
      lookup c (g r) = Some (match lookup "daily_sentiment" r with
                             | Some NaN | None => Num 0
                             | Some v => v
                             end).
Proof.
  intros H1 H2 H3 H4 H5; unfold prepare_sentiment_data; rewrite H1, H2, H3, H4, H5.
  set (value := fun r : row => match lookup "daily_sentiment" r with
                               | Some v => v
                               | None => NaN
                               end).
  set (pick := fun col => str_in col default_columns
                          && str_in col (columns (spread "daily_sentiment" df))).
  exists (fillna pick (Num 0) (spread "daily_sentiment" df)).
  exists (fun r => fillna_row pick (Num 0)
            (set_cell "sentiment_compound_akşam" (value r)
               (set_cell "sentiment_compound_öğle" (value r)
                  (set_cell "sentiment_compound_sabah" (value r) r)))).
  split; [reflexivity|]; split.
  - unfold fillna, spread, copy_column; cbn [rows]; rewrite !map_map.
    apply map_ext; intro r; f_equal; unfold value.
    rewrite !lookup_set_cell; cbn [String.eqb Ascii.eqb Bool.eqb].
    reflexivity.
  - intros r c Hc.
    assert (Hpick : pick c = true).
    { unfold pick, spread; rewrite !str_in_copy_column.
      rewrite (proj2 (str_in_In _ _) Hc); cbn [andb].
      destruct Hc as [<- | [<- | [<- | []]]]; cbn [String.eqb Ascii.eqb Bool.eqb];
        rewrite ?orb_true_r; reflexivity. }
    rewrite lookup_fillna_row, !lookup_set_cell, Hpick; unfold value.
    destruct Hc as [<- | [<- | [<- | []]]]; cbn [String.eqb Ascii.eqb Bool.eqb andb];
      now destruct (lookup "daily_sentiment" r) as [[| | |]|].
Qed.


Lemma In_sentiment_columns (x : string) (ws : list string) :
  In x ((stock_columns ++ ["date"]) ++
        ["daily_sentiment"; "daily_pos"; "daily_neg"; "daily_neu"; "daily_news_titles"] ++
        map (String.append "sentiment_compound_") ws ++ map (String.append "title_") ws) ->
  str_in x ((stock_columns ++ ["date"]) ++
            ["daily_sentiment"; "daily_pos"; "daily_neg"; "daily_neu"; "daily_news_titles"])
  = true \/
  exists w, In w ws /\
    (x = String.append "sentiment_compound_" w \/ x = String.append "title_" w).
Proof.
  rewrite app_assoc; intro H; apply in_app_or in H as [H | H].
  - left; now apply str_in_In.
  - right; apply in_app_or in H as [H | H]; apply in_map_iff in H as [w [<- Hw]]; eauto.
Qed.

Section PrepareMerged.

Variable random_hour : nat -> Z.
Variable random_minute : nat -> Z.

Local Abbreviation timed := (news_with_time random_hour random_minute).
Local Abbreviation merge := (merge_stock_and_news_data random_hour random_minute).

Lemma sentiment_path_columns
    (stock_data : list StockRow) (news_data : NewsFrame) (stock_symbol : string)
    (news : list NewsRow) :
  stock_data <> [] ->
  frame_empty news_data = false ->
  has_column news_data "sentiment_compound" = true ->
  news_columns_suffice news_data = true ->
  timed news_data = Ok news ->
  columns (merge stock_data news_data stock_symbol)
  = (stock_columns ++ ["date"]) ++
    ["daily_sentiment"; "daily_pos"; "daily_neg"; "daily_neu"; "daily_news_titles"] ++
    map (String.append "sentiment_compound_") (windows_present news) ++
    map (String.append "title_") (windows_present news).
Proof.
  intros Hs Hne Hsent Hcols Hnews; unfold merge_stock_and_news_data.
  destruct stock_data as [|s0 rest]; [contradiction|].
  destruct (merge_selected_shape random_hour random_minute
              (stock_selection (s0 :: rest) stock_symbol) news_data Hcols)
    as (merged & rc & J & Hm & _ & _ & _).
  rewrite Hm, columns_fill_missing, (merge_selected_columns _ _ _ _ _ Hm).
  now rewrite Hne, Hsent, Hnews.
Qed.

(** The merge makes a column sentiment_compound_w only for a window w in
    which some news row falls.  When one of sabah, öğle and akşam holds no
    news at all, [prepare_sentiment_data] therefore misses a column, finds
    neither of its alternative namings, and overwrites all three window
    columns with daily_sentiment: the means the merge computed for the
    other windows are lost. *)
Theorem prepare_overwrites_merged_windows
    (stock_data : list StockRow) (news_data : NewsFrame) (stock_symbol : string)
    (news : list NewsRow) (w : string) :
  stock_data <> [] ->
  frame_empty news_data = false ->
  has_column news_data "sentiment_compound" = true ->
  news_columns_suffice news_data = true ->
  timed news_data = Ok news ->
  In w ["sabah"; "öğle"; "akşam"] ->
  existsb (fun n => String.eqb (time_of_day n) w) news = false ->
  exists out g,
    prepare_sentiment_data (merge stock_data news_data stock_symbol)
    = Some (out, default_columns,
            filter is_title_column (columns (merge stock_data news_data stock_symbol))) /\
    rows out = map g (rows (merge stock_data news_data stock_symbol)) /\
    forall r c, In c default_columns ->
      lookup c (g r) = Some (match lookup "daily_sentiment" r with
                             | Some NaN | None => Num 0
                             | Some v => v
                             end).
Proof.
  intros Hs Hne Hsent Hcols Hnews Hw Hnone.
  pose proof (sentiment_path_columns stock_data news_data stock_symbol news
                Hs Hne Hsent Hcols Hnews) as Hc.
  assert (Hwin : forall x, In x (windows_present news) -> In x all_windows)
    by (intros x Hx; now apply filter_In in Hx).
  assert (Hmissing : ~ In w (windows_present news)).
  { intro Hx; apply filter_In in Hx as [_ Hx]; congruence. }
  assert (Hno : forall x, str_in x (columns (merge stock_data news_data stock_symbol)) = true ->
            str_in x ((stock_columns ++ ["date"]) ++
                      ["daily_sentiment"; "daily_pos"; "daily_neg"; "daily_neu";
                       "daily_news_titles"]) = false ->
            exists w', In w' (windows_present news) /\
              (x = String.append "sentiment_compound_" w' \/ x = String.append "title_" w')).
  { intros x Hx Hb; apply str_in_In in Hx; rewrite Hc in Hx.
    destruct (In_sentiment_columns _ _ Hx) as [H | H]; [congruence | exact H]. }
  apply prepare_spreads_daily.
  - destruct (all_in default_columns _) eqn:E; [exfalso | reflexivity].
    unfold all_in in E; rewrite forallb_forall in E.
    assert (Hd : In (String.append "sentiment_compound_" w) default_columns)
      by (destruct Hw as [<- | [<- | [<- | []]]]; cbn; auto).
    destruct (Hno _ (E _ Hd)) as (w' & Hw' & [He | He]).
    + destruct Hw as [<- | [<- | [<- | []]]]; reflexivity.
    + apply append_inj in He; subst w'; contradiction.
    + destruct Hw as [<- | [<- | [<- | []]]]; discriminate He.
  - destruct (all_in alt_columns _) eqn:E; [exfalso | reflexivity].
    unfold all_in in E; rewrite forallb_forall in E.
    destruct (Hno "sentiment_compound_ogle") as (w' & Hw' & [He | He]);
      [apply E; cbn; auto | reflexivity | | discriminate He].
    apply (append_inj "sentiment_compound_" "ogle" w') in He; subst w'.
    apply Hwin, str_in_In in Hw'; discriminate Hw'.
  - destruct (all_in eng_columns _) eqn:E; [exfalso | reflexivity].
    unfold all_in in E; rewrite forallb_forall in E.
    destruct (Hno "sentiment_compound_morning") as (w' & Hw' & [He | He]);
      [apply E; cbn; auto | reflexivity | | discriminate He].
    apply (append_inj "sentiment_compound_" "morning" w') in He; subst w'.
    apply Hwin, str_in_In in Hw'; discriminate Hw'.
  - destruct (str_in "sentiment_compound" _) eqn:E; [exfalso | reflexivity].
    destruct (Hno _ E) as (w' & Hw' & [He | He]); [reflexivity | |]; discriminate He.
  - apply str_in_In; rewrite Hc; apply in_or_app; right; left; reflexivity.
Qed.

End PrepareMerged.


(** ** evaluate_correlation: the significant pairs *)

Lemma NoDup_flat_map_tagged {B : Type} (g : nat -> list B) (l : list nat) :
  NoDup l -> (forall i, NoDup (g i)) ->
  NoDup (flat_map (fun i => map (pair i) (g i)) l).
Proof.
  intros Hl Hg; induction Hl as [|i l Hi Hl IH]; [constructor|].
  cbn [flat_map]; apply NoDup_app.
  - apply NoDup_map_NoDup_ForallPairs; [|apply Hg].
    intros x y _ _ [= H]; exact H.
  - exact IH.
  - intros [a b] Ha Hb; apply in_map_iff in Ha as [x [[= <- <-] _]].
    apply in_flat_map in Hb as [k [Hk Hb]].
    apply in_map_iff in Hb as [y [[= -> _] _]]; contradiction.
Qed.

Lemma flat_map_if {A B : Type} (m : A -> bool) (f : A -> B) (l : list A) :
  flat_map (fun j => if m j then [f j] else []) l = map f (filter m l).
Proof.
  induction l as [|x l IH]; [reflexivity|].
  cbn [flat_map filter]; destruct (m x); cbn; now rewrite IH.
Qed.

Section SignificantFacts.

Import Evaluation.

Variable matrix_columns : list string.
Variable correlation_matrix : nat -> nat -> option Q.
Variable correlation_pvalues : nat -> nat -> option Q.

(** The loops report a pair of variables exactly when it lies above the
    diagonal, its p-value is below 0.05 and its correlation exceeds 0.3 in
    absolute value; a NaN in either frame keeps the pair out.  Every such
    pair is reported once: never a variable with itself, and never a pair
    in both orders. *)
Theorem significant_positions_spec :
  (forall i j,
     In (i, j) (significant_positions matrix_columns correlation_matrix correlation_pvalues)
     <-> (i < j < List.length matrix_columns)%nat /\
         exists p c, correlation_pvalues i j = Some p /\ correlation_matrix i j = Some c /\
                     (p < 5 # 100)%Q /\ (3 # 10 < Qabs c)%Q) /\
  NoDup (significant_positions matrix_columns correlation_matrix correlation_pvalues) /\
  (forall i j,
     In (i, j) (significant_positions matrix_columns correlation_matrix correlation_pvalues) ->
     ~ In (j, i) (significant_positions matrix_columns correlation_matrix correlation_pvalues)).
Proof.
  assert (Hlt : forall a b, Qlt_bool a b = true <-> (a < b)%Q).
  { intros a b; unfold Qlt_bool; rewrite negb_true_iff.
    destruct (Qle_bool_cases b a) as [[-> H] | [-> H]]; split; try discriminate; auto.
    intro H'; exfalso; revert H H'; apply Qle_not_lt. }
  assert (Hin : forall i j,
     In (i, j) (significant_positions matrix_columns correlation_matrix correlation_pvalues)
     <-> (i < j < List.length matrix_columns)%nat /\
         significant_mask correlation_matrix correlation_pvalues i j = true).
  { intros i j; unfold significant_positions; rewrite in_flat_map; split.
    - intros [k [Hk Hj]]; rewrite flat_map_if in Hj.
      apply in_map_iff in Hj as [x [[= -> ->] Hx]].
      apply filter_In in Hx as [Hx Hm]; apply in_seq in Hk, Hx; split; [lia | exact Hm].
    - intros [Hij Hm]; exists i; split; [apply in_seq; lia|].
      rewrite flat_map_if; apply in_map_iff; exists j; split; [reflexivity|].
      apply filter_In; split; [apply in_seq; lia | exact Hm]. }
  split; [|split].
  - intros i j; rewrite Hin; unfold significant_mask.
    destruct (correlation_pvalues i j) as [p|], (correlation_matrix i j) as [c|].
    + rewrite andb_true_iff, !Hlt; split.
      * intros [Hij [Hp Hc]]; split; [exact Hij|]; exists p, c; auto.
      * intros [Hij (p' & c' & [= <-] & [= <-] & Hp & Hc)]; auto.
    + split; [intros [_ H]; discriminate | intros [_ (p' & c' & _ & H & _)]; discriminate].
    + split; [intros [_ H]; discriminate | intros [_ (p' & c' & H & _)]; discriminate].
    + split; [intros [_ H]; discriminate | intros [_ (p' & c' & H & _)]; discriminate].
  - unfold significant_positions.
    erewrite flat_map_ext by (intro i; apply flat_map_if).
    apply NoDup_flat_map_tagged; [apply seq_NoDup|].
    intro i; apply NoDup_filter, seq_NoDup.
  - intros i j Hij Hji; apply Hin in Hij as [Hij _]; apply Hin in Hji as [Hji _]; lia.
Qed.

End SignificantFacts.

(** ** clustering_analysis: the number of clusters *)

Section ClusterCount.

Import Clustering.

Lemma argmax_from_spec (rest : list Q) : forall (pre : list Q) (best_i : nat) (best : Q),
  (best_i < List.length pre)%nat ->
  nth best_i pre 0%Q = best ->
  (forall j, (j < List.length pre)%nat -> (nth j pre 0 <= best)%Q) ->
  (forall j, (j < best_i)%nat -> (nth j pre 0 < best)%Q) ->
  let r := argmax_from best_i best (List.length pre) rest in
  (r < List.length (pre ++ rest))%nat /\
  (forall j, (j < List.length (pre ++ rest))%nat ->
             (nth j (pre ++ rest) 0 <= nth r (pre ++ rest) 0)%Q) /\
  (forall j, (j < r)%nat -> (nth j (pre ++ rest) 0 < nth r (pre ++ rest) 0)%Q).
Proof.
  induction rest as [|s rest IH]; intros pre best_i best Hi Hb Hle Hlt; cbn [argmax_from].
  { rewrite app_nil_r; cbv zeta; rewrite Hb; auto. }
  assert (Hpre : pre ++ s :: rest = (pre ++ [s]) ++ rest) by now rewrite <- app_assoc.
  assert (Hlen : List.length (pre ++ [s]) = S (List.length pre))
    by (rewrite length_app; cbn; lia).
  assert (Hold : forall j, (j < List.length pre)%nat -> nth j (pre ++ [s]) 0%Q = nth j pre 0%Q)
    by (intros j Hj; now rewrite app_nth1).
  assert (Hnew : nth (List.length pre) (pre ++ [s]) 0%Q = s)
    by (rewrite app_nth2, Nat.sub_diag by lia; reflexivity).
  rewrite Hpre, <- Hlen.
  unfold Evaluation.Qlt_bool.
  destruct (Qle_bool_cases s best) as [[-> Hs] | [-> Hs]]; cbn [negb].
  - apply (IH (pre ++ [s]) best_i best).
    + rewrite Hlen; lia.
    + now rewrite Hold.
    + intros j Hj; rewrite Hlen in Hj.
      destruct (Nat.eq_dec j (List.length pre)) as [-> | Hne];
        [now rewrite Hnew | rewrite Hold by lia; apply Hle; lia].
    + intros j Hj; rewrite Hold by lia; now apply Hlt.
  - apply (IH (pre ++ [s]) (List.length pre) s).
    + rewrite Hlen; lia.
    + exact Hnew.
    + intros j Hj; rewrite Hlen in Hj.
      destruct (Nat.eq_dec j (List.length pre)) as [-> | Hne];
        [rewrite Hnew; apply Qle_refl|].
      rewrite Hold by lia; apply Qlt_le_weak, Qle_lt_trans with best; [apply Hle; lia | exact Hs].
    + intros j Hj; rewrite Hold by lia.
      apply Qle_lt_trans with best; [apply Hle; lia | exact Hs].
Qed.

Lemma argmax_spec (s : Q) (rest : list Q) :
  (argmax (s :: rest) < List.length (s :: rest))%nat /\
  (forall j, (j < List.length (s :: rest))%nat ->
             (nth j (s :: rest) 0 <= nth (argmax (s :: rest)) (s :: rest) 0)%Q) /\
  (forall j, (j < argmax (s :: rest))%nat ->
             (nth j (s :: rest) 0 < nth (argmax (s :: rest)) (s :: rest) 0)%Q).
Proof.
  apply (argmax_from_spec rest [s] 0%nat s).
  - cbn; lia.
  - reflexivity.
  - intros [|j] Hj; [apply Qle_refl | cbn in Hj; lia].
  - intros j Hj; lia.
Qed.

Lemma collect_nth {A B : Type} (f : A -> result B) (d : A) (e : B) (l : list A) :
  forall ys, collect f l = Ok ys ->
  List.length ys = List.length l /\
  forall i, (i < List.length l)%nat -> f (nth i l d) = Ok (nth i ys e).
Proof.
  induction l as [|x l IH]; intros ys; cbn [collect].
  { intros [= <-]; split; [reflexivity | intros i Hi; cbn in Hi; lia]. }
  destruct (f x) as [y|] eqn:Hx; [|discriminate]; cbn [bind].
  destruct (collect f l) as [ys'|]; [|discriminate]; cbn [bind].
  intros [= <-]; destruct (IH ys' eq_refl) as [Hlen Hnth]; split; [cbn; now rewrite Hlen|].
  intros [|i] Hi; [exact Hx | apply Hnth; cbn in Hi; lia].
Qed.

Variable silhouette : nat -> result Q.

(** The number of clusters [clustering_analysis] settles on is always one
    of the candidates of K_range: between 2 and 5, with at least five rows
    for each cluster, and it is the first candidate of the best silhouette
    score.  With the ten rows the function asks for, K_range is never
    empty, so the default of 3 is never used. *)
Theorem optimal_k_spec (len_X k : nat) :
  optimal_k silhouette len_X = Ok (Some k) ->
  In k (K_range len_X) /\ (2 <= k <= 5)%nat /\ (5 * k <= len_X)%nat /\
  exists score, silhouette k = Ok score /\
    forall k' score', In k' (K_range len_X) -> silhouette k' = Ok score' ->
      (score' <= score)%Q /\ ((k' < k)%nat -> (score' < score)%Q).
Proof.
  unfold optimal_k.
  destruct (Nat.ltb_spec len_X 10) as [Hn | Hn]; [discriminate|].
  destruct (collect silhouette (K_range len_X)) as [scores|e] eqn:Hc; [|discriminate].
  cbn [bind]; destruct (collect_nth _ 0%nat 0%Q _ _ Hc) as [Hlen Hnth].
  assert (Hdiv : (2 <= len_X / 5)%nat) by (apply Nat.div_le_lower_bound; lia).
  assert (Hmul : (5 * (len_X / 5) <= len_X)%nat) by (apply Nat.Div0.mul_div_le).
  unfold K_range in *; rewrite length_seq in Hlen, Hnth.
  set (m := (Nat.min 6 (len_X / 5 + 1) - 2)%nat) in *.
  assert (Hm : (1 <= m /\ m + 2 <= 6 /\ m + 2 <= len_X / 5 + 1)%nat) by (subst m; lia).
  clearbody m.
  destruct scores as [|s rest]; [cbn [List.length] in Hlen; lia|].
  destruct (argmax_spec s rest) as (Hr & Hmax & Hfirst).
  set (r := argmax (s :: rest)) in *; rewrite Hlen in Hr, Hmax.
  intros [= <-]; rewrite seq_nth by exact Hr.
  split; [apply in_seq; lia|]; split; [lia|]; split; [nia|].
  exists (nth r (s :: rest) 0%Q); split.
  - specialize (Hnth r Hr); now rewrite seq_nth in Hnth by exact Hr.
  - intros k' score' Hk' Hs'; apply in_seq in Hk'.
    assert (Hj : (k' - 2 < m)%nat) by lia.
    pose proof (Hnth (k' - 2)%nat Hj) as Hk; rewrite seq_nth in Hk by exact Hj.
    replace (2 + (k' - 2))%nat with k' in Hk by lia.
    rewrite Hs' in Hk; injection Hk as ->; split.
    + apply Hmax; exact Hj.
    + intro Hlt; apply Hfirst; lia.
Qed.

End ClusterCount.


(** ** data_acquisition.py *)

Section AcquisitionFacts.

Import Acquisition.

Lemma len_append (a b : string) :
  Unicode.len (String.append a b) = (Unicode.len a + Unicode.len b)%nat.
Proof.
  induction a as [|c a IH]; cbn [String.append Unicode.len]; [reflexivity|].
  rewrite IH; now destruct (Unicode.continuation c).
Qed.

Variable num_news : nat -> nat.
Variable choice : nat -> nat.

Lemma sample_item_complete (company_name : string) (date : Z) (draw : nat) :
  long_title (sample_item choice company_name date draw) = true /\
  i_date (sample_item choice company_name date draw) = Some date /\
  is_some (i_description (sample_item choice company_name date draw)) = true /\
  is_some (i_content (sample_item choice company_name date draw)) = true /\
  is_some (i_url (sample_item choice company_name date draw)) = true.
Proof.
  unfold sample_item, long_title; cbn [i_title i_date i_description i_content i_url is_some].
  repeat split; apply Nat.ltb_lt.
  change (List.length (all_templates company_name)) with 15%nat.
  assert (Hi : (choice draw mod 15 < 15)%nat) by (apply Nat.mod_upper_bound; discriminate).
  revert Hi; generalize (choice draw mod 15)%nat; intros i Hi.
  do 15 (destruct i as [|i];
         [cbn [nth all_templates]; rewrite ?len_append;
          repeat match goal with
                 | |- context [Unicode.len (String ?c ?t)] =>
                   let v := eval vm_compute in (Unicode.len (String c t)) in
                   change (Unicode.len (String c t)) with v
                 end; lia|]).
  lia.
Qed.

Lemma In_sample_rows (company_name : string) (date_range : list Z) : forall k draw r,
  In r (sample_rows num_news choice company_name date_range k draw) ->
  exists date j, In date date_range /\ r = sample_item choice company_name date j.
Proof.
  assert (Hday : forall date n draw r,
            In r (day_items choice company_name date n draw) ->
            exists j, r = sample_item choice company_name date j).
  { intros date n; induction n as [|n IH]; intros draw r; cbn; [contradiction|].
    intros [<- | Hin]; [eauto | eapply IH; eassumption]. }
  induction date_range as [|d rest IH]; intros k draw r; cbn [sample_rows]; [contradiction|].
  intro Hin; apply in_app_or in Hin as [Hin | Hin].
  - destruct (Hday _ _ _ _ Hin) as [j ->]; exists d, j; split; [now left | reflexivity].
  - destruct (IH _ _ _ Hin) as (date & j & Hd & ->); exists date, j; split; [now right | reflexivity].
Qed.

(** The sample news pass through the two preprocessing steps of [main]
    untouched and without an exception: every generated row has a title of
    more than five characters, a description, a content and a url, so the
    text cleaning drops and changes nothing and the integration with any
    stock frame returns. *)
Theorem sample_news_survive_preprocessing
    (company_name : string) (date_range : list Z) (stock_df : list StockRow) :
  clean_text_data (generate_sample_news_data num_news choice company_name date_range)
  = generate_sample_news_data num_news choice company_name date_range /\
  exists combined_df,
    integrate_data stock_df
      (generate_sample_news_data num_news choice company_name date_range)
    = Ok combined_df.
Proof.
  set (news := generate_sample_news_data num_news choice company_name date_range).
  assert (Hall : forall r, In r news ->
            long_title r = true /\ is_some (i_description r) = true /\
            is_some (i_content r) = true /\ is_some (i_url r) = true).
  { intros r Hr; apply In_sample_rows in Hr as (date & j & _ & ->).
    destruct (sample_item_complete company_name date j) as (H1 & _ & H2 & H3 & H4); auto. }
  split.
  - apply clean_text_data_fixes; intros r Hr; destruct (Hall r Hr) as (? & ? & ? & ?); auto.
  - destruct stock_df as [|s0 stock]; [eexists; reflexivity|].
    destruct news as [|n0 rest] eqn:Hnews; [eexists; reflexivity|].
    rewrite integrate_data_nonempty by discriminate.
    destruct (news_grouped_cases (n0 :: rest)) as [[-> _] | [_ (r & d & Hr & _ & Hm)]];
      [eexists; reflexivity|].
    exfalso; destruct (Hall r Hr) as (Hl & Hd & Hc & Hu).
    unfold long_title in Hl.
    destruct Hm as [Hm | [Hm | [Hm | Hm]]]; rewrite Hm in *; discriminate.
Qed.

End AcquisitionFacts.


Lemma collect_ext_in {A B : Type} (f g : A -> result B) (l : list A) :
  (forall x, In x l -> f x = g x) -> collect f l = collect g l.
Proof.
  induction l as [|x l IH]; intro H; [reflexivity|].
  cbn [collect]; rewrite (H x (or_introl eq_refl)), IH by (intros; apply H; now right).
  reflexivity.
Qed.

Lemma collect_map {A B C : Type} (f : B -> result C) (g : A -> B) (l : list A) :
  collect f (map g l) = collect (fun x => f (g x)) l.
Proof.
  induction l as [|x l IH]; [reflexivity|]; cbn [map collect]; now rewrite IH.
Qed.

Section AcquisitionNews.

Import Acquisition.

Variable strptime : string -> result Z.
Variable strftime : Z -> string.
Variable get_everything : string -> string -> string -> result Response.
Variable sample : string -> string -> string -> result (list NewsItem).

(** The k-th request of a loop that starts at day [s]. *)
Local Abbreviation request company_name s e k :=
  (get_everything company_name (strftime (s + 30 * Z.of_nat k))
                  (strftime (Z.min (s + 30 * Z.of_nat k + 30) e))).

Local Abbreviation accepted :=
  (fun response : Response =>
     if String.eqb (status response) "ok" then articles response else []).

Lemma query_loop_closed (company_name : string) (e : Z) : forall n fuel s all_articles,
  (n <= fuel)%nat ->
  e - s <= 30 * Z.of_nat n -> 30 * Z.of_nat n < e - s + 30 ->
  query_loop strftime get_everything fuel company_name s e all_articles
  = Some (match collect (fun k => request company_name s e k) (seq 0 n) with
          | Raise x => Raise x
          | Ok answers => Ok (all_articles ++ flat_map accepted answers)
          end).
Proof.
  induction n as [|n IH]; intros fuel s all_articles Hf H1 H2.
  { cbn [seq collect flat_map]; rewrite app_nil_r.
    replace (s <? e) with false by (symmetry; apply Z.ltb_ge; lia).
    destruct fuel; cbn [query_loop];
      now replace (s <? e) with false by (symmetry; apply Z.ltb_ge; lia). }
  destruct fuel as [|fuel]; [lia|].
  cbn [query_loop seq collect].
  replace (s <? e) with true by (symmetry; apply Z.ltb_lt; lia).
  replace (s + 30 * Z.of_nat 0) with s by lia.
  destruct (get_everything company_name (strftime s) (strftime (Z.min (s + 30) e)))
    as [response|x]; [|reflexivity].
  cbn [bind]; rewrite (IH fuel (Z.min (s + 30) e)) by lia.
  rewrite <- seq_shift, collect_map.
  rewrite (collect_ext_in
             (fun k => request company_name s e (S k))
             (fun k => request company_name (Z.min (s + 30) e) e k)).
  2: { intros k Hk; apply in_seq in Hk.
       replace (Z.min (s + 30) e) with (s + 30) by lia.
       f_equal; f_equal; lia. }
  destruct (collect _ (seq 0 n)) as [answers|x]; [|reflexivity].
  cbn [bind flat_map].
  destruct (String.eqb (status response) "ok"); now rewrite <- ?app_assoc.
Qed.

(** With a key and two dates that parse, [get_news_data] asks for the
    windows [s + 30k, min(s + 30k + 30, e)], k = 0, 1, ..., one request for
    each started span of 30 days and the end of a window being the start of
    the next.  When every request is answered, the frame has one row for
    each article of the answers whose status is ok, in the order received,
    nothing left out or merged; when there is no such article, or when one
    request raises, the result is that of the sample generator and the
    articles received until then are lost. *)
Theorem get_news_data_closed_form (key company_name start_date end_date : string)
    (s e : Z) :
  key <> ""%string ->
  strptime start_date = Ok s ->
  strptime end_date = Ok e ->
  get_news_data (Some key) strptime strftime get_everything sample
                company_name start_date end_date
  = Some (match collect (fun k => request company_name s e k)
                        (seq 0 (Z.to_nat ((e - s + 29) / 30))) with
          | Raise _ => sample company_name start_date end_date
          | Ok answers =>
            match flat_map accepted answers with
            | [] => sample company_name start_date end_date
            | all_articles => Ok (map article_item all_articles)
            end
          end).
Proof.
  intros Hkey Hs He; unfold get_news_data; rewrite Hs, He.
  replace (String.eqb key "") with false by (symmetry; apply String.eqb_neq; exact Hkey).
  destruct (Z.lt_ge_cases s e) as [Hlt | Hge].
  - assert (Hq : 30 * ((e - s + 29) / 30) <= e - s + 29) by (apply Z.mul_div_le; lia).
    assert (Hq' : e - s + 29 < 30 * Z.succ ((e - s + 29) / 30))
      by (apply Z.mul_succ_div_gt; lia).
    assert (Hq1 : 1 <= (e - s + 29) / 30) by (apply Z.div_le_lower_bound; lia).
    rewrite (query_loop_closed company_name e (Z.to_nat ((e - s + 29) / 30))) by lia.
    destruct (collect _ _) as [answers|x]; [|reflexivity].
    cbn [app]; now destruct (flat_map _ answers).
  - assert (Hq : 30 * ((e - s + 29) / 30) <= e - s + 29) by (apply Z.mul_div_le; lia).
    replace (Z.to_nat ((e - s + 29) / 30)) with 0%nat by lia.
    replace (Z.to_nat (e - s)) with 0%nat by lia.
    cbn [Z.to_nat seq collect flat_map query_loop].
    now replace (s <? e) with false by (symmetry; apply Z.ltb_ge; lia).
Qed.

End AcquisitionNews.


(** ** get_direct_stock_data *)

Section DirectStockData.

Import StockData.

Variable to_datetime : string -> result Z.
Variable download : nat -> string -> Z -> Z -> result (list Bar).

(** What a download contributes: its bars, or nothing when it raised. *)
Local Abbreviation bars_of k symbol start end_ :=
  (match download k symbol start end_ with
   | Ok data => data
   | Raise _ => []
   end).

Lemma rows_of_try_download (ns : namespace) (k : nat) (symbol : string) (start end_ : Z) :
  rows_of_download symbol (try_download ns download k symbol start end_)
  = map (labelled symbol) (bars_of k symbol start end_).
Proof.
  unfold try_download.
  destruct (download k symbol start end_); [|reflexivity].
  now destruct (call_time_sleep ns 1).
Qed.

(** In [get_direct_stock_data] the misbound [time] does no harm: each
    download is assigned before [time.sleep(1)] raises, and the inner
    [except] swallows the AttributeError.  Whatever [time] is bound to,
    and whichever downloads fail, the first invocation returns, so the
    decorator never retries and never waits; the frame holds the bars of
    the stock, labelled with its symbol, followed by those of the index. *)
Theorem get_direct_stock_data_single_call (ns : namespace) (random : nat -> Q)
    (stock_symbol index_symbol start_date end_date : string) (start end_ : Z) :
  to_datetime start_date = Ok start ->
  to_datetime end_date = Ok end_ ->
  get_direct_stock_data ns to_datetime download random
                        stock_symbol index_symbol start_date end_date
  = Some (Retry.mkRun
            (Ok (map (labelled stock_symbol) (bars_of 0%nat stock_symbol start end_) ++
                 map (labelled index_symbol) (bars_of 0%nat index_symbol start end_)))
            1 []).
Proof.
  intros Hs He; unfold get_direct_stock_data, Retry.wrapper, Retry.wrapper_fuel.
  cbn [Z.to_nat Pos.to_nat Pos.iter_op Nat.add Retry.loop].
  unfold get_direct_stock_data_body; rewrite Hs, He, !rows_of_try_download.
  reflexivity.
Qed.

(** The frame of [get_direct_stock_data], handed to the merge: the rows
    the merge selects for the stock symbol are the stock's bars; but when
    the stock download failed or was empty, the merge finds no row of the
    symbol, takes the whole frame, and so works on the bars of the index
    under the name of the stock. *)
Theorem selection_of_direct_stock_data (stock_symbol index_symbol : string)
    (stock_bars index_bars : list Bar) :
  stock_symbol <> index_symbol ->
  stock_selection (map (labelled stock_symbol) stock_bars ++
                   map (labelled index_symbol) index_bars) stock_symbol
  = match stock_bars with
    | [] => map (labelled index_symbol) index_bars
    | _ => map (labelled stock_symbol) stock_bars
    end.
Proof.
  intro Hne; unfold stock_selection; rewrite filter_app.
  assert (Hkeep : forall bars,
            filter (fun s => String.eqb (s_Symbol s) stock_symbol)
                   (map (labelled stock_symbol) bars)
            = map (labelled stock_symbol) bars).
  { induction bars as [|b bars IH]; [reflexivity|].
    cbn [map filter labelled s_Symbol]; now rewrite String.eqb_refl, IH. }
  assert (Hdrop : forall bars,
            filter (fun s => String.eqb (s_Symbol s) stock_symbol)
                   (map (labelled index_symbol) bars) = []).
  { induction bars as [|b bars IH]; [reflexivity|].
    cbn [map filter labelled s_Symbol].
    replace (String.eqb index_symbol stock_symbol) with false; [exact IH|].
    symmetry; apply String.eqb_neq; congruence. }
  rewrite Hkeep, Hdrop, app_nil_r.
  destruct stock_bars as [|b bars]; [reflexivity|].
  cbn [map app]; reflexivity.
Qed.

End DirectStockData.


(** ** add_sentiment_scores *)

(** On a frame with a title and a description column the scoring adds its
    five columns and touches nothing else: the articles stay in number and
    order, each with its date, time, title, description, content and url.
    The label of each row is the one [get_sentiment_label] gives to its
    compound score, and an article without title and description gets 0
    for all four scores, the neutral share included, and the label nötr. *)
Theorem add_sentiment_scores_rows (polarity_scores : string -> Q * Q * Q * Q)
    (df : NewsFrame) :
  has_column df "title" = true ->
  has_column df "description" = true ->
  news_columns (add_sentiment_scores polarity_scores df)
  = news_columns df ++
    ["sentiment_pos"; "sentiment_neu"; "sentiment_neg"; "sentiment_compound";
     "sentiment_label"] /\
  List.length (news_rows (add_sentiment_scores polarity_scores df))
  = List.length (news_rows df) /\
  forall i r, nth_error (news_rows df) i = Some r ->
    exists scored, nth_error (news_rows (add_sentiment_scores polarity_scores df)) i
                   = Some scored /\
      n_date scored = n_date r /\ n_publishedAt scored = n_publishedAt r /\
      n_title scored = n_title r /\ n_description scored = n_description r /\
      n_content scored = n_content r /\ n_url scored = n_url r /\
      n_sentiment_label scored = get_sentiment_label (n_sentiment_compound scored) /\
      (n_title r = ""%string -> n_description r = ""%string ->
       n_sentiment_compound scored = 0%Q /\ n_sentiment_pos scored = 0%Q /\
       n_sentiment_neg scored = 0%Q /\ n_sentiment_neu scored = 0%Q /\
       n_sentiment_label scored = "nötr"%string).
Proof.
  intros Ht Hd; unfold add_sentiment_scores; rewrite Ht, Hd; cbn [andb news_columns news_rows].
  split; [reflexivity|]; split; [apply length_map|].
  intros i r Hr; exists (score_row polarity_scores r); split.
  - now rewrite nth_error_map, Hr.
  - unfold score_row.
    destruct (get_sentiment polarity_scores (combine_text r)) as [[[c p] n] u] eqn:Hg.
    cbn; do 7 (split; [reflexivity|]); intros Et Ed.
    revert Hg; unfold get_sentiment, combine_text; rewrite Et, Ed.
    cbn; intros [= <- <- <- <-]; repeat split; reflexivity.
Qed.

(** *** The remaining properties at sample inputs *)

(** The unscored frame of one article. *)
Lemma add_sentiment_scores_rows_witness :
  news_columns (add_sentiment_scores Samples.neutral NewsSamples.fetched)
  = news_columns NewsSamples.fetched ++
    ["sentiment_pos"; "sentiment_neu"; "sentiment_neg"; "sentiment_compound";
     "sentiment_label"] /\
  List.length (news_rows (add_sentiment_scores Samples.neutral NewsSamples.fetched))
  = List.length (news_rows NewsSamples.fetched).
Proof.
  destruct (add_sentiment_scores_rows Samples.neutral NewsSamples.fetched)
    as (Hcolumns & Hlength & _); [reflexivity | reflexivity|].
  exact (conj Hcolumns Hlength).
Defined.

(** The sample headlines, scored with a key while every topics request fails. *)
Lemma process_text_data_raises_iff_witness :
  (Preprocessing.process_text_data (Some "key") Samples.draw_zero Samples.reply_high
     Samples.failing_topics Samples.headlines = Raise (OtherError "TypeError")
   <-> exists r, In r Samples.headlines /\
         (Preprocessing.x_title r = Preprocessing.Missing \/
          Preprocessing.x_description r = Preprocessing.Missing)) /\
  (Preprocessing.process_text_data (Some "key") Samples.draw_zero Samples.reply_high
     Samples.failing_topics Samples.headlines = Raise ValueError
   <-> (forall r, In r Samples.headlines ->
          ~ (Preprocessing.x_title r = Preprocessing.Missing \/
             Preprocessing.x_description r = Preprocessing.Missing)) /\
       exists i r, nth_error Samples.headlines i = Some r /\
         exists text, Preprocessing.news_text r = Ok text /\
           Preprocessing.too_short text = false /\
           exists reply e, Samples.reply_high i text = Ok reply /\
                           Samples.failing_topics i text = Raise e) /\
  (forall e, Preprocessing.process_text_data (Some "key") Samples.draw_zero
               Samples.reply_high Samples.failing_topics Samples.headlines = Raise e ->
             e = ValueError \/ e = OtherError "TypeError").
Proof.
  apply (process_text_data_raises_iff Samples.draw_zero Samples.reply_high
           Samples.failing_topics "key" Samples.headlines).
  discriminate.
Defined.

(** ** Texts beyond ASCII *)

(** [len] counts characters, not the bytes of the encoding, and [strip]
    knows the no-break space. *)
Lemma len_counts_characters :
  Unicode.len "çok kötü" = 8%nat /\ String.length "çok kötü" = 11%nat /\
  Unicode.len "öğle" = 4%nat /\ String.length "öğle" = 6%nat /\
  Unicode.take 2 "öğle" = "öğ" /\
  Unicode.strip (String.append (Unicode.utf8 [194; 160]%nat) " öğle  ") = "öğle".
Proof. repeat split; vm_compute; reflexivity. Qed.

(** A text of eight characters in eleven bytes is too short to be sent:
    no request is made for it, so the failing topics request cannot make
    the function raise, and the row gets the score 0. *)
Lemma short_turkish_text_is_not_sent :
  Preprocessing.process_text_data (Some "key") Samples.draw_zero Samples.reply_high
    Samples.failing_topics Samples.short_turkish
  = Ok (map (fun r => Preprocessing.mkScored r 0%Q (Some "") (Some "Nötr"))
            Samples.short_turkish).
Proof. vm_compute; reflexivity. Qed.

(** A NaN title ends the function with TypeError. *)
Lemma nan_title_raises :
  Preprocessing.process_text_data (Some "key") Samples.draw_zero Samples.reply_high
    Samples.reply_topics Samples.nan_title
  = Raise (OtherError "TypeError").
Proof. reflexivity. Qed.

(** The text cleaning drops a title of four characters in six bytes. *)
Lemma short_turkish_title_is_dropped :
  List.length (clean_text_data CleaningSamples.turkish_news) = 1%nat /\
  map i_title (clean_text_data CleaningSamples.turkish_news) = [Some "Borsa yükseldi"].
Proof. split; vm_compute; reflexivity. Qed.


(** The merged sample: its only article falls in sabah, so öğle has no column. *)
Lemma prepare_overwrites_merged_windows_witness :
  exists out g,
    prepare_sentiment_data Samples.merged_sample
    = Some (out, default_columns,
            filter is_title_column (columns Samples.merged_sample)) /\
    rows out = map g (rows Samples.merged_sample) /\
    forall r c, In c default_columns ->
      lookup c (g r) = Some (match lookup "daily_sentiment" r with
                             | Some NaN | None => Num 0
                             | Some v => v
                             end).
Proof.
  apply (prepare_overwrites_merged_windows Samples.nine Samples.zero Samples.two_symbols
           Samples.morning_news "AAPL"
           (map (fun n => set_time n (n_publishedAt n)) (news_rows Samples.morning_news))
           "öğle").
  - discriminate.
  - reflexivity.
  - reflexivity.
  - reflexivity.
  - reflexivity.
  - right; left; reflexivity.
  - reflexivity.
Defined.

(** Twenty rows and scores that grow with k: the candidates are 2, 3 and 4, and 4 is taken. *)
Lemma optimal_k_spec_witness :
  In 4%nat (Clustering.K_range 20) /\ (2 <= 4 <= 5)%nat /\ (5 * 4 <= 20)%nat /\
  exists score, SourceSamples.rising 4 = Ok score /\
    forall k' score', In k' (Clustering.K_range 20) -> SourceSamples.rising k' = Ok score' ->
      (score' <= score)%Q /\ ((k' < 4)%nat -> (score' < score)%Q).
Proof.
  apply (optimal_k_spec SourceSamples.rising 20 4); reflexivity.
Defined.

(** A span of 45 days: two requests. *)
Lemma get_news_data_closed_form_witness :
  Acquisition.get_news_data (Some "key") SourceSamples.parse_span Samples.print_any
    SourceSamples.one_article SourceSamples.no_sample "ACME" "2024-01-01" "2024-02-15"
  = Some (match collect
                  (fun k => SourceSamples.one_article "ACME"
                              (Samples.print_any (0 + 30 * Z.of_nat k))
                              (Samples.print_any (Z.min (0 + 30 * Z.of_nat k + 30) 45)))
                  (seq 0 (Z.to_nat ((45 - 0 + 29) / 30))) with
          | Raise _ => SourceSamples.no_sample "ACME" "2024-01-01" "2024-02-15"
          | Ok answers =>
            match flat_map (fun response =>
                              if String.eqb (Acquisition.status response) "ok"
                              then Acquisition.articles response else []) answers with
            | [] => SourceSamples.no_sample "ACME" "2024-01-01" "2024-02-15"
            | all_articles => Ok (map Acquisition.article_item all_articles)
            end
          end).
Proof.
  apply (get_news_data_closed_form SourceSamples.parse_span Samples.print_any
           SourceSamples.one_article SourceSamples.no_sample "key" "ACME"
           "2024-01-01" "2024-02-15" 0 45).
  - discriminate.
  - reflexivity.
  - reflexivity.
Defined.

(** The module as written, a stock whose download fails and an index with one bar. *)
Lemma get_direct_stock_data_single_call_witness :
  StockData.get_direct_stock_data news_module_globals Samples.parse_any
    SourceSamples.index_only Samples.half "AAPL" "^IXIC" "2024-01-01" "2024-02-01"
  = Some (Retry.mkRun
            (Ok (map (StockData.labelled "AAPL")
                     (match SourceSamples.index_only 0 "AAPL" 0 0 with
                      | Ok data => data
                      | Raise _ => []
                      end) ++
                 map (StockData.labelled "^IXIC")
                     (match SourceSamples.index_only 0 "^IXIC" 0 0 with
                      | Ok data => data
                      | Raise _ => []
                      end)))
            1 []).
Proof.
  apply (get_direct_stock_data_single_call Samples.parse_any SourceSamples.index_only
           news_module_globals Samples.half "AAPL" "^IXIC" "2024-01-01" "2024-02-01" 0 0);
    reflexivity.
Defined.

(** No bar of the stock and one of the index. *)
Lemma selection_of_direct_stock_data_witness :
  stock_selection (map (StockData.labelled "AAPL") [] ++
                   map (StockData.labelled "^IXIC") SourceSamples.one_bar) "AAPL"
  = map (StockData.labelled "^IXIC") SourceSamples.one_bar.
Proof.
  apply (selection_of_direct_stock_data "AAPL" "^IXIC" [] SourceSamples.one_bar).
  discriminate.
Defined.


(** ** retry_with_backoff where [time.sleep] works *)

Section RetryWorking.

Variable A : Type.
Variable initial_delay exponential_base : Q.
Variable jitter : bool.
Variable max_retries : Z.
Variable ns : namespace.
Variable func : nat -> result A.
Variable random : nat -> Q.

Hypothesis time_is_module : lookup_name ns "time" = Some TimeModule.
Hypothesis base_positive : (0 <= exponential_base)%Q.
Hypothesis random_positive : forall i, (0 <= random i)%Q.




End RetryWorking.

